(** * teams-openphone-sync: the call-to-presence engine of [src/server.js]

    A shallow embedding of the signature verifier
    ([verifyOpenPhoneSignature]), the identity mapper
    ([getTeamsUserFromOpenPhoneUser]), the call table ([activeCalls]), the
    presence setter ([setTeamsPresence], [getTeamsAccessToken]) and the
    webhook handler ([app.post('/webhook/openphone')]).

    Conventions.
    - A JavaScript string is modelled by the bytes of its UTF-8 encoding
      (a Rocq [string]); [';'] and ['.'] are ASCII, so splitting and
      concatenating commute with the encoding, and [Buffer.from(s)] and
      [update(s, 'utf8')] are the identity on this representation. A string
      with a lone surrogate has no UTF-8 encoding; Node writes U+FFFD in
      its place, and [utf8_of_units] gives the bytes Node writes for any
      sequence of UTF-16 code units.
    - The functions of Node's [crypto] and [Buffer] that the verifier calls
      are embedded as executable definitions (SHA-256 after FIPS 180-4,
      HMAC after RFC 2104, base64 after RFC 4648 with Node's lenient
      decoder), so that the verifier runs on concrete requests.
    - Resource limits of the engine (stack depth, memory) are not modelled.
    - The handler's [if / else if] chain is closed once too often in the
      source (lines 182-184: the pasted [call.completed] branch brings its
      own closing brace); the embedding reads the chain the way its
      indentation and the surrounding [try / catch] give it: both branches
      and [res.status(200)] lie inside the [try]. *)

From Stdlib Require Import ZArith Ascii String List Lia DecimalString.
From stdpp Require Import base option gmap strings list fin_maps.
From Stdlib Require DecimalFacts DecimalPos.

#[local] Set Warnings "-register-all".
#[local] Set Warnings "-automation".
#[local] Set Warnings "-default".

Local Open Scope string_scope.
Local Open Scope list_scope.
Local Open Scope Z_scope.

(** ** Bytes and strings *)

Definition byte_of_ascii (c : ascii) : Z := Z.of_N (N_of_ascii c).
Definition ascii_of_byte (b : Z) : ascii := ascii_of_N (Z.to_N (b mod 256)).

Definition bytes_of_string (s : string) : list Z :=
  map byte_of_ascii (list_ascii_of_string s).
Definition string_of_bytes (l : list Z) : string :=
  string_of_list_ascii (map ascii_of_byte l).

(** ** SHA-256 (the digest behind [crypto.createHmac('sha256', key)]) *)

Module SHA256.

Definition mask32 : Z := 0xFFFFFFFF.
Definition add32 (x y : Z) : Z := (x + y) mod 2 ^ 32.
Definition not32 (x : Z) : Z := Z.lxor x mask32.
Definition rotr (n x : Z) : Z :=
  Z.lor (Z.shiftr x n) (Z.land (Z.shiftl x (32 - n)) mask32).

Definition Ch (x y z : Z) : Z := Z.lxor (Z.land x y) (Z.land (not32 x) z).
Definition Maj (x y z : Z) : Z :=
  Z.lxor (Z.lxor (Z.land x y) (Z.land x z)) (Z.land y z).
Definition Sigma0 (x : Z) : Z := Z.lxor (Z.lxor (rotr 2 x) (rotr 13 x)) (rotr 22 x).
Definition Sigma1 (x : Z) : Z := Z.lxor (Z.lxor (rotr 6 x) (rotr 11 x)) (rotr 25 x).
Definition sigma0 (x : Z) : Z := Z.lxor (Z.lxor (rotr 7 x) (rotr 18 x)) (Z.shiftr x 3).
Definition sigma1 (x : Z) : Z := Z.lxor (Z.lxor (rotr 17 x) (rotr 19 x)) (Z.shiftr x 10).

(** The primes up to 311, the first sixty-four (trial division by 2..17
    decides primality below 324). *)
Definition is_prime (n : Z) : bool :=
  (1 <? n) && forallb (fun d => (n <? d * d) || negb (n mod d =? 0))
                      (map Z.of_nat (seq 2 16)).

Definition primes : list Z := filter is_prime (map Z.of_nat (seq 2 310)).

(** The integer cube root, bit by bit from above. *)
Definition icbrt (n : Z) : Z :=
  fold_left (fun r i => let r' := r + 2 ^ i in if r' * r' * r' <=? n then r' else r)
            (rev (map Z.of_nat (seq 0 40))) 0.

(** The round constants: the first 32 bits of the fractional parts of the
    cube roots of the first sixty-four primes. *)
Definition K : list Z :=
  Eval vm_compute in map (fun p => icbrt (p * 2 ^ 96) mod 2 ^ 32) primes.

(** The eight working registers. *)
Record regs := Regs { ra : Z; rb : Z; rc : Z; rd : Z; re : Z; rf : Z; rg : Z; rh : Z }.

(** The initial hash value: the first 32 bits of the fractional parts of the
    square roots of the first eight primes. *)
Definition frac_sqrt (p : Z) : Z := Z.sqrt (p * 2 ^ 64) mod 2 ^ 32.

Definition H0 : regs :=
  Eval vm_compute in
    Regs (frac_sqrt 2) (frac_sqrt 3) (frac_sqrt 5) (frac_sqrt 7)
         (frac_sqrt 11) (frac_sqrt 13) (frac_sqrt 17) (frac_sqrt 19).

(** One round; [win] is the sliding window W[t .. t+15] of the schedule. *)
Definition round (st : regs * list Z) (k : Z) : regs * list Z :=
  let '(r, win) := st in
  let w := nth 0 win 0 in
  let t1 := add32 (add32 (add32 (add32 (rh r) (Sigma1 (re r))) (Ch (re r) (rf r) (rg r))) k) w in
  let t2 := add32 (Sigma0 (ra r)) (Maj (ra r) (rb r) (rc r)) in
  let wnew := add32 (add32 (add32 (sigma1 (nth 14 win 0)) (nth 9 win 0))
                           (sigma0 (nth 1 win 0))) w in
  (Regs (add32 t1 t2) (ra r) (rb r) (rc r) (add32 (rd r) t1) (re r) (rf r) (rg r),
   tl win ++ [wnew]).

Definition add_regs (x y : regs) : regs :=
  Regs (add32 (ra x) (ra y)) (add32 (rb x) (rb y)) (add32 (rc x) (rc y))
       (add32 (rd x) (rd y)) (add32 (re x) (re y)) (add32 (rf x) (rf y))
       (add32 (rg x) (rg y)) (add32 (rh x) (rh y)).

(** Compression of one 16-word block into the chaining value. *)
Definition compress (h : regs) (block : list Z) : regs :=
  add_regs h (fst (fold_left round K (h, block))).

Fixpoint be_words (n : nat) (bs : list Z) : list Z :=
  match n with
  | O => []
  | S n' =>
      match bs with
      | b0 :: b1 :: b2 :: b3 :: r =>
          (b0 * 2 ^ 24 + b1 * 2 ^ 16 + b2 * 2 ^ 8 + b3) :: be_words n' r
      | _ => []
      end
  end.

Definition be_bytes (nbytes : nat) (x : Z) : list Z :=
  map (fun i => Z.shiftr x (8 * Z.of_nat i) mod 256) (rev (seq 0 nbytes)).

(** Message padding: a 1 bit, zeros up to 56 mod 64, the bit length on 8 bytes. *)
Definition pad (msg : list Z) : list Z :=
  let n := Z.of_nat (length msg) in
  let z := Z.to_nat ((55 - n) mod 64) in
  msg ++ [0x80] ++ repeat 0 z ++ be_bytes 8 (8 * n).

Fixpoint blocks (n : nat) (h : regs) (bs : list Z) : regs :=
  match n with
  | O => h
  | S n' => blocks n' (compress h (be_words 16 bs)) (skipn 64 bs)
  end.

Definition digest_of_regs (r : regs) : list Z :=
  be_bytes 4 (ra r) ++ be_bytes 4 (rb r) ++ be_bytes 4 (rc r) ++ be_bytes 4 (rd r) ++
  be_bytes 4 (re r) ++ be_bytes 4 (rf r) ++ be_bytes 4 (rg r) ++ be_bytes 4 (rh r).

Definition sha256 (msg : list Z) : list Z :=
  let p := pad msg in
  digest_of_regs (blocks (Nat.div (length p) 64) H0 p).

End SHA256.

(** ** HMAC-SHA256 (RFC 2104, block size 64) *)

Module HMAC.

Definition block_key (key : list Z) : list Z :=
  let k := if (64 <? length key)%nat then SHA256.sha256 key else key in
  k ++ repeat 0 (64 - length k)%nat.

Definition hmac_sha256 (key msg : list Z) : list Z :=
  let k := block_key key in
  let ipad := map (Z.lxor 0x36) k in
  let opad := map (Z.lxor 0x5c) k in
  SHA256.sha256 (opad ++ SHA256.sha256 (ipad ++ msg)).

End HMAC.

(** ** base64 ([digest('base64')] and [Buffer.from(secret, 'base64')]) *)

Module Base64.

Definition alphabet : string :=
  "ABCDEFGHIJKLMNOPQRSTUVWXYZabcdefghijklmnopqrstuvwxyz0123456789+/".

Definition enc_char (n : Z) : ascii :=
  match String.get (Z.to_nat n) alphabet with
  | Some c => c
  | None => "="%char
  end.

Fixpoint encode_list (bs : list Z) : list ascii :=
  match bs with
  | [] => []
  | [a] => [enc_char (a / 4); enc_char (a mod 4 * 16); "="%char; "="%char]
  | [a; b] =>
      [enc_char (a / 4); enc_char (a mod 4 * 16 + b / 16);
       enc_char (b mod 16 * 4); "="%char]
  | a :: b :: c :: r =>
      enc_char (a / 4) :: enc_char (a mod 4 * 16 + b / 16) ::
      enc_char (b mod 16 * 4 + c / 64) :: enc_char (c mod 64) :: encode_list r
  end.

Definition encode (bs : list Z) : string := string_of_list_ascii (encode_list bs).

(** Node's decoding table: both the standard and the URL-safe alphabet. *)
Definition dec_char (c : ascii) : option Z :=
  let n := byte_of_ascii c in
  if (65 <=? n) && (n <=? 90) then Some (n - 65)
  else if (97 <=? n) && (n <=? 122) then Some (n - 71)
  else if (48 <=? n) && (n <=? 57) then Some (n + 4)
  else if (n =? 43) || (n =? 45) then Some 62
  else if (n =? 47) || (n =? 95) then Some 63
  else None.

(** Characters outside the alphabet are skipped; decoding stops at ['=']. *)
Fixpoint sextets (s : list ascii) : list Z :=
  match s with
  | [] => []
  | c :: r =>
      if Ascii.eqb c "="%char then []
      else match dec_char c with
           | Some v => v :: sextets r
           | None => sextets r
           end
  end.

Fixpoint group (l : list Z) : list Z :=
  match l with
  | a :: b :: c :: d :: r =>
      (a * 4 + b / 16) :: (b mod 16 * 16 + c / 4) :: (c mod 4 * 64 + d) :: group r
  | [a; b; c] => [a * 4 + b / 16; b mod 16 * 16 + c / 4]
  | [a; b] => [a * 4 + b / 16]
  | _ => []
  end.

Definition decode (s : string) : list Z := group (sextets (list_ascii_of_string s)).

End Base64.

(** ** JavaScript completions *)

Inductive js_error : Type :=
  | TypeError (msg : string)
  | RangeError (msg : string)
  | AxiosError (msg : string).

Inductive completion (A : Type) : Type :=
  | Normal (a : A)
  | Throw (e : js_error).
Arguments Normal {A} a.
Arguments Throw {A} e.

Definition cbind {A B : Type} (c : completion A) (k : A -> completion B) : completion B :=
  match c with
  | Normal a => k a
  | Throw e => Throw e
  end.

(** ** JSON values: what [express.json()] hands to the handler as [req.body]

    Numbers are the integers of magnitude at most 2^53: a JavaScript number
    holds each of them exactly and prints it in plain decimal. [JNum n] with
    a larger [n] stands for no JavaScript value, and numbers with a fraction
    are outside the model. The properties of an object are its own
    properties in JavaScript's enumeration order; a well-formed object names
    each key once. *)

Inductive json : Type :=
  | JNull
  | JBool (b : bool)
  | JNum (n : Z)
  | JStr (s : string)
  | JArr (elems : list json)
  | JObj (props : list (string * json)).

(** A JavaScript value read off a request: a JSON value or [undefined]. *)
Inductive value : Type :=
  | Undefined
  | Json (j : json).

Definition string_of_Z (n : Z) : string := NilZero.string_of_int (Z.to_int n).

Fixpoint join (sep : string) (l : list string) : string :=
  match l with
  | [] => EmptyString
  | [x] => x
  | x :: r => x +:+ sep +:+ join sep r
  end.

Fixpoint obj_get (name : string) (props : list (string * json)) : option json :=
  match props with
  | [] => None
  | (k, v) :: r => if String.eqb k name then Some v else obj_get name r
  end.

(** [v.name] for the property names the handler reads ([type], [id], [data],
    [object], [userId], [direction]): none of them is a member of a
    prototype, an array index or [length], so only an object's own
    properties answer; reading a property of [undefined] or [null] throws. *)
Definition get_prop (v : value) (name : string) : completion value :=
  match v with
  | Undefined =>
      Throw (TypeError ("Cannot read properties of undefined (reading '" +:+ name +:+ "')"))
  | Json JNull =>
      Throw (TypeError ("Cannot read properties of null (reading '" +:+ name +:+ "')"))
  | Json (JObj props) =>
      Normal (match obj_get name props with Some j => Json j | None => Undefined end)
  | Json _ => Normal Undefined
  end.

(** [v?.name] *)
Definition get_prop_opt (v : value) (name : string) : value :=
  match get_prop v name with
  | Normal x => x
  | Throw _ => Undefined
  end.

(** [ToString] on a JSON value (template literals, property keys). An object
    converts through [Object.prototype.toString] unless it has an own
    property [toString]: a JSON value is never callable, so the conversion
    then falls to [valueOf], obtains no primitive and throws. An array
    converts through [join]. *)
Fixpoint to_string_json (j : json) : completion string :=
  match j with
  | JNull => Normal "null"
  | JBool b => Normal (if b then "true" else "false")
  | JNum n => Normal (string_of_Z n)
  | JStr s => Normal s
  | JArr elems =>
      (fix go (l : list json) : completion string :=
         match l with
         | [] => Normal EmptyString
         | x :: r =>
             cbind (match x with JNull => Normal EmptyString | _ => to_string_json x end)
               (fun s =>
                  match r with
                  | [] => Normal s
                  | _ => cbind (go r) (fun t => Normal (s +:+ "," +:+ t))
                  end)
         end) elems
  | JObj props =>
      match obj_get "toString" props with
      | Some _ => Throw (TypeError "Cannot convert object to primitive value")
      | None => Normal "[object Object]"
      end
  end.

Definition to_string (v : value) : completion string :=
  match v with
  | Undefined => Normal "undefined"
  | Json j => to_string_json j
  end.

(** *** [JSON.stringify] *)

Definition dquote : ascii := "034"%char.

Module JSON.

Definition hex4 (n : Z) : string :=
  string_of_list_ascii
    (map (fun i => let d := Z.shiftr n (4 * i) mod 16 in
                   ascii_of_byte (if d <? 10 then 48 + d else 87 + d))
         [3; 2; 1; 0]).

Definition quote_char (c : ascii) : string :=
  let n := byte_of_ascii c in
  if n =? 34 then String "\"%char (String dquote EmptyString)
  else if n =? 92 then "\\"
  else if n =? 8 then "\b"
  else if n =? 12 then "\f"
  else if n =? 10 then "\n"
  else if n =? 13 then "\r"
  else if n =? 9 then "\t"
  else if n <? 32 then "\u" +:+ hex4 n
  else String c EmptyString.

Fixpoint quote_body (s : string) : string :=
  match s with
  | EmptyString => EmptyString
  | String c r => quote_char c +:+ quote_body r
  end.

Definition quote (s : string) : string :=
  String dquote (quote_body s +:+ String dquote EmptyString).

Fixpoint stringify (j : json) : string :=
  match j with
  | JNull => "null"
  | JBool b => if b then "true" else "false"
  | JNum n => string_of_Z n
  | JStr s => quote s
  | JArr elems => "[" +:+ join "," (map stringify elems) +:+ "]"
  | JObj props =>
      "{" +:+ join "," (map (fun p => quote (fst p) +:+ ":" +:+ stringify (snd p)) props) +:+ "}"
  end.

End JSON.

(** *** [JSON.parse] and the body parser

    The parser is partial. It covers JSON text whose numbers are integer
    literals of magnitude at most 2^53 (beyond that [JSON.parse] rounds to
    the nearest double) and whose [\u] escapes name a code point outside the
    surrogate range. [None] is its answer on text that is not JSON and also
    on JSON text outside this fragment (a fraction, an exponent, a larger
    integer, a surrogate escape), which [JSON.parse] accepts: [None] says
    that the model has no value for the text, not that the text is refused.
    Objects are built the way JavaScript defines properties: a repeated key
    overwrites in place, and array-index keys enumerate first, in ascending
    order. *)

Module Parse.

Definition is_ws (c : ascii) : bool :=
  match c with
  | " "%char | "009"%char | "010"%char | "013"%char => true
  | _ => false
  end.

Fixpoint skip_ws (s : list ascii) : list ascii :=
  match s with
  | c :: r => if is_ws c then skip_ws r else s
  | [] => []
  end.

Definition digit (c : ascii) : option Z :=
  let n := byte_of_ascii c in
  if (48 <=? n) && (n <=? 57) then Some (n - 48) else None.

Definition hexdigit (c : ascii) : option Z :=
  let n := byte_of_ascii c in
  if (48 <=? n) && (n <=? 57) then Some (n - 48)
  else if (65 <=? n) && (n <=? 70) then Some (n - 55)
  else if (97 <=? n) && (n <=? 102) then Some (n - 87)
  else None.

Fixpoint parse_digits (acc : Z) (s : list ascii) : Z * list ascii :=
  match s with
  | c :: r =>
      match digit c with
      | Some d => parse_digits (acc * 10 + d) r
      | None => (acc, s)
      end
  | [] => (acc, [])
  end.

Definition integer_ends (r : list ascii) : bool :=
  match r with
  | "."%char :: _ | "e"%char :: _ | "E"%char :: _ => false
  | _ => true
  end.

Definition parse_number (s : list ascii) : option (Z * list ascii) :=
  let '(neg, s1) := match s with
                    | "-"%char :: r => (true, r)
                    | _ => (false, s)
                    end in
  match s1 with
  | c :: r =>
      match digit c with
      | Some d =>
          let '(n, r') := if d =? 0 then (0, r) else parse_digits d r in
          if integer_ends r' && (n <=? 2 ^ 53)
          then Some (if neg then - n else n, r') else None
      | None => None
      end
  | [] => None
  end.

Definition utf8 (cp : Z) : option (list Z) :=
  if cp <? 0x80 then Some [cp]
  else if cp <? 0x800 then Some [0xC0 + cp / 64; 0x80 + cp mod 64]
  else if (0xD800 <=? cp) && (cp <=? 0xDFFF) then None
  else Some [0xE0 + cp / 4096; 0x80 + cp / 64 mod 64; 0x80 + cp mod 64].

Definition unescape (c : ascii) : option ascii :=
  match c with
  | "034"%char => Some dquote
  | "\"%char => Some "\"%char
  | "/"%char => Some "/"%char
  | "b"%char => Some "008"%char
  | "f"%char => Some "012"%char
  | "n"%char => Some "010"%char
  | "r"%char => Some "013"%char
  | "t"%char => Some "009"%char
  | _ => None
  end.

Definition prepend (cs : list ascii) (k : option (string * list ascii))
  : option (string * list ascii) :=
  match k with
  | Some (s, r) => Some (fold_right String s cs, r)
  | None => None
  end.

(** The characters of a string literal, after its opening quote. *)
Fixpoint parse_string (s : list ascii) : option (string * list ascii) :=
  match s with
  | [] => None
  | c :: r =>
      if Ascii.eqb c dquote then Some (EmptyString, r)
      else if Ascii.eqb c "\"%char then
        match r with
        | "u"%char :: h1 :: h2 :: h3 :: h4 :: r' =>
            match hexdigit h1, hexdigit h2, hexdigit h3, hexdigit h4 with
            | Some a, Some b, Some c', Some d =>
                match utf8 (((a * 16 + b) * 16 + c') * 16 + d) with
                | Some bs => prepend (map ascii_of_byte bs) (parse_string r')
                | None => None
                end
            | _, _, _, _ => None
            end
        | e :: r' =>
            match unescape e with
            | Some c' => prepend [c'] (parse_string r')
            | None => None
            end
        | [] => None
        end
      else if byte_of_ascii c <? 32 then None
      else prepend [c] (parse_string r)
  end.

(** A canonical array index: decimal, no leading zero, below 2^32 - 1. *)
Definition array_index (k : string) : option Z :=
  match list_ascii_of_string k with
  | [] => None
  | c :: r =>
      match digit c with
      | Some d =>
          if (d =? 0) && negb (length r =? 0)%nat then None
          else match parse_digits d r with
               | (n, []) => if n <? 2 ^ 32 - 1 then Some n else None
               | _ => None
               end
      | None => None
      end
  end.

Fixpoint obj_replace (k : string) (v : json) (props : list (string * json))
  : list (string * json) :=
  match props with
  | [] => []
  | (k', v') :: r =>
      if String.eqb k' k then (k', v) :: r else (k', v') :: obj_replace k v r
  end.

Fixpoint obj_insert_index (n : Z) (k : string) (v : json) (props : list (string * json))
  : list (string * json) :=
  match props with
  | [] => [(k, v)]
  | (k', v') :: r =>
      match array_index k' with
      | Some n' => if n' <? n then (k', v') :: obj_insert_index n k v r
                   else (k, v) :: props
      | None => (k, v) :: props
      end
  end.

Definition obj_define (k : string) (v : json) (props : list (string * json))
  : list (string * json) :=
  match obj_get k props with
  | Some _ => obj_replace k v props
  | None =>
      match array_index k with
      | Some n => obj_insert_index n k v props
      | None => props ++ [(k, v)]
      end
  end.

Fixpoint parse_value (fuel : nat) (s : list ascii) : option (json * list ascii) :=
  match fuel with
  | O => None
  | S f =>
      match skip_ws s with
      | "{"%char :: r =>
          match skip_ws r with
          | "}"%char :: r' => Some (JObj [], r')
          | _ => parse_members f [] r
          end
      | "["%char :: r =>
          match skip_ws r with
          | "]"%char :: r' => Some (JArr [], r')
          | _ => parse_elements f [] r
          end
      | "034"%char :: r =>
          match parse_string r with
          | Some (str, r') => Some (JStr str, r')
          | None => None
          end
      | "t"%char :: "r"%char :: "u"%char :: "e"%char :: r => Some (JBool true, r)
      | "f"%char :: "a"%char :: "l"%char :: "s"%char :: "e"%char :: r => Some (JBool false, r)
      | "n"%char :: "u"%char :: "l"%char :: "l"%char :: r => Some (JNull, r)
      | s' =>
          match parse_number s' with
          | Some (n, r) => Some (JNum n, r)
          | None => None
          end
      end
  end
with parse_members (fuel : nat) (acc : list (string * json)) (s : list ascii)
  : option (json * list ascii) :=
  match fuel with
  | O => None
  | S f =>
      match skip_ws s with
      | "034"%char :: r =>
          match parse_string r with
          | Some (k, r1) =>
              match skip_ws r1 with
              | ":"%char :: r2 =>
                  match parse_value f r2 with
                  | Some (v, r3) =>
                      let acc' := obj_define k v acc in
                      match skip_ws r3 with
                      | ","%char :: r4 => parse_members f acc' r4
                      | "}"%char :: r4 => Some (JObj acc', r4)
                      | _ => None
                      end
                  | None => None
                  end
              | _ => None
              end
          | None => None
          end
      | _ => None
      end
  end
with parse_elements (fuel : nat) (acc : list json) (s : list ascii)
  : option (json * list ascii) :=
  match fuel with
  | O => None
  | S f =>
      match parse_value f s with
      | Some (v, r) =>
          match skip_ws r with
          | ","%char :: r' => parse_elements f (acc ++ [v]) r'
          | "]"%char :: r' => Some (JArr (acc ++ [v]), r')
          | _ => None
          end
      | None => None
      end
  end.

(** [JSON.parse(text)] *)
Definition parse (text : string) : option json :=
  let l := list_ascii_of_string text in
  match parse_value (2 * length l + 2) l with
  | Some (j, r) => match skip_ws r with [] => Some j | _ => None end
  | None => None
  end.

(** The body parser [express.json()] of line 10 with its defaults (strict
    mode, a limit of 100kb), on the bytes [raw] of a request of JSON content
    type: an empty body gives the empty object, a body of more than 102400
    bytes is refused, and the text has to start an object or an array.
    [Some body]: the handler runs with [req.body = body]. [None]: the
    middleware refuses the request, or the text is outside what [parse]
    covers. *)
Definition express_json (raw : string) : option json :=
  match raw with
  | EmptyString => Some (JObj [])
  | _ =>
      if 102400 <? Z.of_nat (String.length raw) then None
      else
        match skip_ws (list_ascii_of_string raw) with
        | "{"%char :: _ | "["%char :: _ => parse raw
        | _ => None
        end
  end.

End Parse.

(** JSON text written with ['] for the double quote. *)
Definition js_text (s : string) : string :=
  string_of_list_ascii
    (map (fun c => if Ascii.eqb c "'"%char then dquote else c) (list_ascii_of_string s)).

(** ** What the process does to the outside world *)

(** The value [getTeamsUserFromOpenPhoneUser] finds under a key: an entry of
    [userMapping], or the member of [Object.prototype] that a key such as
    [toString] reaches through the prototype chain. *)
Inductive teams_user : Type :=
  | TeamsEmail (email : string)
  | Inherited (name : string).

Inductive effect : Type :=
  | ConsoleLog (msg : string) (fields : list (string * value))
  | ConsoleError (msg : string) (err : option js_error)
  | Call_setTeamsPresence (userEmail : teams_user) (availability activity : string)
  | TokenRequest
  | PresenceRequest (userEmail : teams_user) (sessionId availability activity token : string).

(** ** The signature verifier *)

(** [crypto.timingSafeEqual(a, b)]: a [RangeError] when the byte lengths
    differ, otherwise whether the buffers hold the same bytes. *)
Definition timingSafeEqual (a b : list Z) : completion bool :=
  if negb (length a =? length b)%nat
  then Throw (RangeError "Input buffers must have the same byte length")
  else Normal (forallb (fun p => fst p =? snd p) (combine a b)).

(** [crypto.createHmac('sha256', key).update(data, 'utf8').digest('base64')] *)
Definition hmac_sha256_base64 (key : list Z) (data : string) : string :=
  Base64.encode (HMAC.hmac_sha256 key (bytes_of_string data)).

(** [s.split(sep)] for a one-character separator. *)
Fixpoint split (sep : ascii) (s : string) : list string :=
  match s with
  | EmptyString => [EmptyString]
  | String c r =>
      if Ascii.eqb c sep then EmptyString :: split sep r
      else match split sep r with
           | h :: t => String c h :: t
           | [] => [String c EmptyString]
           end
  end.

(** Truthiness of a string that may be [undefined]. *)
Definition truthy_string (s : option string) : bool :=
  match s with
  | Some (String _ _) => true
  | _ => false
  end.

(** [verifyOpenPhoneSignature(payload, signature, secret)] (lines 86-115):
    what it prints and how it completes. *)
Definition verifyOpenPhoneSignature
    (payload : string) (signature secret : option string)
  : list effect * completion bool :=
  if negb (truthy_string signature) || negb (truthy_string secret) then
    ([ConsoleLog "No signature verification - webhook secret not configured" []],
     Normal true)
  else
    let fields := split ";"%char (default EmptyString signature) in
    if (length fields <? 4)%nat then ([], Normal false)
    else
      let timestamp := nth 2 fields EmptyString in
      let providedDigest := nth 3 fields EmptyString in
      let signedData := timestamp +:+ "." +:+ payload in
      let signingKeyBinary := Base64.decode (default EmptyString secret) in
      let computedDigest := hmac_sha256_base64 signingKeyBinary signedData in
      ([], timingSafeEqual (bytes_of_string providedDigest)
                           (bytes_of_string computedDigest)).

(** ** The identity mapper *)

Definition userMapping : gmap string string :=
  {[ "US2gwvMWKA" := "Tyler@WindsorM.com" ]}.

(** The names every plain object inherits. *)
Definition object_prototype_members : list string :=
  [ "constructor"; "__defineGetter__"; "__defineSetter__"; "hasOwnProperty";
    "__lookupGetter__"; "__lookupSetter__"; "isPrototypeOf";
    "propertyIsEnumerable"; "toString"; "valueOf"; "__proto__"; "toLocaleString" ].

(** [getTeamsUserFromOpenPhoneUser(openPhoneUserId)]: the argument is
    converted to a property key, then looked up in the object literal. *)
Definition getTeamsUserFromOpenPhoneUser (openPhoneUserId : value)
  : completion (option teams_user) :=
  cbind (to_string openPhoneUserId) (fun key =>
    Normal (match userMapping !! key with
            | Some email => Some (TeamsEmail email)
            | None =>
                if existsb (String.eqb key) object_prototype_members
                then Some (Inherited key) else None
            end)).

(** [if (teamsUser)] *)
Definition truthy_user (u : option teams_user) : bool :=
  match u with
  | Some (TeamsEmail EmptyString) => false
  | Some _ => true
  | None => false
  end.

(** [`${teamsUser}`] *)
Definition show_teams_user (u : teams_user) : string :=
  match u with
  | TeamsEmail email => email
  | Inherited name =>
      if String.eqb name "__proto__" then "[object Object]"
      else "function " +:+ (if String.eqb name "constructor" then "Object" else name)
           +:+ "() { [native code] }"
  end.

(** ** The call table [activeCalls] *)

(** Keys of a [Map] are compared by SameValueZero: primitives by value,
    objects and arrays by identity. *)
Inductive mapkey : Type :=
  | KUndefined
  | KNull
  | KBool (b : bool)
  | KNum (n : Z)
  | KStr (s : string)
  | KObj (id : nat).

#[global] Instance mapkey_eq_dec : EqDecision mapkey.
Proof. solve_decision. Defined.

#[global] Instance mapkey_countable : Countable mapkey.
Proof.
  refine (inj_countable'
            (fun k => match k with
                      | KUndefined => inl tt
                      | KNull => inr (inl tt)
                      | KBool b => inr (inr (inl b))
                      | KNum n => inr (inr (inr (inl n)))
                      | KStr s => inr (inr (inr (inr (inl s))))
                      | KObj id => inr (inr (inr (inr (inr id))))
                      end : unit + (unit + (bool + (Z + (string + nat)))))
            (fun e => match e with
                      | inl _ => KUndefined
                      | inr (inl _) => KNull
                      | inr (inr (inl b)) => KBool b
                      | inr (inr (inr (inl n))) => KNum n
                      | inr (inr (inr (inr (inl s)))) => KStr s
                      | inr (inr (inr (inr (inr id)))) => KObj id
                      end) _).
  intros []; reflexivity.
Defined.

(** The key a value makes; [oid] is the identity of the value when it is an
    object or an array. *)
Definition mapkey_of (oid : nat) (v : value) : mapkey :=
  match v with
  | Undefined => KUndefined
  | Json JNull => KNull
  | Json (JBool b) => KBool b
  | Json (JNum n) => KNum n
  | Json (JStr s) => KStr s
  | Json (JArr _) | Json (JObj _) => KObj oid
  end.

Record CallRecord : Type := mkCallRecord {
  userId : value;
  startTime : Z;
  direction : value
}.

(** ** The process: its state, its surroundings, its requests *)

Record state : Type := mkState {
  activeCalls : gmap mapkey CallRecord;
  next_object : nat;            (* the identity the next allocated object gets *)
  trace : list effect           (* what the process has done so far *)
}.

(** The state the module starts in: [new Map()]. *)
Definition initial_state : state := mkState ∅ 0 [].

(** What one handler run reads from outside. A run makes at most one token
    request and one presence request. *)
Record world : Type := mkWorld {
  OPENPHONE_WEBHOOK_SECRET : option string;   (* process.env *)
  now : Z;                                    (* new Date() *)
  randomUUID : string;                        (* crypto.randomUUID() *)
  token_response : completion string;         (* the token endpoint *)
  presence_response : completion Z            (* the presence endpoint: a 2xx status *)
}.

Record request : Type := mkRequest {
  body : json;                                (* req.body *)
  openphone_signature : option string         (* req.headers['openphone-signature'] *)
}.

Record response : Type := mkResponse {
  status : Z;
  sent : string
}.

(** ** Handler code: state passing with completions *)

Definition M (A : Type) : Type := state -> completion A * state.

Definition ret {A : Type} (a : A) : M A := fun st => (Normal a, st).

Definition bind {A B : Type} (m : M A) (k : A -> M B) : M B :=
  fun st =>
    match m st with
    | (Normal a, st') => k a st'
    | (Throw e, st') => (Throw e, st')
    end.

Definition lift {A : Type} (c : completion A) : M A := fun st => (c, st).

Definition throw {A : Type} (e : js_error) : M A := fun st => (Throw e, st).

Definition emit (e : effect) : M unit :=
  fun st => (Normal tt, mkState (activeCalls st) (next_object st) (trace st ++ [e])).

Definition emit_all (es : list effect) : M unit :=
  fun st => (Normal tt, mkState (activeCalls st) (next_object st) (trace st ++ es)).

Declare Scope handler_scope.
Delimit Scope handler_scope with handler.
Notation "x <- m ;; k" := (bind m (fun x => k))
  (at level 100, m at next level, right associativity) : handler_scope.
Notation "m ;;; k" := (bind m (fun _ => k))
  (at level 100, right associativity) : handler_scope.
Local Open Scope handler_scope.

(** The objects of a parsed body are new. *)
Definition fresh_object : M nat :=
  fun st => (Normal (next_object st),
             mkState (activeCalls st) (S (next_object st)) (trace st)).

(** [activeCalls.set(key, record)] *)
Definition activeCalls_set (k : mapkey) (r : CallRecord) : M unit :=
  fun st => (Normal tt, mkState (<[k := r]> (activeCalls st)) (next_object st) (trace st)).

(** [activeCalls.get(key)] *)
Definition activeCalls_get (k : mapkey) : M (option CallRecord) :=
  fun st => (Normal (activeCalls st !! k), st).

(** [activeCalls.delete(key)] *)
Definition activeCalls_delete (k : mapkey) : M bool :=
  fun st => (Normal (bool_decide (is_Some (activeCalls st !! k))),
             mkState (delete k (activeCalls st)) (next_object st) (trace st)).

(** [activeCalls.size] *)
Definition activeCalls_size (st : state) : nat := size (activeCalls st).

(** "Store active call" (lines 146-150): the tracker's [onCallStarted]. *)
Definition onCallStarted (w : world) (callId : mapkey) (providerUserId callDirection : value)
  : M unit :=
  activeCalls_set callId (mkCallRecord providerUserId (now w) callDirection).

(** "Remove from active calls" (lines 169-170): the tracker's
    [onCallCompleted], which yields [activeCall]. *)
Definition onCallCompleted (callId : mapkey) : M (option CallRecord) :=
  activeCall <- activeCalls_get callId ;;
  activeCalls_delete callId ;;;
  ret activeCall.

(** ** The presence setter *)

(** [getTeamsAccessToken()] (lines 30-49) *)
Definition getTeamsAccessToken (w : world) : M string :=
  emit TokenRequest ;;;
  match token_response w with
  | Normal access_token => ret access_token
  | Throw error =>
      emit (ConsoleError "Error getting Teams access token:" (Some error)) ;;;
      throw error
  end.

(** [setTeamsPresence(userEmail, availability, activity)] (lines 60-83) *)
Definition setTeamsPresence (w : world) (userEmail : teams_user)
    (availability activity : string) : M bool :=
  emit (Call_setTeamsPresence userEmail availability activity) ;;;
  token <- getTeamsAccessToken w ;;
  emit (PresenceRequest userEmail (randomUUID w) availability activity token) ;;;
  match presence_response w with
  | Normal code =>
      emit (ConsoleLog ("Successfully updated Teams presence for "
                        +:+ show_teams_user userEmail +:+ ": "
                        +:+ availability +:+ "/" +:+ activity) []) ;;;
      ret (code =? 200)
  | Throw error =>
      emit (ConsoleError "Error setting Teams presence:" (Some error)) ;;;
      throw error
  end.

(** ** The webhook handler [app.post('/webhook/openphone', ...)] *)

(** [event.type === kind] *)
Definition type_is (type : value) (kind : string) : bool :=
  match type with
  | Json (JStr s) => String.eqb s kind
  | _ => false
  end.

Definition no_mapping (openPhoneUserId : value) : M unit :=
  shown <- lift (to_string openPhoneUserId) ;;
  emit (ConsoleLog ("No Teams user mapping found for OpenPhone user: " +:+ shown) []).

(** The [call.ringing] branch (lines 140-161). *)
Definition on_ringing (w : world) (oid : nat) (event : value) : M unit :=
  data <- lift (get_prop event "data") ;;
  callData <- lift (get_prop data "object") ;;
  openPhoneUserId <- lift (get_prop callData "userId") ;;
  callId <- lift (get_prop callData "id") ;;
  callDirection <- lift (get_prop callData "direction") ;;
  onCallStarted w (mapkey_of oid callId) openPhoneUserId callDirection ;;;
  teamsUser <- lift (getTeamsUserFromOpenPhoneUser openPhoneUserId) ;;
  match teamsUser with
  | Some user =>
      if truthy_user teamsUser then
        setTeamsPresence w user "Busy" "InACall" ;;;
        shownId <- lift (to_string callId) ;;
        emit (ConsoleLog ("Updated Teams status for " +:+ show_teams_user user
                          +:+ ": call " +:+ shownId +:+ " ringing") [])
      else no_mapping openPhoneUserId
  | None => no_mapping openPhoneUserId
  end.

(** The [call.completed] branch (lines 163-183). *)
Definition on_completed (w : world) (oid : nat) (event : value) : M unit :=
  data <- lift (get_prop event "data") ;;
  callData <- lift (get_prop data "object") ;;
  callId <- lift (get_prop callData "id") ;;
  openPhoneUserId <- lift (get_prop callData "userId") ;;
  onCallCompleted (mapkey_of oid callId) ;;;
  teamsUser <- lift (getTeamsUserFromOpenPhoneUser openPhoneUserId) ;;
  match teamsUser with
  | Some user =>
      if truthy_user teamsUser then
        setTeamsPresence w user "Available" "Available" ;;;
        shownId <- lift (to_string callId) ;;
        emit (ConsoleLog ("Updated Teams status for " +:+ show_teams_user user
                          +:+ ": call " +:+ shownId +:+ " completed, back to available") [])
      else no_mapping openPhoneUserId
  | None => no_mapping openPhoneUserId
  end.

(** The signature gate (lines 125-130): whether the request goes on. *)
Definition signature_gate (w : world) (rawPayload : string) (signature : option string)
  : M bool :=
  if truthy_string (OPENPHONE_WEBHOOK_SECRET w) then
    let '(printed, outcome) :=
      verifyOpenPhoneSignature rawPayload signature (OPENPHONE_WEBHOOK_SECRET w) in
    emit_all printed ;;;
    lift outcome
  else ret true.

(** Lines 132-186: the event is logged and dispatched on its type. *)
Definition handle_event (w : world) (oid : nat) (event : value) : M response :=
  type <- lift (get_prop event "type") ;;
  shownType <- lift (to_string type) ;;
  id <- lift (get_prop event "id") ;;
  emit (ConsoleLog ("Received OpenPhone event: " +:+ shownType)
          [("id", id); ("type", type);
           ("userId", get_prop_opt (get_prop_opt (get_prop_opt event "data") "object")
                                   "userId")]) ;;;
  (if type_is type "call.ringing" then on_ringing w oid event
   else if type_is type "call.completed" then on_completed w oid event
   else ret tt) ;;;
  ret (mkResponse 200 "OK").

(** The body of the [try] (lines 120-186). [oid] is the identity of the
    object of the parsed body that can reach the call table as a key. *)
Definition webhook_try (w : world) (req : request) : M response :=
  oid <- fresh_object ;;
  let rawPayload := JSON.stringify (body req) in
  let signature := openphone_signature req in
  verified <- signature_gate w rawPayload signature ;;
  if negb verified then
    emit (ConsoleError "Invalid OpenPhone webhook signature" None) ;;;
    ret (mkResponse 401 "Invalid signature")
  else
    handle_event w oid (Json (body req)).

(** The handler with its [catch] (lines 118-191): the response it sends and
    the state it leaves. *)
Definition webhook_openphone (w : world) (req : request) (st : state) : response * state :=
  match webhook_try w req st with
  | (Normal res, st') => (res, st')
  | (Throw error, st') =>
      (mkResponse 500 "Internal server error",
       mkState (activeCalls st') (next_object st')
               (trace st' ++ [ConsoleError "Error handling OpenPhone webhook:" (Some error)]))
  end.

(** What a run adds to the trace. *)
Definition effects_of_run (w : world) (req : request) (st : state) : list effect :=
  drop (length (trace st)) (trace (snd (webhook_openphone w req st))).

Definition is_log (e : effect) : bool :=
  match e with
  | ConsoleLog _ _ | ConsoleError _ _ => true
  | _ => false
  end.

(** Whether a request goes past the signature gate of lines 125-130, and
    what the gate prints. *)
Definition passes_verification (w : world) (req : request) : bool :=
  if truthy_string (OPENPHONE_WEBHOOK_SECRET w) then
    match snd (verifyOpenPhoneSignature (JSON.stringify (body req))
                 (openphone_signature req) (OPENPHONE_WEBHOOK_SECRET w)) with
    | Normal true => true
    | _ => false
    end
  else true.

Definition gate_effects (w : world) (req : request) : list effect :=
  if truthy_string (OPENPHONE_WEBHOOK_SECRET w) then
    fst (verifyOpenPhoneSignature (JSON.stringify (body req))
           (openphone_signature req) (OPENPHONE_WEBHOOK_SECRET w))
  else [].

(** An event the handler cannot act on: its type is missing or not a string,
    or it names a call event but [event.data.object] is missing. *)
Definition malformed (event : json) : bool :=
  match get_prop_opt (Json event) "type" with
  | Json (JStr kind) =>
      (String.eqb kind "call.ringing" || String.eqb kind "call.completed")
      && match get_prop_opt (get_prop_opt (Json event) "data") "object" with
         | Undefined | Json JNull => true
         | _ => false
         end
  | _ => true
  end.

(** The identity [event.data.object.userId] maps to, when the event has one
    and the handler takes it for a user. *)
Definition mapped_user (event : json) : option teams_user :=
  match cbind (get_prop (Json event) "data") (fun data =>
        cbind (get_prop data "object") (fun callData =>
        cbind (get_prop callData "userId") getTeamsUserFromOpenPhoneUser)) with
  | Normal (Some user) => if truthy_user (Some user) then Some user else None
  | _ => None
  end.

(** [event.data.object], [event.data.object.id], read leniently. *)
Definition call_data (event : json) : value :=
  get_prop_opt (get_prop_opt (Json event) "data") "object".

Definition call_id (event : json) : value := get_prop_opt (call_data event) "id".

(** [event.data.object] is missing: absent, or [null]. *)
Definition lacks_call_data (event : json) : bool :=
  match call_data event with
  | Undefined | Json JNull => true
  | _ => false
  end.

(** The event kind: [event.type] when it is a string. *)
Definition event_kind (event : json) : option string :=
  match get_prop_opt (Json event) "type" with
  | Json (JStr kind) => Some kind
  | _ => None
  end.

(** The directive a run is to issue for an event, by its kind, for the user
    the event maps to. *)
Definition expected_directives (event : json) : list (teams_user * string * string) :=
  match event_kind event with
  | Some kind =>
      if String.eqb kind "call.ringing" then
        match mapped_user event with
        | Some user => [(user, "Busy", "InACall")]
        | None => []
        end
      else if String.eqb kind "call.completed" then
        match mapped_user event with
        | Some user => [(user, "Available", "Available")]
        | None => []
        end
      else []
  | None => []
  end.

(** The call table a run leaves, by the kind of the event. *)
Definition table_after (w : world) (oid : nat) (event : json)
    (calls : gmap mapkey CallRecord) : gmap mapkey CallRecord :=
  match event_kind event with
  | Some kind =>
      if lacks_call_data event then calls
      else if String.eqb kind "call.ringing" then
        <[mapkey_of oid (call_id event) :=
            mkCallRecord (get_prop_opt (call_data event) "userId") (now w)
                         (get_prop_opt (call_data event) "direction")]> calls
      else if String.eqb kind "call.completed" then
        delete (mapkey_of oid (call_id event)) calls
      else calls
  | None => calls
  end.

(** A completion that throws. *)
Definition throws {A : Type} (c : completion A) : bool :=
  match c with
  | Throw _ => true
  | Normal _ => false
  end.

(** Whether a call to the presence platform fails in this world. *)
Definition downstream_fails (w : world) : bool :=
  throws (token_response w) || throws (presence_response w).

(** The UTF-8 bytes Node writes for one code point ([Buffer.from(s)],
    [update(s, 'utf8')]): a surrogate on its own is written as U+FFFD. *)
Definition utf8_char (cp : Z) : list Z :=
  if cp <? 0x80 then [cp]
  else if cp <? 0x800 then [0xC0 + cp / 64; 0x80 + cp mod 64]
  else if (0xD800 <=? cp) && (cp <=? 0xDFFF) then [0xEF; 0xBF; 0xBD]
  else if cp <? 0x10000 then
    [0xE0 + cp / 4096; 0x80 + cp / 64 mod 64; 0x80 + cp mod 64]
  else
    [0xF0 + cp / 262144; 0x80 + cp / 4096 mod 64; 0x80 + cp / 64 mod 64;
     0x80 + cp mod 64].

(** The UTF-8 bytes of a JavaScript string given by its UTF-16 code units:
    a high surrogate followed by a low one is one code point, any other
    surrogate is a lone one. *)
Fixpoint utf8_of_units (units : list Z) : list Z :=
  match units with
  | [] => []
  | u :: r =>
      if (0xD800 <=? u) && (u <=? 0xDBFF) then
        match r with
        | l :: r' =>
            if (0xDC00 <=? l) && (l <=? 0xDFFF)
            then utf8_char (0x10000 + (u - 0xD800) * 1024 + (l - 0xDC00))
                 ++ utf8_of_units r'
            else utf8_char u ++ utf8_of_units r
        | [] => utf8_char u
        end
      else utf8_char u ++ utf8_of_units r
  end.

(** The string of the model for the JavaScript string of code units
    [units]. *)
Definition js_string (units : list Z) : string := string_of_bytes (utf8_of_units units).

(** [s] with the ASCII character at byte offset [i] replaced by the
    character of code point [cp], which takes one to four bytes. A string
    that has no ASCII character at [i] is left as it is. *)
Fixpoint mutate (i : nat) (cp : Z) (s : string) : string :=
  match s with
  | EmptyString => EmptyString
  | String c r =>
      match i with
      | O => if byte_of_ascii c <? 0x80
             then string_of_bytes (utf8_char cp) +:+ r else s
      | S i' => String c (mutate i' cp r)
      end
  end.

(** All bytes below 0x80. *)
Definition ascii_only (s : string) : bool :=
  forallb (fun c => byte_of_ascii c <? 0x80) (list_ascii_of_string s).

Definition no_semicolon (s : string) : bool :=
  forallb (fun c => negb (Ascii.eqb c ";"%char)) (list_ascii_of_string s).

(** A signature header of four fields. *)
Definition header (f0 f1 timestamp digest : string) : string :=
  f0 +:+ ";" +:+ f1 +:+ ";" +:+ timestamp +:+ ";" +:+ digest.

(** The presence directives a trace carries: the calls of the presence setter. *)
Definition directives (t : list effect) : list (teams_user * string * string) :=
  flat_map (fun e => match e with
                     | Call_setTeamsPresence u availability activity =>
                         [(u, availability, activity)]
                     | _ => []
                     end) t.

(** ** Sample requests and surroundings *)

Definition call_event (kind callId user : string) : json :=
  JObj [("type", JStr kind);
        ("data", JObj [("object", JObj [("id", JStr callId); ("userId", JStr user);
                                        ("direction", JStr "incoming")])])].

Definition tyler : teams_user := TeamsEmail "Tyler@WindsorM.com".

(** No secret configured, the presence platform up. *)
Definition world_up : world :=
  mkWorld None 1700000000000 "3b241101-e2bb-4255-8caf-4136c566a962"
          (Normal "token") (Normal 200).

(** The token endpoint refuses. *)
Definition world_token_down : world :=
  mkWorld None 1700000000000 "3b241101-e2bb-4255-8caf-4136c566a962"
          (Throw (AxiosError "Request failed with status code 401")) (Normal 200).

(** The presence endpoint refuses. *)
Definition world_presence_down : world :=
  mkWorld None 1700000000000 "3b241101-e2bb-4255-8caf-4136c566a962"
          (Normal "token") (Throw (AxiosError "Request failed with status code 503")).

(** A secret configured (the base64 of "secret"), the presence platform up. *)
Definition world_secret : world :=
  mkWorld (Some "c2VjcmV0") 1700000000000 "3b241101-e2bb-4255-8caf-4136c566a962"
          (Normal "token") (Normal 200).

(** The header the provider sends for the bytes [raw] at [timestamp]. *)
Definition provider_signature (secret timestamp raw : string) : string :=
  header "hmac" "1" timestamp
         (hmac_sha256_base64 (Base64.decode secret) (timestamp +:+ "." +:+ raw)).

(** Every object key of the table is older than the next object. *)
Definition keys_fresh (st : state) : Prop :=
  forall id : nat, is_Some (activeCalls st !! KObj id) -> (id < next_object st)%nat.

(** The state a run leaves. *)
Definition after (w : world) (req : request) (st : state) : state :=
  snd (webhook_openphone w req st).

(** Hexadecimal print of a byte string, for the test vectors. *)
Definition hex_digit (n : Z) : ascii :=
  ascii_of_byte (if n <? 10 then 48 + n else 87 + n).
Definition hex_of_bytes (l : list Z) : string :=
  string_of_list_ascii (flat_map (fun b => [hex_digit (b / 16); hex_digit (b mod 16)]) l).

(** ** Further notions for the properties of the handler *)

(** The number of semicolons of a header. *)
Fixpoint semicolons (s : string) : nat :=
  match s with
  | EmptyString => 0
  | String c r => (if Ascii.eqb c ";"%char then 1 else 0) + semicolons r
  end.

(** Whether the call id of an event is compared by value as a key. *)
Definition primitive_id (event : json) : bool :=
  match call_id event with
  | Json (JArr _) | Json (JObj _) => false
  | _ => true
  end.

(** The record a 'call.ringing' event stores at time [t]. *)
Definition record_of (t : Z) (event : json) : CallRecord :=
  mkCallRecord (get_prop_opt (call_data event) "userId") t
               (get_prop_opt (call_data event) "direction").

(** The three answers of the handler. *)
Definition ok_response : response := mkResponse 200 "OK".
Definition invalid_signature_response : response := mkResponse 401 "Invalid signature".
Definition internal_error_response : response := mkResponse 500 "Internal server error".

(** The process handling requests one after the other, each in the
    surroundings it meets. *)
Fixpoint handle_all (reqs : list (world * request)) (st : state) : state :=
  match reqs with
  | [] => st
  | (w, req) :: rest => handle_all rest (after w req st)
  end.

(** What a request does to the call of id [c]: [Some true] starts tracking
    it, [Some false] ends tracking it, [None] leaves it alone. Only a request
    that passes the signature gate, carries call data and names the call by
    the string [c] touches it. *)
Definition touches (c : string) (r : world * request) : option bool :=
  let event := body (snd r) in
  if passes_verification (fst r) (snd r) && negb (lacks_call_data event) then
    match call_id event, event_kind event with
    | Json (JStr c'), Some kind =>
        if String.eqb c' c then
          if String.eqb kind "call.ringing" then Some true
          else if String.eqb kind "call.completed" then Some false
          else None
        else None
    | _, _ => None
    end
  else None.

(** Whether the call of id [c] is tracked. *)
Definition tracked (c : string) (st : state) : bool :=
  bool_decide (is_Some (activeCalls st !! KStr c)).

(** The requests a trace sends out: to the token endpoint and to the
    presence endpoint. *)
Definition is_outbound (e : effect) : bool :=
  match e with
  | TokenRequest | PresenceRequest _ _ _ _ _ => true
  | _ => false
  end.

Definition outbound (t : list effect) : list effect := List.filter is_outbound t.

(** The requests one call of the presence setter sends out in the
    surroundings [w]. *)
Definition outbound_for (w : world) (d : teams_user * string * string) : list effect :=
  TokenRequest ::
  match token_response w with
  | Normal token => [PresenceRequest (fst (fst d)) (randomUUID w) (snd (fst d)) (snd d) token]
  | Throw _ => []
  end.

(** A presence request without its session id and its bearer token. *)
Definition redact (e : effect) : effect :=
  match e with
  | PresenceRequest u _ availability activity _ =>
      PresenceRequest u EmptyString availability activity EmptyString
  | _ => e
  end.

(** The surroundings [w] with both endpoints answering: the session id
    drawn is [uuid], the token endpoint answers the bearer token [token] and
    the presence endpoint the success status [code]. No request fails, so no
    error that carries a request is thrown or printed. *)
Definition with_answers (w : world) (uuid token : string) (code : Z) : world :=
  mkWorld (OPENPHONE_WEBHOOK_SECRET w) (now w) uuid (Normal token) (Normal code).

(** ** The environment, the configuration and the inspection endpoints *)

(** [process.env], as far as the module reads it (the webhook secret is part
    of [world]). *)
Record environment : Type := mkEnvironment {
  TEAMS_TENANT_ID : option string;
  TEAMS_CLIENT_ID : option string;
  TEAMS_CLIENT_SECRET : option string;
  OPENPHONE_API_KEY : option string;
  PORT : option string;
  BASE_URL : option string;
  NODE_ENV : option string
}.

(** [a || b] for a string [a] that may be [undefined]. *)
Definition or_string (a : option string) (b : string) : string :=
  if truthy_string a then default EmptyString a else b.

(** [a ? yes : no] *)
Definition if_set (a : option string) (yes no : string) : string :=
  if truthy_string a then yes else no.

(** [config] (lines 13-24). *)
Record config : Type := mkConfig {
  tenantId : option string;
  clientId : option string;
  clientSecret : option string;
  apiKey : option string;
  port : json;                  (* process.env.PORT || 3000 *)
  baseUrl : string
}.

Definition load_config (env : environment) : config :=
  mkConfig (TEAMS_TENANT_ID env) (TEAMS_CLIENT_ID env) (TEAMS_CLIENT_SECRET env)
           (OPENPHONE_API_KEY env)
           (if truthy_string (PORT env) then JStr (default EmptyString (PORT env))
            else JNum 3000)
           (or_string (BASE_URL env)
              ("http://localhost:" +:+
               (if truthy_string (PORT env) then default EmptyString (PORT env)
                else string_of_Z 3000))).

(** [GET /config-check] (lines 298-316): the body of the response. *)
Definition config_check (env : environment) : json :=
  let cfg := load_config env in
  JObj [("teams", JObj [("tenantId", JBool (truthy_string (tenantId cfg)));
                        ("clientId", JBool (truthy_string (clientId cfg)));
                        ("clientSecret", JBool (truthy_string (clientSecret cfg)))]);
        ("openphone", JObj [("apiKey", JBool (truthy_string (apiKey cfg)))]);
        ("baseUrl", JStr (baseUrl cfg));
        ("environmentCheck",
         JObj [("NODE_ENV", JStr (or_string (NODE_ENV env) "development"));
               ("PORT", JStr (or_string (PORT env) "not set"))])].

(** [GET /debug-env] (lines 319-331): the body of the response. *)
Definition debug_env (env : environment) : json :=
  JObj [("raw_env",
         JObj [("TEAMS_TENANT_ID", JStr (or_string (TEAMS_TENANT_ID env) "undefined"));
               ("TEAMS_CLIENT_ID", JStr (or_string (TEAMS_CLIENT_ID env) "undefined"));
               ("TEAMS_CLIENT_SECRET", JStr (if_set (TEAMS_CLIENT_SECRET env) "exists" "missing"));
               ("OPENPHONE_API_KEY", JStr (if_set (OPENPHONE_API_KEY env) "exists" "missing"));
               ("BASE_URL", JStr (or_string (BASE_URL env) "undefined"));
               ("NODE_ENV", JStr (or_string (NODE_ENV env) "undefined"));
               ("PORT", JStr (or_string (PORT env) "undefined"))])].

(** A credential replaced by a placeholder when it is set. *)
Definition masked (a : option string) : option string :=
  if truthy_string a then Some "*" else None.

(** The environment with the client secret and the API key masked, and with
    the tenant id and the client id masked as well. *)
Definition mask_secrets (env : environment) : environment :=
  mkEnvironment (TEAMS_TENANT_ID env) (TEAMS_CLIENT_ID env)
                (masked (TEAMS_CLIENT_SECRET env)) (masked (OPENPHONE_API_KEY env))
                (PORT env) (BASE_URL env) (NODE_ENV env).

Definition mask_credentials (env : environment) : environment :=
  mkEnvironment (masked (TEAMS_TENANT_ID env)) (masked (TEAMS_CLIENT_ID env))
                (masked (TEAMS_CLIENT_SECRET env)) (masked (OPENPHONE_API_KEY env))
                (PORT env) (BASE_URL env) (NODE_ENV env).

(** [GET /health] (lines 241-247): the body of the response; [iso] is
    [new Date().toISOString()]. *)
Definition health (iso : string) (st : state) : json :=
  JObj [("status", JStr "ok"); ("timestamp", JStr iso);
        ("activeCalls", JNum (Z.of_nat (size (activeCalls st))))].

(** [GET /status] (lines 250-260): the objects the endpoint makes of the
    entries of the table, before they are printed; [date_now] is
    [Date.now()]. The table as a finite map keeps no insertion order: the
    list is in the order of the map, and the statements about it do not
    depend on the order. *)
Record status_entry : Type := mkStatusEntry {
  entry_callId : mapkey;
  entry_userId : value;
  entry_startTime : Z;
  entry_direction : value;
  entry_duration : Z
}.

Definition status_of (date_now : Z) (kc : mapkey * CallRecord) : status_entry :=
  mkStatusEntry (fst kc) (userId (snd kc)) (startTime (snd kc)) (direction (snd kc))
                (date_now - startTime (snd kc)).

Definition status_entries (date_now : Z) (st : state) : list status_entry :=
  map (status_of date_now) (map_to_list (activeCalls st)).

(** Every call of the table started by the time [t]. *)
Definition started_by (t : Z) (st : state) : Prop :=
  forall (k : mapkey) (r : CallRecord), activeCalls st !! k = Some r -> startTime r <= t.

(** ** Webhook registration (lines 207-238, 263-295) *)

(** A failed request as the code reads it: [error.message] and
    [error.response?.data]. A TypeError has a message and no response. *)
Record failure : Type := mkFailure {
  message : string;
  response_data : option json
}.

(** What the OpenPhone API answers to the registration: a 2xx response with
    its body [response.data], or a failure. *)
Inductive api_answer : Type :=
  | Answered (data : json)
  | Failed (f : failure).

Inductive setup_effect : Type :=
  | SetupLog (msg : string) (args : list value)
  | SetupError (msg : string) (shown : json)
  | WebhookRequest (url : string) (events : list string) (authorization : option string).

(** JavaScript truthiness of a JSON value. *)
Definition truthy_json (j : json) : bool :=
  match j with
  | JNull => false
  | JBool b => b
  | JNum n => negb (n =? 0)
  | JStr EmptyString => false
  | _ => true
  end.

(** [error.response?.data || error.message] *)
Definition shown_failure (f : failure) : json :=
  match response_data f with
  | Some d => if truthy_json d then d else JStr (message f)
  | None => JStr (message f)
  end.

Definition webhook_events : list string := ["call.ringing"; "call.completed"].

(** [setupOpenPhoneWebhooks()] (lines 207-238): what it prints and sends, and
    the body it returns or the error it throws. *)
Definition setupOpenPhoneWebhooks (cfg : config) (answer : api_answer)
  : list setup_effect * (json + failure) :=
  let start :=
    [SetupLog "Setting up OpenPhone webhooks..." [];
     SetupLog "Config check:"
       [Json (JObj [("baseUrl", JStr (baseUrl cfg));
                    ("apiKey", JStr (if_set (apiKey cfg) "Set" "Missing"))])];
     WebhookRequest (baseUrl cfg +:+ "/webhook/openphone") webhook_events (apiKey cfg)] in
  let caught (f : failure) :=
    (start ++ [SetupError "Error creating OpenPhone webhook:" (shown_failure f)], inr f) in
  match answer with
  | Answered data =>
      match get_prop (Json data) "id" with
      | Normal id =>
          (start ++ [SetupLog "OpenPhone webhook created successfully:" [id]], inl data)
      | Throw (TypeError msg) | Throw (RangeError msg) | Throw (AxiosError msg) =>
          caught (mkFailure msg None)
      end
  | Failed f => caught f
  end.

(** [GET /setup-webhooks] and [POST /setup-webhooks] (lines 263-295), the
    same code twice: the status and the body of the response. *)
Definition setup_webhooks (cfg : config) (answer : api_answer)
  : list setup_effect * (Z * json) :=
  match setupOpenPhoneWebhooks cfg answer with
  | (effects, inl webhook) =>
      (effects,
       (200, JObj [("success", JBool true); ("webhook", webhook);
                   ("message", JStr "OpenPhone webhook set up successfully!")]))
  | (effects, inr f) =>
      (effects,
       (500, JObj ([("success", JBool false); ("error", JStr (message f))]
                   ++ match response_data f with
                      | Some d => [("details", d)]
                      | None => []
                      end)))
  end.

(** The configuration with another API key. *)
Definition with_api_key (cfg : config) (key : option string) : config :=
  mkConfig (tenantId cfg) (clientId cfg) (clientSecret cfg) key (port cfg) (baseUrl cfg).

(** A registration request without its Authorization header. *)
Definition without_authorization (e : setup_effect) : setup_effect :=
  match e with
  | WebhookRequest url events _ => WebhookRequest url events None
  | _ => e
  end.

(** *** JSON text as [JSON.stringify] prints it *)

Notation chars := list_ascii_of_string.

(** The property keys of an object come out of the parser in JavaScript's
    own order: every key is new, and an array-index key has only smaller
    array-index keys before it. *)
Fixpoint defined_order (seen keys : list string) : bool :=
  match keys with
  | [] => true
  | k :: r =>
      negb (existsb (String.eqb k) seen)
      && match Parse.array_index k with
         | Some n =>
             forallb (fun k' => match Parse.array_index k' with
                                | Some n' => n' <? n
                                | None => false
                                end) seen
         | None => true
         end
      && defined_order (seen ++ [k]) r
  end.

(** Bytes that are the UTF-8 encoding of a sequence of Unicode scalar
    values (no overlong form, no surrogate, nothing above U+10FFFF): the
    encodings of the JavaScript strings without lone surrogates. *)
Definition continuation (b : Z) : bool := (0x80 <=? b) && (b <=? 0xBF).

Definition second_of_three (b0 b1 : Z) : bool :=
  if b0 =? 0xE0 then (0xA0 <=? b1) && (b1 <=? 0xBF)
  else if b0 =? 0xED then (0x80 <=? b1) && (b1 <=? 0x9F)
  else continuation b1.

Definition second_of_four (b0 b1 : Z) : bool :=
  if b0 =? 0xF0 then (0x90 <=? b1) && (b1 <=? 0xBF)
  else if b0 =? 0xF4 then (0x80 <=? b1) && (b1 <=? 0x8F)
  else continuation b1.

Fixpoint utf8_valid (bs : list Z) : bool :=
  match bs with
  | [] => true
  | b0 :: r0 =>
      if b0 <? 0x80 then utf8_valid r0
      else
        match r0 with
        | [] => false
        | b1 :: r1 =>
            if (0xC2 <=? b0) && (b0 <=? 0xDF) then continuation b1 && utf8_valid r1
            else
              match r1 with
              | [] => false
              | b2 :: r2 =>
                  if (0xE0 <=? b0) && (b0 <=? 0xEF) then
                    second_of_three b0 b1 && continuation b2 && utf8_valid r2
                  else
                    match r2 with
                    | [] => false
                    | b3 :: r3 =>
                        (0xF0 <=? b0) && (b0 <=? 0xF4) && second_of_four b0 b1
                        && continuation b2 && continuation b3 && utf8_valid r3
                    end
              end
        end
  end.

Definition well_formed (s : string) : bool := utf8_valid (bytes_of_string s).

(** A value as [JSON.parse] builds it from text: its numbers are integers a
    JavaScript number holds exactly, its strings and keys are well-formed,
    and its objects keep JavaScript's property order. *)
Fixpoint canonical (j : json) : bool :=
  match j with
  | JNull | JBool _ => true
  | JNum n => Z.abs n <=? 2 ^ 53
  | JStr s => well_formed s
  | JArr elems => forallb canonical elems
  | JObj props =>
      defined_order [] (map fst props)
      && forallb (fun p => well_formed (fst p) && canonical (snd p)) props
  end.

(** How deep the arrays and objects of a value are nested. [JSON.stringify]
    recurses over the value, and the engine's stack, which is not modelled,
    bounds the depth it can print. *)
Fixpoint depth (j : json) : nat :=
  match j with
  | JArr elems => S (list_max (map depth elems))
  | JObj props => S (list_max (map (fun p => depth (snd p)) props))
  | _ => 0
  end.

(** What follows a value inside compact JSON text: nothing, or one of [,]
    [\]] [}]. *)
Definition delimited (rest : list ascii) : bool :=
  match rest with
  | [] => true
  | c :: _ => Ascii.eqb c ","%char || Ascii.eqb c "]"%char || Ascii.eqb c "}"%char
  end.

(** An object or an array: what the body parser accepts in strict mode. *)
Definition is_container (j : json) : bool :=
  match j with
  | JArr _ | JObj _ => true
  | _ => false
  end.

(** The request the handler is run on when the bytes [raw] are posted with
    JSON content type and the header [signature] (line 10, then lines
    121-122), if the handler is run. *)
Definition received (raw : string) (signature : option string) : option request :=
  match Parse.express_json raw with
  | Some body => Some (mkRequest body signature)
  | None => None
  end.

(** * Properties *)

(** ** The embedded library functions on published vectors *)

Example sha256_constants :
  length SHA256.primes = 64%nat
  /\ nth 0 SHA256.K 0 = 0x428a2f98
  /\ nth 63 SHA256.K 0 = 0xc67178f2
  /\ SHA256.ra SHA256.H0 = 0x6a09e667
  /\ SHA256.rh SHA256.H0 = 0x5be0cd19.
Proof. repeat split; vm_compute; reflexivity. Qed.

Example sha256_abc :
  hex_of_bytes (SHA256.sha256 (bytes_of_string "abc"))
  = "ba7816bf8f01cfea414140de5dae2223b00361a396177a9cb410ff61f20015ad".
Proof. vm_compute. reflexivity. Qed.

Example sha256_two_blocks :
  hex_of_bytes (SHA256.sha256 (bytes_of_string
     "abcdbcdecdefdefgefghfghighijhijkijkljklmklmnlmnomnopnopq"))
  = "248d6a61d20638b8e5c026930c3e6039a33ce45964ff2167f6ecedd419db06c1".
Proof. vm_compute. reflexivity. Qed.

Example hmac_rfc4231_case2 :
  hex_of_bytes (HMAC.hmac_sha256 (bytes_of_string "Jefe")
                                 (bytes_of_string "what do ya want for nothing?"))
  = "5bdcc146bf60754e6a042426089575c75a003f089d2739839dec58b964ec3843".
Proof. vm_compute. reflexivity. Qed.

Example base64_decode_secret :
  string_of_bytes (Base64.decode "c2VjcmV0") = "secret"
  /\ Base64.encode (bytes_of_string "secret") = "c2VjcmV0".
Proof. split; vm_compute; reflexivity. Qed.

Example base64_decode_lenient :
  string_of_bytes (Base64.decode "c2Vj cmV0YQ==xx") = "secreta".
Proof. vm_compute. reflexivity. Qed.

Example stringify_parse :
  option_map JSON.stringify
    (Parse.express_json (js_text "{ 'b' : [1, -2, true, null], '1' : 'x', 'b' : {} }"))
  = Some (js_text "{'1':'x','b':{}}").
Proof. vm_compute. reflexivity. Qed.

(** ** Bytes, digests and base64 *)

Lemma length_bytes_of_string (s : string) :
  length (bytes_of_string s) = String.length s.
Proof.
  unfold bytes_of_string. rewrite length_map.
  induction s as [|c s IH]; simpl; [reflexivity | now rewrite IH].
Qed.

Lemma byte_of_ascii_inj (a b : ascii) : byte_of_ascii a = byte_of_ascii b -> a = b.
Proof.
  unfold byte_of_ascii. intros H. apply N2Z.inj in H.
  rewrite <- (ascii_N_embedding a), <- (ascii_N_embedding b). now rewrite H.
Qed.

Lemma bytes_of_string_inj (s t : string) : bytes_of_string s = bytes_of_string t -> s = t.
Proof.
  unfold bytes_of_string. revert t.
  induction s as [|c s IH]; intros [|d t]; simpl; intros H; try discriminate; [reflexivity|].
  injection H as Hc Hr. apply byte_of_ascii_inj in Hc. apply IH in Hr. now subst.
Qed.

Lemma length_sha256 (msg : list Z) : length (SHA256.sha256 msg) = 32%nat.
Proof. reflexivity. Qed.

Lemma length_hmac_sha256 (key msg : list Z) : length (HMAC.hmac_sha256 key msg) = 32%nat.
Proof. apply length_sha256. Qed.

Lemma length_encode_32 (bs : list Z) :
  length bs = 32%nat -> length (Base64.encode_list bs) = 44%nat.
Proof.
  intros H.
  do 32 (destruct bs as [|? bs]; [discriminate H|]).
  destruct bs; [reflexivity | discriminate H].
Qed.

Lemma length_string_of_list_ascii (l : list ascii) :
  String.length (string_of_list_ascii l) = length l.
Proof. induction l as [|c l IH]; simpl; [reflexivity | now rewrite IH]. Qed.

(** The computed digest is always 44 characters long. *)
Lemma length_hmac_sha256_base64 (key : list Z) (data : string) :
  String.length (hmac_sha256_base64 key data) = 44%nat.
Proof.
  unfold hmac_sha256_base64, Base64.encode.
  rewrite length_string_of_list_ascii.
  apply length_encode_32, length_hmac_sha256.
Qed.

Lemma enc_char_no_semicolon (n : Z) : Ascii.eqb (Base64.enc_char n) ";"%char = false.
Proof.
  unfold Base64.enc_char. generalize (Z.to_nat n). intros m.
  do 64 (destruct m as [|m]; [reflexivity|]). reflexivity.
Qed.

Lemma encode_list_no_semicolon (bs : list Z) :
  forallb (fun c => negb (Ascii.eqb c ";"%char)) (Base64.encode_list bs) = true.
Proof.
  assert (H : forall n (l : list Z), (length l <= n)%nat ->
            forallb (fun c => negb (Ascii.eqb c ";"%char)) (Base64.encode_list l) = true).
  { induction n as [|n IH]; intros l Hl.
    - destruct l; [reflexivity | simpl in Hl; lia].
    - destruct l as [|a [|b [|c r]]]; simpl; rewrite ?enc_char_no_semicolon; simpl;
        try reflexivity.
      apply IH. simpl in Hl. lia. }
  apply (H (length bs)). lia.
Qed.

Lemma list_ascii_of_string_of_list_ascii (l : list ascii) :
  list_ascii_of_string (string_of_list_ascii l) = l.
Proof. induction l as [|c l IH]; simpl; [reflexivity | now rewrite IH]. Qed.

Lemma hmac_digest_no_semicolon (key : list Z) (data : string) :
  no_semicolon (hmac_sha256_base64 key data) = true.
Proof.
  unfold no_semicolon, hmac_sha256_base64, Base64.encode.
  rewrite list_ascii_of_string_of_list_ascii. apply encode_list_no_semicolon.
Qed.

(** ** [split] *)

Lemma split_no_sep (s : string) : no_semicolon s = true -> split ";"%char s = [s].
Proof.
  unfold no_semicolon. induction s as [|c s IH]; simpl; [reflexivity|].
  intros H. apply andb_prop in H as [Hc Hs].
  destruct (Ascii.eqb c ";"%char); [discriminate|]. now rewrite (IH Hs).
Qed.

Lemma split_field (a r : string) :
  no_semicolon a = true -> split ";"%char (a +:+ ";" +:+ r) = a :: split ";"%char r.
Proof.
  unfold no_semicolon. induction a as [|c a IH]; simpl; [reflexivity|].
  intros H. apply andb_prop in H as [Hc Ha].
  destruct (Ascii.eqb c ";"%char); [discriminate|]. now rewrite (IH Ha).
Qed.

Lemma split_header (f0 f1 ts d : string) :
  no_semicolon f0 = true -> no_semicolon f1 = true -> no_semicolon ts = true ->
  no_semicolon d = true ->
  split ";"%char (header f0 f1 ts d) = [f0; f1; ts; d].
Proof.
  intros H0 H1 H2 H3. unfold header.
  rewrite split_field by assumption. rewrite split_field by assumption.
  rewrite split_field by assumption. now rewrite split_no_sep.
Qed.

Lemma header_truthy (f0 f1 ts d : string) : truthy_string (Some (header f0 f1 ts d)) = true.
Proof. unfold header. destruct f0; reflexivity. Qed.

(** ** [timingSafeEqual] *)

Lemma forallb_eqb_combine (a b : list Z) :
  length a = length b ->
  forallb (fun p => fst p =? snd p) (combine a b) = bool_decide (a = b).
Proof.
  revert b. induction a as [|x a IH]; intros [|y b] H; simpl in *; try discriminate.
  - reflexivity.
  - injection H as H. rewrite (IH b H).
    destruct (Z.eqb_spec x y) as [->|Hne]; simpl.
    + destruct (decide (a = b)) as [->|Hab].
      * now rewrite !bool_decide_eq_true_2.
      * rewrite !bool_decide_eq_false_2; [reflexivity | congruence | assumption].
    + rewrite bool_decide_eq_false_2; [reflexivity | congruence].
Qed.

Lemma timingSafeEqual_same_length (a b : list Z) :
  length a = length b -> timingSafeEqual a b = Normal (bool_decide (a = b)).
Proof.
  intros H. unfold timingSafeEqual. rewrite H, Nat.eqb_refl. simpl.
  now rewrite forallb_eqb_combine.
Qed.

Lemma timingSafeEqual_other_length (a b : list Z) :
  length a <> length b ->
  timingSafeEqual a b = Throw (RangeError "Input buffers must have the same byte length").
Proof.
  intros H. unfold timingSafeEqual.
  destruct (Nat.eqb_spec (length a) (length b)); [contradiction | reflexivity].
Qed.

(** ** The signature verifier *)

Lemma chars_app (a b : string) : chars (a +:+ b) = chars a ++ chars b.
Proof.
  induction a as [|c a IH]; [reflexivity|].
  change (c :: chars (a +:+ b) = c :: (chars a ++ chars b)). now rewrite IH.
Qed.

Lemma length_append (a b : string) :
  String.length (a +:+ b) = (String.length a + String.length b)%nat.
Proof.
  induction a as [|c a IH]; [reflexivity|].
  change (S (String.length (a +:+ b)) = S (String.length a + String.length b)).
  now rewrite IH.
Qed.

Lemma byte_of_ascii_of_byte (b : Z) : 0 <= b < 256 -> byte_of_ascii (ascii_of_byte b) = b.
Proof.
  intros H. unfold byte_of_ascii, ascii_of_byte.
  rewrite Z.mod_small by lia. rewrite N_ascii_embedding by lia. lia.
Qed.

Lemma ascii_of_byte_of_ascii (c : ascii) : ascii_of_byte (byte_of_ascii c) = c.
Proof.
  apply byte_of_ascii_inj. apply byte_of_ascii_of_byte.
  unfold byte_of_ascii. pose proof (N_ascii_bounded c). lia.
Qed.

Lemma utf8_char_ascii (cp : Z) : cp < 0x80 -> utf8_char cp = [cp].
Proof. intros H. unfold utf8_char. now destruct (Z.ltb_spec cp 0x80); [|lia]. Qed.

(** A character outside ASCII takes two to four bytes, none of them ASCII. *)
Lemma utf8_char_wide (cp : Z) :
  0x80 <= cp < 0x110000 ->
  (2 <= length (utf8_char cp) <= 4)%nat
  /\ Forall (fun b => 0x80 <= b < 256) (utf8_char cp).
Proof.
  intros H. unfold utf8_char.
  destruct (Z.ltb_spec cp 0x80); [lia|].
  destruct (Z.ltb_spec cp 0x800);
    [|destruct ((0xD800 <=? cp) && (cp <=? 0xDFFF)); [|destruct (Z.ltb_spec cp 0x10000)]].
  all: split; [cbn [length]; lia|].
  all: repeat constructor; Z.div_mod_to_equations; lia.
Qed.

Lemma length_string_of_bytes (bs : list Z) :
  String.length (string_of_bytes bs) = length bs.
Proof. unfold string_of_bytes. now rewrite length_string_of_list_ascii, length_map. Qed.

Lemma mutate_ascii_length (i : nat) (cp : Z) (s : string) :
  cp < 0x80 -> String.length (mutate i cp s) = String.length s.
Proof.
  intros Hcp. revert i. induction s as [|c s IH]; intros [|i]; cbn [mutate String.length];
    try reflexivity.
  - destruct (byte_of_ascii c <? 0x80); [|reflexivity].
    rewrite utf8_char_ascii by assumption. reflexivity.
  - now rewrite IH.
Qed.

Lemma mutate_wide_length (i : nat) (cp : Z) (s : string) :
  0x80 <= cp < 0x110000 -> ascii_only s = true -> (i < String.length s)%nat ->
  (String.length s < String.length (mutate i cp s))%nat.
Proof.
  intros Hcp. unfold ascii_only. revert i.
  induction s as [|c s IH]; intros [|i] Hs Hi; cbn [mutate String.length] in *; try lia.
  - cbn [list_ascii_of_string forallb] in Hs. apply andb_prop in Hs as [Hc _].
    rewrite Hc, length_append, length_string_of_bytes.
    destruct (utf8_char_wide cp Hcp) as [Hl _]. lia.
  - cbn [list_ascii_of_string forallb] in Hs. apply andb_prop in Hs as [_ Hs].
    specialize (IH i Hs). lia.
Qed.

Lemma mutate_changes (i : nat) (c : ascii) (s : string) :
  byte_of_ascii c < 0x80 -> ascii_only s = true ->
  (i < String.length s)%nat -> String.get i s <> Some c ->
  mutate i (byte_of_ascii c) s <> s.
Proof.
  intros Hc. unfold ascii_only. revert i.
  induction s as [|d s IH]; intros [|i] Hs Hi Hget; cbn [mutate String.length String.get] in *;
    try lia.
  - cbn [list_ascii_of_string forallb] in Hs. apply andb_prop in Hs as [Hd _].
    rewrite Hd, utf8_char_ascii by assumption.
    unfold string_of_bytes. cbn [map string_of_list_ascii].
    rewrite ascii_of_byte_of_ascii.
    intros H. injection H as ->. now apply Hget.
  - cbn [list_ascii_of_string forallb] in Hs. apply andb_prop in Hs as [_ Hs].
    intros H. injection H as H. revert H. apply IH; [assumption | lia | assumption].
Qed.

Lemma no_semicolon_append (a b : string) :
  no_semicolon (a +:+ b) = no_semicolon a && no_semicolon b.
Proof. unfold no_semicolon. now rewrite chars_app, forallb_app. Qed.

Lemma utf8_char_no_semicolon (cp : Z) :
  0 <= cp < 0x110000 -> cp <> 59 -> no_semicolon (string_of_bytes (utf8_char cp)) = true.
Proof.
  intros Hcp Hne. unfold no_semicolon, string_of_bytes.
  rewrite list_ascii_of_string_of_list_ascii.
  assert (Hb : Forall (fun b => 0 <= b < 256 /\ b <> 59) (utf8_char cp)).
  { destruct (Z.ltb_spec cp 0x80).
    - rewrite utf8_char_ascii by assumption. repeat constructor; lia.
    - destruct (utf8_char_wide cp ltac:(lia)) as [_ Hw].
      eapply Forall_impl; [exact Hw|]. cbv beta. intros; lia. }
  induction Hb as [|b l [Hr Hn] _ IH]; [reflexivity|].
  cbn [map forallb]. rewrite IH, andb_true_r.
  destruct (Ascii.eqb_spec (ascii_of_byte b) ";"%char) as [E|_]; [|reflexivity].
  apply (f_equal byte_of_ascii) in E. rewrite byte_of_ascii_of_byte in E by assumption.
  now destruct Hn.
Qed.

Lemma mutate_no_semicolon (i : nat) (cp : Z) (s : string) :
  0 <= cp < 0x110000 -> cp <> 59 ->
  no_semicolon s = true -> no_semicolon (mutate i cp s) = true.
Proof.
  intros Hcp Hne. revert i.
  induction s as [|c s IH]; intros [|i] H; cbn [mutate]; try assumption.
  - destruct (byte_of_ascii c <? 0x80); [|assumption].
    rewrite no_semicolon_append, (utf8_char_no_semicolon cp Hcp Hne).
    unfold no_semicolon in H |- *. cbn [list_ascii_of_string forallb] in H.
    now apply andb_prop in H as [_ ->].
  - unfold no_semicolon in H |- *. cbn [list_ascii_of_string forallb] in *.
    apply andb_prop in H as [Hc Hs]. rewrite Hc. now apply IH.
Qed.

Lemma enc_char_ascii (n : Z) : byte_of_ascii (Base64.enc_char n) <? 0x80 = true.
Proof.
  unfold Base64.enc_char. generalize (Z.to_nat n). intros m.
  do 64 (destruct m as [|m]; [reflexivity|]). reflexivity.
Qed.

Lemma encode_list_ascii (bs : list Z) :
  forallb (fun c => byte_of_ascii c <? 0x80) (Base64.encode_list bs) = true.
Proof.
  assert (H : forall n (l : list Z), (length l <= n)%nat ->
            forallb (fun c => byte_of_ascii c <? 0x80) (Base64.encode_list l) = true).
  { induction n as [|n IH]; intros l Hl.
    - destruct l; [reflexivity | simpl in Hl; lia].
    - destruct l as [|a [|b [|c r]]]; cbn [Base64.encode_list forallb];
        rewrite ?enc_char_ascii; try reflexivity.
      apply IH. simpl in Hl. lia. }
  apply (H (length bs)). lia.
Qed.

(** The computed digest is base64 text: ASCII. *)
Lemma hmac_digest_ascii (key : list Z) (data : string) :
  ascii_only (hmac_sha256_base64 key data) = true.
Proof.
  unfold ascii_only, hmac_sha256_base64, Base64.encode.
  rewrite list_ascii_of_string_of_list_ascii. apply encode_list_ascii.
Qed.

(** How the verifier runs on a header of four fields. *)
Lemma verify_header (payload secret f0 f1 ts d : string) :
  truthy_string (Some secret) = true ->
  no_semicolon f0 = true -> no_semicolon f1 = true -> no_semicolon ts = true ->
  no_semicolon d = true ->
  verifyOpenPhoneSignature payload (Some (header f0 f1 ts d)) (Some secret)
  = ([], timingSafeEqual (bytes_of_string d)
           (bytes_of_string (hmac_sha256_base64 (Base64.decode secret)
                                                (ts +:+ "." +:+ payload)))).
Proof.
  intros Hs H0 H1 H2 H3. unfold verifyOpenPhoneSignature.
  rewrite header_truthy, Hs. simpl negb. simpl orb. cbv iota.
  simpl default. rewrite split_header by assumption. reflexivity.
Qed.

(** C10: without a configured secret (unset or empty) the verifier returns
    true for every payload and every signature header, the absent one
    included. *)
Theorem verify_disabled_without_secret (payload : string) (signature : option string) :
  snd (verifyOpenPhoneSignature payload signature None) = Normal true /\
  snd (verifyOpenPhoneSignature payload signature (Some EmptyString)) = Normal true.
Proof.
  unfold verifyOpenPhoneSignature.
  split; destruct (truthy_string signature); reflexivity.
Qed.

(** C1 (the code departs from the claim): with a configured secret and no
    signature header the verifier takes the "not configured" exit and
    returns true. *)
Theorem verify_accepts_absent_header (payload secret : string) :
  verifyOpenPhoneSignature payload None (Some secret)
  = ([ConsoleLog "No signature verification - webhook secret not configured" []],
     Normal true).
Proof. reflexivity. Qed.

(** C3 (the code departs from the claim): on a header of at least four
    fields whose digest field is not 44 bytes long, the length of every
    computed digest, the verifier does not return false: the comparison
    throws a RangeError. *)
Theorem verify_throws_on_digest_length (payload sig secret : string) :
  truthy_string (Some sig) = true ->
  truthy_string (Some secret) = true ->
  (4 <= length (split ";"%char sig))%nat ->
  String.length (nth 3 (split ";"%char sig) EmptyString) <> 44%nat ->
  verifyOpenPhoneSignature payload (Some sig) (Some secret)
  = ([], Throw (RangeError "Input buffers must have the same byte length")).
Proof.
  intros Hsig Hsec Hfields Hlen. unfold verifyOpenPhoneSignature.
  rewrite Hsig, Hsec. simpl negb. simpl orb. cbv iota. simpl default.
  destruct (Nat.ltb_spec (length (split ";"%char sig)) 4) as [Hlt|_]; [lia|].
  f_equal. apply timingSafeEqual_other_length.
  now rewrite !length_bytes_of_string, length_hmac_sha256_base64.
Qed.

Lemma verify_throws_on_digest_length_witness :
  verifyOpenPhoneSignature "{}" (Some "hmac;1;1700000000;abc") (Some "c2VjcmV0")
  = ([], Throw (RangeError "Input buffers must have the same byte length")).
Proof.
  apply verify_throws_on_digest_length;
    [reflexivity | reflexivity | simpl; lia | simpl; lia].
Defined.

(** C9, as stated, fails, for the signature and for the payload. Changing
    one character of the signature header inside field 1, which the verifier
    does not read, leaves the result true. And changing one UTF-16 code unit
    of the payload (one byte of it: U+FFFD to the lone surrogate U+D8FD)
    leaves the result true: [update(signedData, 'utf8')] writes U+FFFD for a
    lone surrogate, so both payloads are hashed as the same bytes. *)
Lemma mutation_can_keep_true :
  ~ (forall (secret f0 f1 timestamp payload : string) (i : nat) (c : ascii),
       truthy_string (Some secret) = true ->
       no_semicolon f0 = true -> no_semicolon f1 = true ->
       no_semicolon timestamp = true ->
       let sig := header f0 f1 timestamp
                    (hmac_sha256_base64 (Base64.decode secret)
                                        (timestamp +:+ "." +:+ payload)) in
       (i < String.length sig)%nat -> byte_of_ascii c < 0x80 ->
       String.get i sig <> Some c ->
       snd (verifyOpenPhoneSignature payload
              (Some (mutate i (byte_of_ascii c) sig)) (Some secret))
       = Normal false)
  /\ ~ (forall (secret timestamp : string) (payload : list Z) (i : nat) (u : Z),
          truthy_string (Some secret) = true ->
          no_semicolon timestamp = true ->
          Forall (fun x => 0 <= x < 65536) payload ->
          (i < length payload)%nat -> 0 <= u < 65536 -> payload !! i <> Some u ->
          snd (verifyOpenPhoneSignature (js_string (<[i := u]> payload))
                 (Some (provider_signature secret timestamp (js_string payload)))
                 (Some secret))
          = Normal false).
Proof.
  split.
  - intros H.
    specialize (H "c2VjcmV0" "hmac" "1" "1700000000" "{}" 5%nat "2"%char
                  eq_refl eq_refl eq_refl eq_refl).
    cbv zeta in H.
    assert (Hf : snd (verifyOpenPhoneSignature "{}"
                   (Some (mutate 5 (byte_of_ascii "2")
                            (header "hmac" "1" "1700000000"
                               (hmac_sha256_base64 (Base64.decode "c2VjcmV0")
                                  ("1700000000" +:+ "." +:+ "{}")))))
                   (Some "c2VjcmV0")) = Normal false).
    { apply H; [vm_compute; lia | reflexivity | vm_compute; discriminate]. }
    vm_compute in Hf. discriminate Hf.
  - intros H.
    assert (Hf : snd (verifyOpenPhoneSignature (js_string (<[0%nat := 0xD8FD]> [0xFFFD]))
                   (Some (provider_signature "c2VjcmV0" "1700000000" (js_string [0xFFFD])))
                   (Some "c2VjcmV0")) = Normal false).
    { apply H; [reflexivity | reflexivity | repeat constructor; lia | cbn; lia | lia
               | discriminate]. }
    vm_compute in Hf. discriminate Hf.
Qed.

(** Replacing a character of the digest field by one outside ASCII makes
    the field longer than 44 bytes: the comparison throws, as on every digest
    field of another length. *)
Lemma wide_character_in_digest_throws (secret f0 f1 timestamp payload : string)
    (i : nat) (cp : Z) :
  truthy_string (Some secret) = true ->
  no_semicolon f0 = true -> no_semicolon f1 = true -> no_semicolon timestamp = true ->
  (i < 44)%nat -> 0x80 <= cp < 0x110000 ->
  let digest := hmac_sha256_base64 (Base64.decode secret) (timestamp +:+ "." +:+ payload) in
  snd (verifyOpenPhoneSignature payload
         (Some (header f0 f1 timestamp (mutate i cp digest))) (Some secret))
  = Throw (RangeError "Input buffers must have the same byte length").
Proof.
  intros Hs H0 H1 H2 Hi Hcp digest.
  assert (Hd : no_semicolon digest = true) by apply hmac_digest_no_semicolon.
  assert (Hl : String.length digest = 44%nat) by apply length_hmac_sha256_base64.
  assert (Ha : ascii_only digest = true) by apply hmac_digest_ascii.
  rewrite verify_header
    by (try assumption; apply mutate_no_semicolon; first [lia | assumption]).
  simpl snd. fold digest.
  apply timingSafeEqual_other_length.
  rewrite !length_bytes_of_string, Hl.
  pose proof (mutate_wide_length i cp digest Hcp Ha ltac:(lia)). lia.
Qed.

(** C9, amended: the correctly computed digest verifies, whatever fields 0
    and 1 of the header hold; replacing one character of the digest field by
    another ASCII character (not a semicolon) gives false; and another
    payload under the same header gives false exactly when the digest of its
    UTF-8 bytes differs. *)
Theorem verify_correct_digest (secret f0 f1 timestamp payload : string) :
  truthy_string (Some secret) = true ->
  no_semicolon f0 = true -> no_semicolon f1 = true -> no_semicolon timestamp = true ->
  let key := Base64.decode secret in
  let digest := hmac_sha256_base64 key (timestamp +:+ "." +:+ payload) in
  snd (verifyOpenPhoneSignature payload (Some (header f0 f1 timestamp digest)) (Some secret))
  = Normal true
  /\ (forall (i : nat) (c : ascii),
        (i < 44)%nat -> byte_of_ascii c < 0x80 ->
        String.get i digest <> Some c -> c <> ";"%char ->
        snd (verifyOpenPhoneSignature payload
               (Some (header f0 f1 timestamp (mutate i (byte_of_ascii c) digest)))
               (Some secret))
        = Normal false)
  /\ (forall payload' : string,
        snd (verifyOpenPhoneSignature payload'
               (Some (header f0 f1 timestamp digest)) (Some secret))
        = Normal (bool_decide
                    (hmac_sha256_base64 key (timestamp +:+ "." +:+ payload') = digest))).
Proof.
  intros Hs H0 H1 H2 key digest.
  assert (Hd : no_semicolon digest = true) by apply hmac_digest_no_semicolon.
  assert (Hl : String.length digest = 44%nat) by apply length_hmac_sha256_base64.
  assert (Ha : ascii_only digest = true) by apply hmac_digest_ascii.
  repeat split.
  - rewrite verify_header by assumption. simpl snd.
    rewrite timingSafeEqual_same_length by reflexivity.
    now rewrite bool_decide_eq_true_2.
  - intros i c Hi Hc Hget Hne.
    assert (Hb : 0 <= byte_of_ascii c < 0x110000)
      by (unfold byte_of_ascii in *; lia).
    assert (Hn : byte_of_ascii c <> 59).
    { intros E. apply Hne. apply byte_of_ascii_inj. exact E. }
    rewrite verify_header by (try assumption; now apply mutate_no_semicolon).
    simpl snd. fold key. fold digest.
    rewrite timingSafeEqual_same_length
      by now rewrite !length_bytes_of_string, mutate_ascii_length.
    rewrite bool_decide_eq_false_2; [reflexivity|].
    intros Heq. apply bytes_of_string_inj in Heq. revert Heq.
    apply mutate_changes; [assumption | assumption | lia | assumption].
  - intros payload'. rewrite verify_header by assumption. simpl snd. fold key.
    rewrite timingSafeEqual_same_length
      by now rewrite !length_bytes_of_string, !length_hmac_sha256_base64.
    f_equal. apply bool_decide_ext. split.
    + intros Heq. apply bytes_of_string_inj in Heq. now symmetry.
    + intros Heq. now rewrite Heq.
Qed.

Lemma verify_correct_digest_witness :
  snd (verifyOpenPhoneSignature "{}"
         (Some (header "hmac" "1" "1700000000"
                  (hmac_sha256_base64 (Base64.decode "c2VjcmV0") "1700000000.{}")))
         (Some "c2VjcmV0")) = Normal true.
Proof.
  exact (proj1 (verify_correct_digest "c2VjcmV0" "hmac" "1" "1700000000" "{}"
                  eq_refl eq_refl eq_refl eq_refl)).
Defined.

(** ** The call table *)

Lemma start_then_complete (w : world) (callId : mapkey) (providerUserId callDirection : value)
    (st : state) :
  (onCallStarted w callId providerUserId callDirection ;;; onCallCompleted callId) st
  = (Normal (Some (mkCallRecord providerUserId (now w) callDirection)),
     mkState (delete callId (activeCalls st)) (next_object st) (trace st)).
Proof.
  unfold onCallStarted, onCallCompleted, activeCalls_set, activeCalls_get,
    activeCalls_delete, bind, ret. simpl.
  rewrite lookup_insert_eq, delete_insert_eq. reflexivity.
Qed.

(** C8: a start followed at once by the completion of the same call returns
    the record the start created and leaves the table, empty before, with
    size 0; completing a call that is not in the table returns nothing,
    normally, and leaves the state as it was. *)
Theorem tracker_round_trip (w : world) (callId : mapkey)
    (providerUserId callDirection : value) :
  (forall (n : nat) (t : list effect),
      let run := (onCallStarted w callId providerUserId callDirection ;;;
                  onCallCompleted callId) (mkState ∅ n t) in
      fst run = Normal (Some (mkCallRecord providerUserId (now w) callDirection))
      /\ activeCalls_size (snd run) = 0%nat)
  /\ (forall st : state,
        activeCalls st !! callId = None ->
        onCallCompleted callId st = (Normal None, st)).
Proof.
  split.
  - intros n t run. subst run. rewrite start_then_complete. simpl.
    split; [reflexivity|]. unfold activeCalls_size. simpl.
    rewrite delete_empty. apply map_size_empty.
  - intros [calls n t] Hnone. simpl in Hnone.
    unfold onCallCompleted, activeCalls_get, activeCalls_delete, bind, ret. simpl.
    rewrite Hnone. now rewrite delete_id.
Qed.

Lemma tracker_round_trip_witness :
  onCallCompleted (KStr "c2") initial_state = (Normal None, initial_state).
Proof.
  apply (proj2 (tracker_round_trip world_up
                  (KStr "c2") Undefined Undefined)).
  reflexivity.
Defined.

(** ** The webhook handler *)

Lemma directives_app (t u : list effect) : directives (t ++ u) = directives t ++ directives u.
Proof. unfold directives. apply flat_map_app. Qed.

Lemma directives_logs (t : list effect) : forallb is_log t = true -> directives t = [].
Proof.
  induction t as [|e t IH]; simpl; [reflexivity|].
  intros H. apply andb_prop in H as [He Ht]. destruct e; try discriminate; now apply IH.
Qed.

(** The handler is a chain of binds over a handful of primitives. Unfolded, a
    run is a tree of case distinctions on what the primitives return;
    [handler_cases] walks the tree, one innermost scrutinee at a time, and
    [close_leaf] settles what is asked at each leaf. *)
Ltac unfold_handler :=
  unfold webhook_try, handle_event, on_ringing, on_completed, no_mapping,
    setTeamsPresence, getTeamsAccessToken, onCallStarted, onCallCompleted,
    activeCalls_set, activeCalls_get, activeCalls_delete, signature_gate,
    fresh_object, emit, emit_all, bind, ret, lift, throw.

Ltac case_step :=
  match goal with
  | |- context [match ?x with _ => _ end] =>
      lazymatch x with
      | context [match _ with _ => _ end] => fail
      | _ => destruct x eqn:?
      end
  end.

Ltac handler_cases :=
  unfold_handler;
  unfold expected_directives, table_after, event_kind, mapped_user, lacks_call_data,
    call_id, call_data, type_is, get_prop_opt, get_prop, cbind;
  repeat (cbv beta iota; cbn [fst snd trace activeCalls next_object status];
          case_step).

Ltac use_downstream :=
  match goal with
  | H : downstream_fails _ = _ |- _ =>
      unfold downstream_fails, throws in H;
      repeat match goal with
             | E : token_response _ = _ |- _ => rewrite E in H; clear E
             | E : presence_response _ = _ |- _ => rewrite E in H; clear E
             end;
      cbn in H
  end.

Ltac close_leaf :=
  cbv beta iota; cbn [fst snd trace activeCalls next_object status];
  try match goal with
      | H : to_string (Json (JStr _)) = Throw _ |- _ => discriminate H
      end;
  rewrite <- ?app_assoc; cbn [app];
  first [ eexists _, _; split; [intros ?; reflexivity|]
        | eexists _, []; split; [intros ?; rewrite app_nil_r; reflexivity|] ];
  rewrite ?directives_app; cbn [directives flat_map app forallb is_log andb throws];
  repeat split; intros; try reflexivity; try congruence; try discriminate;
  try (use_downstream; congruence);
  try (match goal with H : exists _, _ = Normal _ |- _ => destruct H; congruence end);
  try (match goal with H : Some _ = Some _ |- _ => injection H as <- end;
       repeat match goal with
              | E : String.eqb _ _ = _, H : context [String.eqb _ _] |- _ => rewrite E in H
              end;
       cbn [orb] in *; discriminate).

(** What the logging and dispatching part of the handler does, in closed
    form: how it completes and what it adds to the trace, both independent
    of the call table; the directives it issues; the table it leaves. *)
Lemma handle_event_run (w : world) (oid : nat) (event : json) (n : nat) (t : list effect) :
  exists (c : completion response) (es : list effect),
    (forall calls : gmap mapkey CallRecord,
        handle_event w oid (Json event) (mkState calls n t)
        = (c, mkState (table_after w oid event calls) n (t ++ es)))
    /\ directives es = expected_directives event
    /\ (forall r, c = Normal r -> r = mkResponse 200 "OK")
    /\ (forall kind, event_kind event = Some kind ->
          String.eqb kind "call.ringing" = false ->
          String.eqb kind "call.completed" = false ->
          c = Normal (mkResponse 200 "OK"))
    /\ (downstream_fails w = true -> expected_directives event <> [] -> throws c = true)
    /\ (downstream_fails w = false -> expected_directives event <> [] ->
          (exists shown, to_string (call_id event) = Normal shown) ->
          c = Normal (mkResponse 200 "OK"))
    /\ (malformed event = true -> table_after w oid event = id)
    /\ (expected_directives event = [] -> forallb is_log es = true).
Proof.
  unfold malformed.
  handler_cases.
  all: close_leaf.
Qed.

Lemma malformed_no_directive (event : json) :
  malformed event = true -> expected_directives event = [].
Proof.
  unfold malformed, expected_directives, event_kind, mapped_user, cbind, get_prop_opt,
    get_prop.
  repeat (cbv beta iota; case_step); cbn [orb andb]; intros; try reflexivity;
    try discriminate.
Qed.

Lemma verify_prints_logs (payload : string) (signature secret : option string) :
  forallb is_log (fst (verifyOpenPhoneSignature payload signature secret)) = true.
Proof. unfold verifyOpenPhoneSignature. repeat case_step; reflexivity. Qed.

Lemma gate_effects_logs (w : world) (req : request) :
  forallb is_log (gate_effects w req) = true.
Proof. unfold gate_effects. case_step; [apply verify_prints_logs | reflexivity]. Qed.

(** The handler up to the signature gate. *)
Lemma webhook_try_gate (w : world) (req : request) (calls : gmap mapkey CallRecord)
    (n : nat) (t : list effect) :
  webhook_try w req (mkState calls n t)
  = match (if truthy_string (OPENPHONE_WEBHOOK_SECRET w)
           then snd (verifyOpenPhoneSignature (JSON.stringify (body req))
                       (openphone_signature req) (OPENPHONE_WEBHOOK_SECRET w))
           else Normal true) with
    | Normal true =>
        handle_event w n (Json (body req)) (mkState calls (S n) (t ++ gate_effects w req))
    | Normal false =>
        (Normal (mkResponse 401 "Invalid signature"),
         mkState calls (S n)
           (t ++ gate_effects w req ++ [ConsoleError "Invalid OpenPhone webhook signature" None]))
    | Throw e => (Throw e, mkState calls (S n) (t ++ gate_effects w req))
    end.
Proof.
  unfold webhook_try, signature_gate, gate_effects, fresh_object, emit, emit_all,
    bind, ret, lift.
  cbn [fst snd trace activeCalls next_object].
  destruct (truthy_string (OPENPHONE_WEBHOOK_SECRET w)).
  - destruct (verifyOpenPhoneSignature _ _ _) as [printed [[|]|e]];
      cbn [fst snd trace activeCalls next_object negb]; rewrite <- ?app_assoc; reflexivity.
  - cbn [fst snd trace activeCalls next_object negb]. now rewrite app_nil_r.
Qed.

(** One run of the handler in closed form. The response and the added trace
    do not depend on the call table. *)
Lemma webhook_run (w : world) (req : request) (n : nat) (t : list effect) :
  exists (res : response) (es : list effect),
    (forall calls : gmap mapkey CallRecord,
        webhook_openphone w req (mkState calls n t)
        = (res, mkState (if passes_verification w req
                         then table_after w n (body req) calls else calls)
                        (S n) (t ++ es)))
    /\ (passes_verification w req = true ->
          directives es = expected_directives (body req)
          /\ (status res = 200 \/ status res = 500)
          /\ (forall kind, event_kind (body req) = Some kind ->
                String.eqb kind "call.ringing" = false ->
                String.eqb kind "call.completed" = false ->
                res = mkResponse 200 "OK")
          /\ (downstream_fails w = true -> expected_directives (body req) <> [] ->
                status res = 500)
          /\ (downstream_fails w = false -> expected_directives (body req) <> [] ->
                (exists shown, to_string (call_id (body req)) = Normal shown) ->
                res = mkResponse 200 "OK")
          /\ (malformed (body req) = true -> table_after w n (body req) = id)
          /\ (expected_directives (body req) = [] -> forallb is_log es = true))
    /\ (passes_verification w req = false ->
          forallb is_log es = true
          /\ (status res = 401 \/ status res = 500)
          /\ (status res = 401 <->
                truthy_string (OPENPHONE_WEBHOOK_SECRET w) = true
                /\ snd (verifyOpenPhoneSignature (JSON.stringify (body req))
                          (openphone_signature req) (OPENPHONE_WEBHOOK_SECRET w))
                   = Normal false)).
Proof.
  unfold webhook_openphone, passes_verification.
  destruct (handle_event_run w n (body req) (S n) (t ++ gate_effects w req))
    as (c & es & Hrun & Hdir & Hok & Hother & Hdown & Hup & Hmal & Hlogs).
  pose proof (gate_effects_logs w req) as Hgate.
  destruct (truthy_string (OPENPHONE_WEBHOOK_SECRET w)) eqn:Htruthy;
    [destruct (snd (verifyOpenPhoneSignature _ _ _)) as [[|]|e] eqn:Hverify|].
  1, 4: destruct c as [r|e].
  1, 3: exists r, (gate_effects w req ++ es).
  3, 4: exists (mkResponse 500 "Internal server error"),
          (gate_effects w req ++ es ++
             [ConsoleError "Error handling OpenPhone webhook:" (Some e)]).
  5: exists (mkResponse 401 "Invalid signature"),
       (gate_effects w req ++ [ConsoleError "Invalid OpenPhone webhook signature" None]).
  6: exists (mkResponse 500 "Internal server error"),
       (gate_effects w req ++ [ConsoleError "Error handling OpenPhone webhook:" (Some e)]).
  all: split;
    [ intros calls; rewrite webhook_try_gate, Htruthy, ?Hverify, ?Hrun;
      cbn [fst snd trace activeCalls next_object]; rewrite <- ?app_assoc; reflexivity | ].
  all: split; intros Hp; try discriminate Hp.
  all: rewrite ?directives_app, ?(directives_logs _ Hgate), ?forallb_app, ?Hgate;
    cbn [app directives flat_map forallb is_log andb status].
  all: repeat split; intros; try reflexivity; try assumption; try discriminate;
    try (left; reflexivity); try (right; reflexivity); try tauto.
  all: rewrite ?app_nil_r, ?andb_true_r; cbn [throws] in *.
  all: try (specialize (Hok _ eq_refl); subst r).
  all: naive_solver.
Qed.

Lemma mapped_has_call_data (event : json) (user : teams_user) :
  mapped_user event = Some user -> lacks_call_data event = false.
Proof.
  unfold mapped_user, lacks_call_data, call_data, cbind, get_prop_opt, get_prop.
  repeat (cbv beta iota; case_step); intros; try reflexivity; try discriminate.
Qed.

Lemma effects_of_run_eq (w : world) (req : request) (st st' : state) (res : response)
    (es : list effect) :
  webhook_openphone w req st = (res, st') -> trace st' = trace st ++ es ->
  effects_of_run w req st = es.
Proof.
  intros Hrun Htrace. unfold effects_of_run. rewrite Hrun. simpl.
  rewrite Htrace. apply drop_app_length.
Qed.

(** The run lemma for a state given as a whole. *)
Ltac run_handler w req st res es Hpass Hfail :=
  let calls := fresh "calls" in
  let n := fresh "n" in
  let t := fresh "t" in
  let Hrun := fresh "Hrun" in
  let Heff := fresh "Heff" in
  destruct st as [calls n t];
  destruct (webhook_run w req n t) as (res & es & Hrun & Hpass & Hfail);
  pose proof (effects_of_run_eq w req _ _ _ es (Hrun calls) eq_refl) as Heff;
  rewrite ?Heff; rewrite ?(Hrun calls); cbn [fst snd activeCalls next_object trace].

(** ** Events and directives *)

(** The logging and dispatching part on an event that is neither
    'call.ringing' nor 'call.completed': it prints the first log line and
    answers 200, unless the type cannot be converted to a string. *)
Lemma handle_event_other (w : world) (oid : nat) (event : json) (st : state) :
  event <> JNull ->
  event_kind event <> Some "call.ringing" ->
  event_kind event <> Some "call.completed" ->
  fst (handle_event w oid (Json event) st)
  = match to_string (get_prop_opt (Json event) "type") with
    | Normal _ => Normal (mkResponse 200 "OK")
    | Throw e => Throw e
    end.
Proof.
  intros Hnull Hr Hc.
  assert (Hget : forall name, get_prop (Json event) name
                              = Normal (get_prop_opt (Json event) name)).
  { intros name. unfold get_prop_opt. destruct event; try reflexivity. now destruct Hnull. }
  unfold event_kind in Hr, Hc.
  unfold handle_event, bind, lift, emit, ret. rewrite !Hget.
  destruct (to_string (get_prop_opt (Json event) "type")) as [shown|e]; [|reflexivity].
  unfold type_is.
  destruct (get_prop_opt (Json event) "type") as [|[| | |kind| |]]; try reflexivity.
  destruct (String.eqb_spec kind "call.ringing") as [->|_]; [now destruct Hr|].
  destruct (String.eqb_spec kind "call.completed") as [->|_]; [now destruct Hc|].
  reflexivity.
Qed.

(** The answer of a run that passes the signature gate is the answer of the
    dispatching part, or 500 when that part throws. *)
Lemma webhook_after_gate (w : world) (req : request) (calls : gmap mapkey CallRecord)
    (n : nat) (t : list effect) :
  passes_verification w req = true ->
  fst (webhook_openphone w req (mkState calls n t))
  = match fst (handle_event w n (Json (body req))
                 (mkState calls (S n) (t ++ gate_effects w req))) with
    | Normal res => res
    | Throw _ => mkResponse 500 "Internal server error"
    end.
Proof.
  unfold passes_verification, webhook_openphone. rewrite webhook_try_gate.
  destruct (truthy_string (OPENPHONE_WEBHOOK_SECRET w));
    [destruct (snd (verifyOpenPhoneSignature _ _ _)) as [[|]|e]; try discriminate|];
    intros _; destruct (handle_event _ _ _ _) as [[res|e] st']; reflexivity.
Qed.

(** C7, as stated, fails: an event of another kind is not always ignored
    with 200. When [event.type] is an object with an own property
    [toString], the first log line cannot print it, and the catch-all
    answers 500. *)
Lemma other_event_can_fail :
  ~ (forall (w : world) (req : request) (st : state),
       passes_verification w req = true ->
       event_kind (body req) <> Some "call.ringing" ->
       event_kind (body req) <> Some "call.completed" ->
       fst (webhook_openphone w req st) = mkResponse 200 "OK").
Proof.
  intros H.
  specialize (H world_up (mkRequest (JObj [("type", JObj [("toString", JNum 1)])]) None)
                initial_state eq_refl ltac:(discriminate) ltac:(discriminate)).
  vm_compute in H. discriminate H.
Qed.

(** C7, amended: past the signature gate, an event of type 'call.ringing'
    yields the directive (Busy, InACall) for the user it maps to,
    'call.completed' yields (Available, Available), and every other event
    (a string of another kind, no type, a type that is not a string) yields
    no directive and leaves the call table alone; it is answered 200 OK when
    its type can be converted to a string for the log line, and 500 when it
    cannot. The body parser never hands on [null]. *)
Theorem event_kind_to_directive (w : world) (req : request) (st : state) :
  passes_verification w req = true ->
  (event_kind (body req) = Some "call.ringing" ->
     directives (effects_of_run w req st)
     = match mapped_user (body req) with
       | Some user => [(user, "Busy", "InACall")]
       | None => []
       end)
  /\ (event_kind (body req) = Some "call.completed" ->
        directives (effects_of_run w req st)
        = match mapped_user (body req) with
          | Some user => [(user, "Available", "Available")]
          | None => []
          end)
  /\ (event_kind (body req) <> Some "call.ringing" ->
      event_kind (body req) <> Some "call.completed" ->
        directives (effects_of_run w req st) = []
        /\ activeCalls (snd (webhook_openphone w req st)) = activeCalls st
        /\ (body req <> JNull ->
            fst (webhook_openphone w req st)
            = if throws (to_string (get_prop_opt (Json (body req)) "type"))
              then mkResponse 500 "Internal server error"
              else mkResponse 200 "OK")).
Proof.
  intros Hp.
  assert (Hres : event_kind (body req) <> Some "call.ringing" ->
                 event_kind (body req) <> Some "call.completed" ->
                 body req <> JNull ->
                 fst (webhook_openphone w req st)
                 = if throws (to_string (get_prop_opt (Json (body req)) "type"))
                   then mkResponse 500 "Internal server error"
                   else mkResponse 200 "OK").
  { intros Hr Hc Hnull. destruct st as [calls n t].
    rewrite (webhook_after_gate w req calls n t Hp).
    rewrite (handle_event_other w n (body req) _ Hnull Hr Hc).
    now destruct (to_string _). }
  revert Hres.
  run_handler w req st res es Hpass Hfail.
  intros Hres.
  destruct (Hpass Hp) as (Hdir & _).
  rewrite Hdir, Hp. unfold expected_directives, table_after.
  repeat split.
  - intros ->. reflexivity.
  - intros ->. reflexivity.
  - destruct (event_kind (body req)) as [kind|]; [|reflexivity].
    destruct (String.eqb_spec kind "call.ringing") as [->|_]; [now destruct H|].
    destruct (String.eqb_spec kind "call.completed") as [->|_]; [now destruct H0|].
    reflexivity.
  - destruct (event_kind (body req)) as [kind|]; [|reflexivity].
    destruct (String.eqb_spec kind "call.ringing") as [->|_]; [now destruct H|].
    destruct (String.eqb_spec kind "call.completed") as [->|_]; [now destruct H0|].
    now destruct (lacks_call_data _).
  - intros Hnull. now apply Hres.
Qed.

(** C6: a 'call.completed' event whose user has an identity mapping gets the
    directive (Available, Available) whatever the call table holds; the
    record of the call, if any, is removed; the response and the effects of
    the run are the same for every content of the table; and with the
    presence platform up and a call id that prints, the answer is 200 OK. *)
Theorem completed_resets_presence (w : world) (req : request) (st : state)
    (user : teams_user) :
  passes_verification w req = true ->
  event_kind (body req) = Some "call.completed" ->
  mapped_user (body req) = Some user ->
  directives (effects_of_run w req st) = [(user, "Available", "Available")]
  /\ activeCalls (snd (webhook_openphone w req st))
     = delete (mapkey_of (next_object st) (call_id (body req))) (activeCalls st)
  /\ (forall calls : gmap mapkey CallRecord,
        let st0 := mkState calls (next_object st) (trace st) in
        fst (webhook_openphone w req st0) = fst (webhook_openphone w req st)
        /\ effects_of_run w req st0 = effects_of_run w req st)
  /\ (downstream_fails w = false ->
      (exists shown, to_string (call_id (body req)) = Normal shown) ->
      fst (webhook_openphone w req st) = mkResponse 200 "OK").
Proof.
  intros Hp Hkind Huser.
  run_handler w req st res es Hpass Hfail.
  destruct (Hpass Hp) as (Hdir & _ & _ & _ & Hup & _).
  assert (Hexp : expected_directives (body req) = [(user, "Available", "Available")]).
  { unfold expected_directives. now rewrite Hkind, Huser. }
  rewrite Hdir, Hp, Hexp. unfold table_after.
  rewrite Hkind, (mapped_has_call_data _ _ Huser). cbn [String.eqb Ascii.eqb Bool.eqb].
  repeat split.
  - rewrite (Hrun calls0). reflexivity.
  - apply (effects_of_run_eq w req _ _ _ es (Hrun calls0) eq_refl).
  - intros Hd Hshown. apply Hup; [assumption | now rewrite Hexp | assumption].
Qed.

Lemma event_kind_to_directive_witness :
  directives (effects_of_run world_up
                (mkRequest (call_event "call.ringing" "c1" "US2gwvMWKA") None)
                initial_state)
  = [(tyler, "Busy", "InACall")].
Proof.
  exact (proj1 (event_kind_to_directive world_up
                  (mkRequest (call_event "call.ringing" "c1" "US2gwvMWKA") None)
                  initial_state eq_refl) eq_refl).
Defined.

Lemma completed_resets_presence_witness :
  directives (effects_of_run world_up
                (mkRequest (call_event "call.completed" "c2" "US2gwvMWKA") None)
                initial_state)
  = [(tyler, "Available", "Available")].
Proof.
  exact (proj1 (completed_resets_presence world_up
                  (mkRequest (call_event "call.completed" "c2" "US2gwvMWKA") None)
                  initial_state tyler eq_refl eq_refl eq_refl)).
Defined.

(** ** Failures *)

(** C2, as stated, fails: the token endpoint refuses while a verified
    'call.ringing' event of a mapped user is handled, and the answer is 500. *)
Lemma downstream_failure_is_not_200 :
  ~ (forall (w : world) (req : request) (st : state),
       passes_verification w req = true -> downstream_fails w = true ->
       status (fst (webhook_openphone w req st)) = 200).
Proof.
  intros H.
  specialize (H world_token_down
                (mkRequest (call_event "call.ringing" "c1" "US2gwvMWKA") None)
                initial_state eq_refl eq_refl).
  vm_compute in H. discriminate H.
Qed.

(** C2, amended: when the presence setter is called for a verified event and
    the token acquisition or the presence update raises, the handler's catch
    answers 500; and the answer is 401 exactly when a secret is configured
    and the verifier returns false. *)
Theorem downstream_failure_answers_500 (w : world) (req : request) (st : state) :
  (passes_verification w req = true -> downstream_fails w = true ->
   directives (effects_of_run w req st) <> [] ->
   status (fst (webhook_openphone w req st)) = 500)
  /\ (status (fst (webhook_openphone w req st)) = 401 <->
        truthy_string (OPENPHONE_WEBHOOK_SECRET w) = true
        /\ snd (verifyOpenPhoneSignature (JSON.stringify (body req))
                  (openphone_signature req) (OPENPHONE_WEBHOOK_SECRET w))
           = Normal false).
Proof.
  run_handler w req st res es Hpass Hfail.
  destruct (passes_verification w req) eqn:Hp.
  - destruct (Hpass eq_refl) as (Hdir & Hstatus & _ & Hdown & _).
    split.
    + intros _ Hd Hne. apply Hdown; [assumption | now rewrite <- Hdir].
    + unfold passes_verification in Hp. split.
      * intros H401. destruct Hstatus as [H|H]; rewrite H in H401; discriminate H401.
      * intros [Ht Hv]. rewrite Ht, Hv in Hp. discriminate Hp.
  - destruct (Hfail eq_refl) as (_ & _ & H401).
    split; [intros Habs; discriminate Habs | exact H401].
Qed.

Lemma downstream_failure_answers_500_witness :
  status (fst (webhook_openphone world_presence_down
                 (mkRequest (call_event "call.completed" "c1" "US2gwvMWKA") None)
                 initial_state)) = 500.
Proof.
  apply (proj1 (downstream_failure_answers_500 world_presence_down
                  (mkRequest (call_event "call.completed" "c1" "US2gwvMWKA") None)
                  initial_state)).
  - reflexivity.
  - reflexivity.
  - vm_compute. discriminate.
Defined.

(** C5, as stated, fails: a 'call.ringing' event whose data.object is there
    but lacks id, userId and direction is not a no-op: a record is stored
    under the key undefined. *)
Lemma event_without_call_id_is_stored :
  let req := mkRequest (JObj [("type", JStr "call.ringing");
                              ("data", JObj [("object", JObj [])])]) None in
  let st' := snd (webhook_openphone world_up req initial_state) in
  activeCalls_size initial_state = 0%nat
  /\ activeCalls_size st' = 1%nat
  /\ activeCalls st' !! KUndefined = Some (mkCallRecord Undefined 1700000000000 Undefined)
  /\ activeCalls st' <> activeCalls initial_state.
Proof.
  cbv zeta. repeat split; try (vm_compute; reflexivity).
  intros H. apply (f_equal (fun m => m !! KUndefined)) in H.
  vm_compute in H. discriminate H.
Qed.

(** C5, amended: an event whose type is missing or not a string, or whose
    type is 'call.ringing' or 'call.completed' while data or data.object is
    missing, is answered (the process goes on), leaves the call table as it
    was, calls the presence setter not at all, and prints log lines only. *)
Theorem malformed_event_is_noop (w : world) (req : request) (st : state) :
  malformed (body req) = true ->
  activeCalls (snd (webhook_openphone w req st)) = activeCalls st
  /\ directives (effects_of_run w req st) = []
  /\ forallb is_log (effects_of_run w req st) = true
  /\ (status (fst (webhook_openphone w req st)) = 200
      \/ status (fst (webhook_openphone w req st)) = 401
      \/ status (fst (webhook_openphone w req st)) = 500).
Proof.
  intros Hm.
  run_handler w req st res es Hpass Hfail.
  destruct (passes_verification w req) eqn:Hp.
  - destruct (Hpass eq_refl) as (Hdir & Hstatus & _ & _ & _ & Hmal & Hlogs).
    pose proof (malformed_no_directive _ Hm) as Hnone.
    rewrite (Hmal Hm), Hdir, Hnone, (Hlogs Hnone). repeat split. tauto.
  - destruct (Hfail eq_refl) as (Hlogs & Hstatus & _).
    rewrite (directives_logs _ Hlogs), Hlogs. repeat split. tauto.
Qed.

Lemma malformed_event_is_noop_witness :
  activeCalls (snd (webhook_openphone world_up
                      (mkRequest (JObj [("type", JStr "call.completed")]) None)
                      initial_state))
  = activeCalls initial_state.
Proof.
  exact (proj1 (malformed_event_is_noop world_up
                  (mkRequest (JObj [("type", JStr "call.completed")]) None)
                  initial_state eq_refl)).
Defined.

(** ** What the handler verifies *)

(** C4 (the code departs from the claim): the handler verifies the
    signature over JSON.stringify(req.body). A body received with a space
    after the colon parses and prints back without it, so the provider's
    signature, right for the bytes as received, is refused with 401. *)
Theorem handler_verifies_reserialized_body :
  let raw := js_text "{'type': 'message.received'}" in
  let sig := provider_signature "c2VjcmV0" "1700000000" raw in
  let parsed := JObj [("type", JStr "message.received")] in
  Parse.express_json raw = Some parsed
  /\ JSON.stringify parsed = js_text "{'type':'message.received'}"
  /\ JSON.stringify parsed <> raw
  /\ snd (verifyOpenPhoneSignature raw (Some sig) (Some "c2VjcmV0")) = Normal true
  /\ snd (verifyOpenPhoneSignature (JSON.stringify parsed) (Some sig) (Some "c2VjcmV0"))
     = Normal false
  /\ fst (webhook_openphone world_secret (mkRequest parsed (Some sig)) initial_state)
     = mkResponse 401 "Invalid signature".
Proof.
  cbv zeta. repeat split; try (vm_compute; reflexivity).
  vm_compute. discriminate.
Qed.

(** ** The verifier's exits, seen from the handler *)

(** With a secret configured, a request that carries no signature header is
    handled like a verified one. *)
Example unsigned_request_is_handled :
  let run := webhook_openphone world_secret
               (mkRequest (call_event "call.ringing" "c1" "US2gwvMWKA") None)
               initial_state in
  fst run = mkResponse 200 "OK"
  /\ directives (trace (snd run)) = [(tyler, "Busy", "InACall")].
Proof. cbv zeta. split; vm_compute; reflexivity. Qed.

(** With a secret configured, a header whose digest field has another length
    than the computed digest is answered 500, not 401. *)
Example short_digest_is_answered_500 :
  fst (webhook_openphone world_secret
         (mkRequest (call_event "call.ringing" "c1" "US2gwvMWKA")
                    (Some "hmac;1;1700000000;abc"))
         initial_state)
  = mkResponse 500 "Internal server error".
Proof. vm_compute. reflexivity. Qed.

(** A request signed over the text the handler prints back is verified. *)
Example signed_request_is_handled :
  let event := call_event "call.ringing" "c1" "US2gwvMWKA" in
  let sig := provider_signature "c2VjcmV0" "1700000000" (JSON.stringify event) in
  passes_verification world_secret (mkRequest event (Some sig)) = true
  /\ fst (webhook_openphone world_secret (mkRequest event (Some sig)) initial_state)
     = mkResponse 200 "OK".
Proof. cbv zeta. split; vm_compute; reflexivity. Qed.

(** An event whose type is an object with an own property toString cannot be
    printed in the first log line: the handler answers 500. Such an event has
    no kind; it is one of the malformed ones. *)
Example unprintable_type_is_answered_500 :
  let event := JObj [("type", JObj [("toString", JNum 1)])] in
  event_kind event = None
  /\ malformed event = true
  /\ fst (webhook_openphone world_up (mkRequest event None) initial_state)
     = mkResponse 500 "Internal server error".
Proof. cbv zeta. repeat split; vm_compute; reflexivity. Qed.

(** ** End-to-end scenarios *)

(** A ringing event of a mapped user: one directive (Busy, InACall), one
    entry in the table. *)
Example scenario_ringing :
  let st1 := after world_up (mkRequest (call_event "call.ringing" "c1" "US2gwvMWKA") None)
                   initial_state in
  directives (trace st1) = [(tyler, "Busy", "InACall")]
  /\ activeCalls_size st1 = 1%nat
  /\ activeCalls st1 !! KStr "c1"
     = Some (mkCallRecord (Json (JStr "US2gwvMWKA")) 1700000000000 (Json (JStr "incoming"))).
Proof. cbv zeta. repeat split; vm_compute; reflexivity. Qed.

(** Followed by the completion of the same call: (Available, Available),
    and the table is empty again. *)
Example scenario_ringing_then_completed :
  let st1 := after world_up (mkRequest (call_event "call.ringing" "c1" "US2gwvMWKA") None)
                   initial_state in
  let st2 := after world_up (mkRequest (call_event "call.completed" "c1" "US2gwvMWKA") None)
                   st1 in
  directives (trace st2) = [(tyler, "Busy", "InACall"); (tyler, "Available", "Available")]
  /\ activeCalls_size st2 = 0%nat.
Proof. cbv zeta. split; vm_compute; reflexivity. Qed.

(** A lone completion of an untracked call. *)
Example scenario_lone_completed :
  let run := webhook_openphone world_up
               (mkRequest (call_event "call.completed" "c2" "US2gwvMWKA") None)
               initial_state in
  fst run = mkResponse 200 "OK"
  /\ directives (trace (snd run)) = [(tyler, "Available", "Available")].
Proof. cbv zeta. split; vm_compute; reflexivity. Qed.

(** An event of a user without mapping: no directive, the table follows. *)
Example scenario_unmapped_user :
  let run := webhook_openphone world_up
               (mkRequest (call_event "call.ringing" "c3" "U1") None) initial_state in
  fst run = mkResponse 200 "OK"
  /\ directives (trace (snd run)) = []
  /\ activeCalls_size (snd run) = 1%nat.
Proof. cbv zeta. repeat split; vm_compute; reflexivity. Qed.

(** ** Object keys *)

Lemma initial_keys_fresh : keys_fresh initial_state.
Proof. intros id [r Hr]. simpl in Hr. now rewrite lookup_empty in Hr. Qed.

Lemma table_after_keys (w : world) (n : nat) (event : json)
    (calls : gmap mapkey CallRecord) (id : nat) :
  is_Some (table_after w n event calls !! KObj id) ->
  id = n \/ is_Some (calls !! KObj id).
Proof.
  unfold table_after.
  destruct (event_kind event) as [kind|]; [|now right].
  destruct (lacks_call_data event); [now right|].
  destruct (String.eqb kind "call.ringing").
  - destruct (decide (mapkey_of n (call_id event) = KObj id)) as [Heq|Hne].
    + intros _. left. destruct (call_id event) as [|[]]; simpl in Heq; congruence.
    + rewrite lookup_insert_ne by assumption. now right.
  - destruct (String.eqb kind "call.completed"); [|now right].
    intros [r Hr]. right. exists r.
    apply lookup_delete_Some in Hr. tauto.
Qed.

(** A run keeps the object keys of the table older than the next object: the
    key an object-valued call id makes is new in every run. *)
Lemma webhook_keeps_keys_fresh (w : world) (req : request) (st : state) :
  keys_fresh st -> keys_fresh (snd (webhook_openphone w req st)).
Proof.
  intros Hfresh. unfold keys_fresh in *.
  run_handler w req st res es Hpass Hfail.
  cbn [activeCalls next_object] in Hfresh.
  intros id Hid.
  destruct (passes_verification w req).
  - apply table_after_keys in Hid as [->|Hid]; [lia|].
    specialize (Hfresh id Hid). lia.
  - specialize (Hfresh id Hid). lia.
Qed.

(** A completion whose call id is an object or an array finds no record: the
    table stays as it was. *)
Lemma completed_object_id_removes_nothing (w : world) (req : request) (st : state) :
  keys_fresh st ->
  event_kind (body req) = Some "call.completed" ->
  (exists elems, call_id (body req) = Json (JArr elems))
  \/ (exists props, call_id (body req) = Json (JObj props)) ->
  activeCalls (snd (webhook_openphone w req st)) = activeCalls st.
Proof.
  intros Hfresh Hkind Hobj.
  assert (Hkey : mapkey_of (next_object st) (call_id (body req)) = KObj (next_object st)).
  { destruct Hobj as [[x ->]|[x ->]]; reflexivity. }
  unfold keys_fresh in Hfresh.
  run_handler w req st res es Hpass Hfail.
  cbn [activeCalls next_object] in Hfresh, Hkey.
  destruct (passes_verification w req); [|reflexivity].
  unfold table_after. rewrite Hkind.
  destruct (lacks_call_data (body req)); [reflexivity|].
  cbn [String.eqb Ascii.eqb Bool.eqb]. rewrite Hkey.
  apply delete_id. destruct (calls !! KObj n) eqn:Hlook; [|reflexivity].
  specialize (Hfresh n (mk_is_Some _ _ Hlook)). lia.
Qed.

(** * Further properties *)

(** ** The verifier on headers of other shapes *)

Lemma length_split_semicolons (s : string) :
  length (split ";"%char s) = S (semicolons s).
Proof.
  induction s as [|c s IH]; [reflexivity|].
  cbn [split semicolons].
  destruct (Ascii.eqb c ";"%char).
  - cbn [length]. now rewrite IH.
  - destruct (split ";"%char s) as [|h t]; [discriminate IH|]. exact IH.
Qed.

(** A header with fewer than three semicolons has fewer than four fields:
    the verifier returns false, computes no digest and prints nothing. *)
Theorem short_header_is_rejected (payload sig secret : string) :
  truthy_string (Some sig) = true ->
  truthy_string (Some secret) = true ->
  (semicolons sig < 3)%nat ->
  verifyOpenPhoneSignature payload (Some sig) (Some secret) = ([], Normal false).
Proof.
  intros Hsig Hsec Hn. unfold verifyOpenPhoneSignature.
  rewrite Hsig, Hsec. simpl negb. simpl orb. cbv iota. simpl default.
  rewrite length_split_semicolons.
  destruct (Nat.ltb_spec (S (semicolons sig)) 4) as [_|Hge]; [reflexivity | lia].
Qed.

Lemma short_header_is_rejected_witness :
  verifyOpenPhoneSignature "{}" (Some "hmac;1;1700000000") (Some "c2VjcmV0")
  = ([], Normal false).
Proof.
  apply short_header_is_rejected; [reflexivity | reflexivity | simpl; lia].
Defined.

Lemma append_assoc (a b c : string) : (a +:+ b) +:+ c = a +:+ (b +:+ c).
Proof.
  induction a as [|x a IH]; [reflexivity|].
  change (String x ((a +:+ b) +:+ c) = String x (a +:+ b +:+ c)). now rewrite IH.
Qed.

Lemma split_nonempty (s : string) : split ";"%char s <> [].
Proof.
  intros H. apply (f_equal (@length string)) in H.
  rewrite length_split_semicolons in H. discriminate H.
Qed.

(** Fields after the fourth are not read: a header that goes on after the
    digest field verifies like the header of four fields. *)
Theorem trailing_fields_are_ignored (payload secret f0 f1 timestamp digest rest : string) :
  truthy_string (Some secret) = true ->
  no_semicolon f0 = true -> no_semicolon f1 = true ->
  no_semicolon timestamp = true -> no_semicolon digest = true ->
  verifyOpenPhoneSignature payload
    (Some (header f0 f1 timestamp digest +:+ ";" +:+ rest)) (Some secret)
  = verifyOpenPhoneSignature payload (Some (header f0 f1 timestamp digest)) (Some secret).
Proof.
  intros Hs H0 H1 H2 H3.
  rewrite (verify_header payload secret f0 f1 timestamp digest) by assumption.
  unfold verifyOpenPhoneSignature, header.
  rewrite !append_assoc.
  rewrite Hs. simpl default.
  replace (truthy_string (Some (f0 +:+ ";" +:+ f1 +:+ ";" +:+ timestamp +:+ ";" +:+
                                      digest +:+ ";" +:+ rest))) with true
    by (destruct f0; reflexivity).
  simpl negb. simpl orb. cbv iota.
  rewrite !split_field by assumption.
  destruct (split ";"%char rest) as [|r0 rs] eqn:Hrest;
    [now apply split_nonempty in Hrest|].
  reflexivity.
Qed.

Lemma trailing_fields_are_ignored_witness :
  verifyOpenPhoneSignature "{}"
    (Some (header "hmac" "1" "1700000000" "abc" +:+ ";" +:+ "v2;extra")) (Some "c2VjcmV0")
  = verifyOpenPhoneSignature "{}" (Some (header "hmac" "1" "1700000000" "abc"))
      (Some "c2VjcmV0").
Proof.
  apply trailing_fields_are_ignored; reflexivity.
Defined.

(** A request signed over the text the handler prints back from the parsed
    body goes past the signature gate, whatever the body. *)
Theorem signature_over_printed_body_passes (w : world) (event : json)
    (secret timestamp : string) :
  OPENPHONE_WEBHOOK_SECRET w = Some secret ->
  truthy_string (Some secret) = true ->
  no_semicolon timestamp = true ->
  passes_verification w
    (mkRequest event (Some (provider_signature secret timestamp (JSON.stringify event))))
  = true.
Proof.
  intros Hw Hs Ht. unfold passes_verification, provider_signature.
  cbn [body openphone_signature]. rewrite Hw, Hs.
  rewrite verify_header by (try assumption; try reflexivity; apply hmac_digest_no_semicolon).
  cbn [snd]. rewrite timingSafeEqual_same_length by reflexivity.
  now rewrite bool_decide_eq_true_2.
Qed.

Lemma signature_over_printed_body_passes_witness :
  passes_verification world_secret
    (mkRequest (call_event "call.ringing" "c1" "US2gwvMWKA")
       (Some (provider_signature "c2VjcmV0" "1700000000"
                (JSON.stringify (call_event "call.ringing" "c1" "US2gwvMWKA")))))
  = true.
Proof.
  apply signature_over_printed_body_passes; reflexivity.
Defined.

(** ** What a run does to the call table *)

Lemma table_of_run (w : world) (req : request) (st : state) :
  activeCalls (after w req st)
  = (if passes_verification w req
     then table_after w (next_object st) (body req) (activeCalls st)
     else activeCalls st)
  /\ next_object (after w req st) = S (next_object st).
Proof.
  unfold after. destruct st as [calls n t].
  destruct (webhook_run w req n t) as (res & es & Hrun & _).
  rewrite (Hrun calls). split; reflexivity.
Qed.

Lemma answer_of_run (w : world) (req : request) (st : state) :
  (passes_verification w req = true
   /\ (fst (webhook_openphone w req st) = ok_response
       \/ fst (webhook_openphone w req st) = internal_error_response))
  \/ (passes_verification w req = false
      /\ (fst (webhook_openphone w req st) = invalid_signature_response
          \/ fst (webhook_openphone w req st) = internal_error_response)).
Proof.
  destruct st as [calls n t].
  unfold webhook_openphone, passes_verification. rewrite webhook_try_gate.
  destruct (handle_event_run w n (body req) (S n) (t ++ gate_effects w req))
    as (c & es & Hrun & _ & Hok & _).
  destruct (truthy_string (OPENPHONE_WEBHOOK_SECRET w));
    [destruct (snd (verifyOpenPhoneSignature _ _ _)) as [[|]|e]|].
  1, 4: rewrite Hrun; destruct c as [r|e]; [rewrite (Hok r eq_refl)|]; left; auto.
  all: right; auto.
Qed.

(** The handler has three answers: 200 OK or 500 for a request that passes
    the signature gate, 401 or 500 for one that does not. *)
Theorem handler_answers (w : world) (req : request) (st : state) :
  let res := fst (webhook_openphone w req st) in
  (res = ok_response \/ res = invalid_signature_response \/ res = internal_error_response)
  /\ (res = ok_response -> passes_verification w req = true)
  /\ (res = invalid_signature_response -> passes_verification w req = false).
Proof.
  cbv zeta.
  destruct (answer_of_run w req st) as [[Hp [H|H]]|[Hp [H|H]]]; rewrite H, Hp;
    repeat split; auto; intros Habs; discriminate Habs.
Qed.

Lemma handler_answers_witness :
  passes_verification world_secret
    (mkRequest (call_event "call.ringing" "c1" "US2gwvMWKA") (Some "hmac;1;1700000000"))
  = false.
Proof.
  apply (proj2 (proj2 (handler_answers world_secret
           (mkRequest (call_event "call.ringing" "c1" "US2gwvMWKA")
              (Some "hmac;1;1700000000")) initial_state))).
  vm_compute. reflexivity.
Defined.

(** A request that does not pass the signature gate changes nothing: the
    call table stays, the presence setter is not called, and only log lines
    are printed. *)
Theorem refused_request_changes_nothing (w : world) (req : request) (st : state) :
  passes_verification w req = false ->
  activeCalls (after w req st) = activeCalls st
  /\ directives (effects_of_run w req st) = []
  /\ forallb is_log (effects_of_run w req st) = true.
Proof.
  intros Hp. destruct (table_of_run w req st) as [Htable _].
  rewrite Htable, Hp. split; [reflexivity|].
  run_handler w req st res es Hpass Hfail.
  destruct (Hfail Hp) as (Hlogs & _).
  now rewrite (directives_logs _ Hlogs).
Qed.

Lemma refused_request_changes_nothing_witness :
  activeCalls (after world_secret
                 (mkRequest (call_event "call.ringing" "c1" "US2gwvMWKA")
                    (Some "hmac;1;1700000000")) initial_state)
  = activeCalls initial_state.
Proof.
  apply (refused_request_changes_nothing world_secret
           (mkRequest (call_event "call.ringing" "c1" "US2gwvMWKA")
              (Some "hmac;1;1700000000")) initial_state).
  vm_compute. reflexivity.
Defined.

(** A verified 'call.ringing' event with call data stores the record
    (userId, startTime = now, direction) under its call id, whatever the
    presence platform answers, and leaves every other entry as it was. *)
Theorem ringing_stores_record (w : world) (req : request) (st : state) :
  passes_verification w req = true ->
  event_kind (body req) = Some "call.ringing" ->
  lacks_call_data (body req) = false ->
  let key := mapkey_of (next_object st) (call_id (body req)) in
  activeCalls (after w req st) !! key = Some (record_of (now w) (body req))
  /\ (forall k : mapkey, k <> key ->
        activeCalls (after w req st) !! k = activeCalls st !! k).
Proof.
  intros Hp Hkind Hdata key. destruct (table_of_run w req st) as [Htable _].
  rewrite Htable, Hp. unfold table_after. rewrite Hkind, Hdata.
  cbn [String.eqb Ascii.eqb Bool.eqb]. fold key. split.
  - apply lookup_insert_eq.
  - intros k Hk. now apply lookup_insert_ne.
Qed.

Lemma ringing_stores_record_witness :
  activeCalls (after world_token_down
                 (mkRequest (call_event "call.ringing" "c1" "US2gwvMWKA") None)
                 initial_state) !! KStr "c1"
  = Some (mkCallRecord (Json (JStr "US2gwvMWKA")) 1700000000000 (Json (JStr "incoming"))).
Proof.
  exact (proj1 (ringing_stores_record world_token_down
                  (mkRequest (call_event "call.ringing" "c1" "US2gwvMWKA") None)
                  initial_state eq_refl eq_refl eq_refl)).
Defined.

(** A verified 'call.completed' event with call data removes the entry of
    its call id, if there is one, and leaves every other entry as it was. *)
Theorem completed_removes_record (w : world) (req : request) (st : state) :
  passes_verification w req = true ->
  event_kind (body req) = Some "call.completed" ->
  lacks_call_data (body req) = false ->
  let key := mapkey_of (next_object st) (call_id (body req)) in
  activeCalls (after w req st) !! key = None
  /\ (forall k : mapkey, k <> key ->
        activeCalls (after w req st) !! k = activeCalls st !! k).
Proof.
  intros Hp Hkind Hdata key. destruct (table_of_run w req st) as [Htable _].
  rewrite Htable, Hp. unfold table_after. rewrite Hkind, Hdata.
  cbn [String.eqb Ascii.eqb Bool.eqb]. fold key. split.
  - apply lookup_delete_eq.
  - intros k Hk. now apply lookup_delete_ne.
Qed.

Lemma completed_removes_record_witness :
  activeCalls (after world_up
                 (mkRequest (call_event "call.completed" "c1" "US2gwvMWKA") None)
                 (after world_up
                    (mkRequest (call_event "call.ringing" "c1" "US2gwvMWKA") None)
                    initial_state)) !! KStr "c1"
  = None.
Proof.
  exact (proj1 (completed_removes_record world_up
                  (mkRequest (call_event "call.completed" "c1" "US2gwvMWKA") None)
                  (after world_up
                     (mkRequest (call_event "call.ringing" "c1" "US2gwvMWKA") None)
                     initial_state) eq_refl eq_refl eq_refl)).
Defined.

Lemma mapkey_of_primitive (event : json) (n m : nat) :
  primitive_id event = true ->
  mapkey_of n (call_id event) = mapkey_of m (call_id event).
Proof.
  unfold primitive_id. destruct (call_id event) as [|[]]; try reflexivity; discriminate.
Qed.

(** A second 'call.ringing' event for a call that the table may already
    hold, named by the same primitive call id, overwrites the record of the
    first, whatever else the two events say (user, direction, event id) and
    whatever surroundings they meet: the table is the one the second event
    alone would leave, and the call's record is that of the second event. *)
Theorem repeated_ringing_overwrites (w1 w2 : world) (req1 req2 : request) (st : state) :
  passes_verification w1 req1 = true ->
  passes_verification w2 req2 = true ->
  event_kind (body req1) = Some "call.ringing" ->
  event_kind (body req2) = Some "call.ringing" ->
  lacks_call_data (body req1) = false ->
  lacks_call_data (body req2) = false ->
  primitive_id (body req2) = true ->
  call_id (body req1) = call_id (body req2) ->
  activeCalls (after w2 req2 (after w1 req1 st)) = activeCalls (after w2 req2 st)
  /\ activeCalls (after w2 req2 (after w1 req1 st))
       !! mapkey_of (next_object st) (call_id (body req2))
     = Some (record_of (now w2) (body req2)).
Proof.
  intros Hp1 Hp2 Hk1 Hk2 Hd1 Hd2 Hprim Hid.
  destruct (table_of_run w2 req2 (after w1 req1 st)) as [H2 _].
  destruct (table_of_run w1 req1 st) as [H1 Hn].
  destruct (table_of_run w2 req2 st) as [H3 _].
  rewrite H2, H3, H1, Hn, Hp1, Hp2. unfold table_after.
  rewrite Hk1, Hk2, Hd1, Hd2. cbn [String.eqb Ascii.eqb Bool.eqb].
  rewrite Hid.
  rewrite (mapkey_of_primitive _ (S (next_object st)) (next_object st) Hprim).
  split; [apply insert_insert_eq|].
  rewrite insert_insert_eq. apply lookup_insert_eq.
Qed.

Lemma repeated_ringing_overwrites_witness :
  let first := mkRequest (call_event "call.ringing" "c1" "US2gwvMWKA") None in
  let second :=
    mkRequest (JObj [("id", JStr "EV2"); ("type", JStr "call.ringing");
                     ("data", JObj [("object", JObj [("id", JStr "c1");
                                                     ("userId", JStr "U2");
                                                     ("direction", JStr "outgoing")])])])
              None in
  activeCalls (after world_up second (after world_token_down first initial_state))
  = activeCalls (after world_up second initial_state).
Proof.
  cbv zeta.
  apply (proj1 (repeated_ringing_overwrites world_token_down world_up
                  (mkRequest (call_event "call.ringing" "c1" "US2gwvMWKA") None)
                  (mkRequest (JObj [("id", JStr "EV2"); ("type", JStr "call.ringing");
                                    ("data", JObj [("object", JObj [("id", JStr "c1");
                                                     ("userId", JStr "U2");
                                                     ("direction", JStr "outgoing")])])])
                             None)
                  initial_state eq_refl eq_refl eq_refl eq_refl eq_refl eq_refl eq_refl
                  eq_refl)).
Defined.

(** One run changes the size of the call table by at most one. *)
Theorem run_changes_size_by_one (w : world) (req : request) (st : state) :
  (activeCalls_size (after w req st) <= S (activeCalls_size st))%nat
  /\ (activeCalls_size st <= S (activeCalls_size (after w req st)))%nat.
Proof.
  unfold activeCalls_size. destruct (table_of_run w req st) as [Htable _].
  rewrite Htable. destruct (passes_verification w req); [|lia].
  unfold table_after.
  destruct (event_kind (body req)) as [kind|]; [|lia].
  destruct (lacks_call_data (body req)); [lia|].
  destruct (String.eqb kind "call.ringing").
  - rewrite map_size_insert. destruct (activeCalls st !! _); simpl; lia.
  - destruct (String.eqb kind "call.completed"); [|lia].
    rewrite map_size_delete. destruct (activeCalls st !! _); simpl; lia.
Qed.

(** An event whose user has no identity mapping causes no token request, no
    presence request and no call of the presence setter: the run prints log
    lines only. *)
Theorem unmapped_user_no_outbound_call (w : world) (req : request) (st : state) :
  passes_verification w req = true ->
  mapped_user (body req) = None ->
  forallb is_log (effects_of_run w req st) = true
  /\ directives (effects_of_run w req st) = [].
Proof.
  intros Hp Hnone.
  assert (Hexp : expected_directives (body req) = []).
  { unfold expected_directives. rewrite Hnone.
    destruct (event_kind (body req)) as [kind|]; [|reflexivity].
    destruct (String.eqb kind "call.ringing"); [reflexivity|].
    now destruct (String.eqb kind "call.completed"). }
  run_handler w req st res es Hpass Hfail.
  destruct (Hpass Hp) as (Hdir & _ & _ & _ & _ & _ & Hlogs).
  rewrite Hdir, Hexp. split; [now apply Hlogs | reflexivity].
Qed.

Lemma unmapped_user_no_outbound_call_witness :
  forallb is_log (effects_of_run world_up
                    (mkRequest (call_event "call.ringing" "c3" "U1") None) initial_state)
  = true.
Proof.
  exact (proj1 (unmapped_user_no_outbound_call world_up
                  (mkRequest (call_event "call.ringing" "c3" "U1") None)
                  initial_state eq_refl eq_refl)).
Defined.

(** ** What a run sends out *)

Lemma outbound_app (t u : list effect) : outbound (t ++ u) = outbound t ++ outbound u.
Proof. unfold outbound. apply List.filter_app. Qed.

Lemma outbound_logs (t : list effect) : forallb is_log t = true -> outbound t = [].
Proof.
  induction t as [|e t IH]; simpl; [reflexivity|].
  intros H. apply andb_prop in H as [He Ht]. destruct e; try discriminate; now apply IH.
Qed.

(** The requests the dispatching part sends out: for each directive a token
    request and, when the token endpoint answers, a presence request. *)
Lemma handle_event_outbound (w : world) (oid : nat) (event : json) (st : state) :
  outbound (trace (snd (handle_event w oid (Json event) st)))
  = outbound (trace st) ++ flat_map (outbound_for w) (expected_directives event).
Proof.
  unfold outbound_for.
  handler_cases.
  all: cbv beta iota; cbn [fst snd trace activeCalls next_object status].
  all: try match goal with
           | H : to_string (Json (JStr _)) = Throw _ |- _ => discriminate H
           end.
  all: rewrite ?outbound_app; cbn [outbound List.filter is_outbound flat_map app fst snd];
    rewrite ?app_nil_r, <- ?app_assoc; reflexivity.
Qed.

Lemma run_trace (w : world) (req : request) (calls : gmap mapkey CallRecord)
    (n : nat) (t : list effect) :
  exists logs : list effect,
    forallb is_log logs = true
    /\ trace (snd (webhook_openphone w req (mkState calls n t)))
       = (if passes_verification w req
          then trace (snd (handle_event w n (Json (body req))
                             (mkState calls (S n) (t ++ gate_effects w req))))
          else t ++ gate_effects w req) ++ logs.
Proof.
  unfold webhook_openphone, passes_verification. rewrite webhook_try_gate.
  destruct (truthy_string (OPENPHONE_WEBHOOK_SECRET w));
    [destruct (snd (verifyOpenPhoneSignature _ _ _)) as [[|]|e]|].
  1, 4: destruct (handle_event _ _ _ _) as [[r|e] st'];
    [ exists []; now rewrite app_nil_r
    | exists [ConsoleError "Error handling OpenPhone webhook:" (Some e)];
      split; reflexivity ].
  - exists [ConsoleError "Invalid OpenPhone webhook signature" None].
    split; [reflexivity|]. cbn [snd trace]. now rewrite <- app_assoc.
  - exists [ConsoleError "Error handling OpenPhone webhook:" (Some e)].
    split; reflexivity.
Qed.

(** Every call of the presence setter asks the token endpoint first, once,
    and no token is kept from one call to the next; the presence request
    follows only when the token endpoint answers, and carries the directive,
    the session id and that token. A run sends out nothing else. *)
Theorem presence_request_follows_token (w : world) (req : request) (st : state) :
  outbound (effects_of_run w req st)
  = flat_map (outbound_for w) (directives (effects_of_run w req st)).
Proof.
  destruct st as [calls n t].
  destruct (webhook_run w req n t) as (res & es & Hrun & Hpass & Hfail).
  rewrite (effects_of_run_eq w req _ _ _ es (Hrun calls) eq_refl).
  destruct (run_trace w req calls n t) as (logs & Hlogs & Htrace).
  rewrite (Hrun calls) in Htrace. cbn [snd trace] in Htrace.
  destruct (passes_verification w req).
  - destruct (Hpass eq_refl) as (Hdir & _). rewrite Hdir.
    apply (f_equal outbound) in Htrace.
    rewrite !outbound_app, handle_event_outbound in Htrace.
    cbn [trace] in Htrace.
    rewrite !outbound_app, (outbound_logs _ Hlogs), (outbound_logs _ (gate_effects_logs w req))
      in Htrace.
    rewrite !app_nil_r in Htrace. now apply app_inv_head in Htrace.
  - destruct (Hfail eq_refl) as (Hl & _).
    now rewrite (outbound_logs _ Hl), (directives_logs _ Hl).
Qed.

(** While both endpoints answer, the dispatching part does not show the
    session id, the bearer token or the success status it is given: they
    appear in the presence request only. *)
Lemma handle_event_answers (w : world) (uuid token uuid' token' : string) (code code' : Z)
    (oid : nat) (event : json) (st : state) :
  fst (handle_event (with_answers w uuid token code) oid (Json event) st)
  = fst (handle_event (with_answers w uuid' token' code') oid (Json event) st)
  /\ activeCalls (snd (handle_event (with_answers w uuid token code) oid (Json event) st))
     = activeCalls (snd (handle_event (with_answers w uuid' token' code') oid
                           (Json event) st))
  /\ map redact (trace (snd (handle_event (with_answers w uuid token code) oid
                               (Json event) st)))
     = map redact (trace (snd (handle_event (with_answers w uuid' token' code') oid
                                 (Json event) st))).
Proof.
  unfold with_answers. unfold_handler. unfold type_is, get_prop.
  repeat (cbv beta iota;
          cbn [fst snd trace activeCalls next_object status now randomUUID
               token_response presence_response OPENPHONE_WEBHOOK_SECRET];
          case_step).
  all: cbv beta iota;
    cbn [fst snd trace activeCalls next_object status now randomUUID
         token_response presence_response OPENPHONE_WEBHOOK_SECRET];
    repeat split; rewrite ?map_app; reflexivity.
Qed.

(** ** What the answers of the presence platform change *)

(** While the token endpoint and the presence endpoint answer, the response
    of a run, the call table it leaves and everything it prints or sends,
    the session id and the bearer token inside the presence request apart,
    are the same whichever session id is drawn, whichever token the token
    endpoint answers and whichever success status the presence endpoint
    answers: no log line and no response shows them. (When a request to the
    platform fails, the error that is printed carries the request; such
    runs are not covered.) *)
Theorem answers_do_not_show (w : world) (uuid token uuid' token' : string) (code code' : Z)
    (req : request) (st : state) :
  fst (webhook_openphone (with_answers w uuid token code) req st)
  = fst (webhook_openphone (with_answers w uuid' token' code') req st)
  /\ activeCalls (after (with_answers w uuid token code) req st)
     = activeCalls (after (with_answers w uuid' token' code') req st)
  /\ map redact (effects_of_run (with_answers w uuid token code) req st)
     = map redact (effects_of_run (with_answers w uuid' token' code') req st).
Proof.
  destruct st as [calls n t].
  unfold after, effects_of_run, webhook_openphone. rewrite !webhook_try_gate.
  change (OPENPHONE_WEBHOOK_SECRET (with_answers w uuid token code))
    with (OPENPHONE_WEBHOOK_SECRET w).
  change (OPENPHONE_WEBHOOK_SECRET (with_answers w uuid' token' code'))
    with (OPENPHONE_WEBHOOK_SECRET w).
  change (gate_effects (with_answers w uuid token code) req) with (gate_effects w req).
  change (gate_effects (with_answers w uuid' token' code') req) with (gate_effects w req).
  cbn [trace].
  destruct (truthy_string (OPENPHONE_WEBHOOK_SECRET w));
    [destruct (snd (verifyOpenPhoneSignature _ _ _)) as [[|]|e]|].
  1, 4: destruct (handle_event_answers w uuid token uuid' token' code code' n (body req)
                    (mkState calls (S n) (t ++ gate_effects w req)))
          as (Hc & Hcalls & Htrace);
        destruct (handle_event (with_answers w uuid token code) _ _ _) as [c s];
        destruct (handle_event (with_answers w uuid' token' code') _ _ _) as [c' s'];
        cbn [fst snd] in Hc, Hcalls, Htrace; subst c';
        destruct c as [r|e]; cbn [fst snd activeCalls trace];
        (split; [reflexivity|]); (split; [assumption|]);
        rewrite <- !skipn_map, ?map_app, Htrace; reflexivity.
  all: repeat split; reflexivity.
Qed.

(** ** Calls over a sequence of requests *)

Lemma mapkey_of_string (n : nat) (v : value) (c : string) :
  mapkey_of n v = KStr c <-> v = Json (JStr c).
Proof.
  split; [|intros ->; reflexivity].
  destruct v as [|[]]; simpl; intros H; try discriminate H. now injection H as ->.
Qed.

Lemma tracked_step (c : string) (w : world) (req : request) (st : state) :
  tracked c (after w req st)
  = match touches c (w, req) with
    | Some b => b
    | None => tracked c st
    end.
Proof.
  unfold tracked, touches. cbn [fst snd].
  destruct (table_of_run w req st) as [Htable _]. rewrite Htable.
  destruct (passes_verification w req); [|reflexivity]. cbn [andb].
  unfold table_after.
  destruct (lacks_call_data (body req)).
  { cbn [negb]. now destruct (event_kind (body req)). }
  cbn [negb].
  destruct (event_kind (body req)) as [kind|]; [|now destruct (call_id (body req)) as [|[]]].
  assert (Hother : forall m : gmap mapkey CallRecord,
             (forall c', call_id (body req) = Json (JStr c') -> c' <> c) ->
             bool_decide (is_Some (<[mapkey_of (next_object st) (call_id (body req)) :=
                                       record_of (now w) (body req)]> m !! KStr c))
             = bool_decide (is_Some (m !! KStr c))
             /\ bool_decide (is_Some (delete (mapkey_of (next_object st)
                                                (call_id (body req))) m !! KStr c))
                = bool_decide (is_Some (m !! KStr c))).
  { intros m Hne.
    assert (Hkey : mapkey_of (next_object st) (call_id (body req)) <> KStr c).
    { intros Heq. apply mapkey_of_string in Heq. now apply (Hne c). }
    now rewrite lookup_insert_ne, lookup_delete_ne. }
  unfold record_of in Hother.
  destruct (call_id (body req)) as [|j] eqn:Hid.
  { destruct (Hother (activeCalls st)) as [Hi Hd]; [discriminate|].
    destruct (String.eqb kind "call.ringing"); [exact Hi|].
    destruct (String.eqb kind "call.completed"); [exact Hd | reflexivity]. }
  destruct j as [| | |c'| |].
  4: destruct (String.eqb_spec c' c) as [->|Hne].
  4: { cbn [mapkey_of].
       destruct (String.eqb kind "call.ringing").
       - rewrite lookup_insert_eq. now apply bool_decide_eq_true_2.
       - destruct (String.eqb kind "call.completed"); [|reflexivity].
         rewrite lookup_delete_eq. apply bool_decide_eq_false_2. now intros [x Hx]. }
  all: destruct (Hother (activeCalls st)) as [Hi Hd]; [congruence|];
    destruct (String.eqb kind "call.ringing"); [exact Hi|];
    destruct (String.eqb kind "call.completed"); [exact Hd | reflexivity].
Qed.

(** Whether a call is tracked after a sequence of requests is decided by the
    last request that touches it: tracked when that one is a 'call.ringing'
    event, not tracked when it is a 'call.completed' event, and as before
    when no request touches the call. Requests that do not pass the
    signature gate, events of other kinds, events without call data and
    events for other calls do not count. *)
Theorem tracking_follows_last_event (c : string) (reqs : list (world * request))
    (st : state) :
  tracked c (handle_all reqs st)
  = fold_left (fun t r => match touches c r with Some b => b | None => t end)
              reqs (tracked c st).
Proof.
  revert st. induction reqs as [|[w req] reqs IH]; intros st; [reflexivity|].
  cbn [handle_all fold_left]. rewrite IH. now rewrite tracked_step.
Qed.

(** ** Call ids that are objects *)

Lemma reachable_keys_fresh (reqs : list (world * request)) (st : state) :
  keys_fresh st -> keys_fresh (handle_all reqs st).
Proof.
  revert st. induction reqs as [|[w req] reqs IH]; intros st Hfresh; [exact Hfresh|].
  cbn [handle_all]. apply IH. now apply webhook_keeps_keys_fresh.
Qed.

(** In every state the process reaches, an event whose call id is an object
    or an array names a call no entry stands for: a verified 'call.ringing'
    event adds an entry each time, and a 'call.completed' event removes
    none. *)
Theorem object_call_ids_leak (reqs : list (world * request)) (w : world) (req : request) :
  let st := handle_all reqs initial_state in
  lacks_call_data (body req) = false ->
  primitive_id (body req) = false ->
  (passes_verification w req = true ->
   event_kind (body req) = Some "call.ringing" ->
   activeCalls_size (after w req st) = S (activeCalls_size st))
  /\ (event_kind (body req) = Some "call.completed" ->
      activeCalls (after w req st) = activeCalls st).
Proof.
  intros st Hdata Hprim.
  assert (Hfresh : keys_fresh st) by apply reachable_keys_fresh, initial_keys_fresh.
  assert (Hkey : mapkey_of (next_object st) (call_id (body req)) = KObj (next_object st)).
  { unfold primitive_id in Hprim.
    destruct (call_id (body req)) as [|[]]; try discriminate Hprim; reflexivity. }
  assert (Hnone : activeCalls st !! KObj (next_object st) = None).
  { destruct (activeCalls st !! KObj (next_object st)) eqn:Hlook; [|reflexivity].
    specialize (Hfresh _ (mk_is_Some _ _ Hlook)). lia. }
  destruct (table_of_run w req st) as [Htable _].
  unfold activeCalls_size. rewrite Htable. unfold table_after. split.
  - intros Hp Hkind. rewrite Hp, Hkind, Hdata, Hkey.
    cbn [String.eqb Ascii.eqb Bool.eqb]. now apply map_size_insert_None.
  - intros Hkind. destruct (passes_verification w req); [|reflexivity].
    rewrite Hkind, Hdata, Hkey. cbn [String.eqb Ascii.eqb Bool.eqb].
    now apply delete_id.
Qed.

Lemma object_call_ids_leak_witness :
  let req := mkRequest (JObj [("type", JStr "call.ringing");
                              ("data", JObj [("object", JObj [("id", JArr [JStr "c1"])])])])
                       None in
  activeCalls_size (after world_up req (handle_all [(world_up, req)] initial_state))
  = S (activeCalls_size (handle_all [(world_up, req)] initial_state)).
Proof.
  cbv zeta.
  apply (proj1 (object_call_ids_leak
                  [(world_up,
                    mkRequest (JObj [("type", JStr "call.ringing");
                                     ("data", JObj [("object",
                                                     JObj [("id", JArr [JStr "c1"])])])])
                              None)]
                  world_up
                  (mkRequest (JObj [("type", JStr "call.ringing");
                                    ("data", JObj [("object",
                                                    JObj [("id", JArr [JStr "c1"])])])])
                             None) eq_refl eq_refl)); reflexivity.
Defined.

(** ** The identity mapper *)

(** The mapper on a string id: a lookup in the object literal, which also
    finds what the literal inherits. *)
Lemma mapper_on_string (id : string) :
  getTeamsUserFromOpenPhoneUser (Json (JStr id))
  = Normal (if String.eqb id "US2gwvMWKA" then Some tyler
            else if existsb (String.eqb id) object_prototype_members
                 then Some (Inherited id) else None).
Proof.
  unfold getTeamsUserFromOpenPhoneUser, userMapping, tyler. cbn [to_string to_string_json cbind].
  destruct (String.eqb_spec id "US2gwvMWKA") as [->|Hne].
  - now rewrite lookup_singleton_eq.
  - rewrite lookup_singleton_ne by congruence. reflexivity.
Qed.

Lemma inherited_name_is_mapped (event : json) (id : string) :
  get_prop_opt (call_data event) "userId" = Json (JStr id) ->
  In id object_prototype_members ->
  mapped_user event = Some (Inherited id).
Proof.
  intros Hid Hin.
  assert (Hmap : getTeamsUserFromOpenPhoneUser (Json (JStr id))
                 = Normal (Some (Inherited id))).
  { rewrite mapper_on_string.
    repeat (destruct Hin as [<-|Hin]; [reflexivity|]). destruct Hin. }
  revert Hid. unfold mapped_user, call_data, get_prop_opt, cbind.
  destruct (get_prop (Json event) "data") as [data|]; [|discriminate].
  destruct (get_prop data "object") as [callData|];
    [|destruct data as [|[]]; discriminate].
  destruct (get_prop callData "userId") as [user|]; [|discriminate].
  intros ->. rewrite Hmap. reflexivity.
Qed.

(** A call event whose [userId] is a name that every object inherits from
    [Object.prototype] ([constructor], [toString], [__proto__], ...) is
    taken for the event of a mapped user: [userMapping[openPhoneUserId]]
    finds the inherited member, which is truthy, and the handler calls the
    presence setter with it in the place of an address. *)
Theorem inherited_name_is_taken_for_a_user (w : world) (req : request) (st : state)
    (id : string) :
  passes_verification w req = true ->
  get_prop_opt (call_data (body req)) "userId" = Json (JStr id) ->
  In id object_prototype_members ->
  (event_kind (body req) = Some "call.ringing" ->
   directives (effects_of_run w req st) = [(Inherited id, "Busy", "InACall")])
  /\ (event_kind (body req) = Some "call.completed" ->
      directives (effects_of_run w req st) = [(Inherited id, "Available", "Available")]).
Proof.
  intros Hp Hid Hin.
  pose proof (inherited_name_is_mapped (body req) id Hid Hin) as Hmap.
  run_handler w req st res es Hpass Hfail.
  destruct (Hpass Hp) as (Hdir & _).
  rewrite Hdir. unfold expected_directives. rewrite Hmap.
  split; intros ->; reflexivity.
Qed.

Lemma inherited_name_is_taken_for_a_user_witness :
  directives (effects_of_run world_up
                (mkRequest (call_event "call.ringing" "c1" "constructor") None)
                initial_state)
  = [(Inherited "constructor", "Busy", "InACall")].
Proof.
  apply (proj1 (inherited_name_is_taken_for_a_user world_up
                  (mkRequest (call_event "call.ringing" "c1" "constructor") None)
                  initial_state "constructor" eq_refl eq_refl ltac:(now left)));
    reflexivity.
Defined.

(** ** The configuration and the inspection endpoints *)

(** The response of /config-check depends on the four credentials only
    through whether they are set: it is the response for the environment
    with each of them replaced by a placeholder. *)
Theorem config_check_masks_credentials (env : environment) :
  config_check env = config_check (mask_credentials env).
Proof.
  unfold config_check, load_config, mask_credentials, masked. cbn.
  destruct (truthy_string (TEAMS_TENANT_ID env)), (truthy_string (TEAMS_CLIENT_ID env)),
    (truthy_string (TEAMS_CLIENT_SECRET env)), (truthy_string (OPENPHONE_API_KEY env));
    reflexivity.
Qed.

(** The response of /debug-env depends on the client secret and on the API
    key only through whether they are set, but it prints the tenant id and
    the client id as they are: two environments with different tenant ids get
    different responses. *)
Theorem debug_env_masks_secrets_only (env : environment) :
  debug_env env = debug_env (mask_secrets env)
  /\ (forall env' : environment,
        truthy_string (TEAMS_TENANT_ID env) = true ->
        TEAMS_TENANT_ID env <> TEAMS_TENANT_ID env' ->
        truthy_string (TEAMS_TENANT_ID env') = true ->
        debug_env env <> debug_env env').
Proof.
  split.
  - unfold debug_env, mask_secrets, masked, if_set. cbn.
    destruct (truthy_string (TEAMS_CLIENT_SECRET env)),
      (truthy_string (OPENPHONE_API_KEY env)); reflexivity.
  - intros env' Ht Hne Ht' Heq. unfold debug_env, or_string in Heq.
    rewrite Ht, Ht' in Heq. injection Heq as Heq. apply Hne.
    destruct (TEAMS_TENANT_ID env) as [a|], (TEAMS_TENANT_ID env') as [b|];
      try discriminate. cbn in Heq. now rewrite Heq.
Qed.

Lemma debug_env_masks_secrets_only_witness :
  debug_env (mkEnvironment (Some "tenant-a") None (Some "s3cret") None None None None)
  <> debug_env (mkEnvironment (Some "tenant-b") None (Some "s3cret") None None None None).
Proof.
  apply (proj2 (debug_env_masks_secrets_only
                  (mkEnvironment (Some "tenant-a") None (Some "s3cret") None None None None)));
    [reflexivity | discriminate | reflexivity].
Defined.

(** Without BASE_URL (unset or empty), the base URL of the configuration is
    http://localhost: followed by the port the server listens on, as it
    prints; and that port is 3000 when PORT is unset or empty. *)
Theorem default_base_url_uses_port (env : environment) :
  truthy_string (BASE_URL env) = false ->
  exists p : string,
    to_string_json (port (load_config env)) = Normal p
    /\ baseUrl (load_config env) = "http://localhost:" +:+ p
    /\ (truthy_string (PORT env) = false -> p = "3000").
Proof.
  intros Hb. unfold load_config, or_string. cbn [port baseUrl]. rewrite Hb.
  destruct (truthy_string (PORT env)).
  - exists (default EmptyString (PORT env)). repeat split. discriminate.
  - exists "3000". repeat split.
Qed.

Lemma default_base_url_uses_port_witness :
  exists p : string,
    baseUrl (load_config (mkEnvironment None None None None (Some EmptyString)
                            (Some EmptyString) None))
    = "http://localhost:" +:+ p /\ p = "3000".
Proof.
  destruct (default_base_url_uses_port
              (mkEnvironment None None None None (Some EmptyString) (Some EmptyString) None)
              eq_refl) as (p & _ & Hurl & Hp).
  exists p. split; [exact Hurl | now apply Hp].
Defined.

Lemma started_by_step (t : Z) (w : world) (req : request) (st : state) :
  now w <= t -> started_by t st -> started_by t (after w req st).
Proof.
  intros Hnow Hst k r. destruct (table_of_run w req st) as [Htable _]. rewrite Htable.
  destruct (passes_verification w req); [|apply Hst].
  unfold table_after.
  destruct (event_kind (body req)) as [kind|]; [|apply Hst].
  destruct (lacks_call_data (body req)); [apply Hst|].
  destruct (String.eqb kind "call.ringing").
  - destruct (decide (mapkey_of (next_object st) (call_id (body req)) = k)) as [->|Hne].
    + rewrite lookup_insert_eq. intros H. injection H as <-. exact Hnow.
    + rewrite lookup_insert_ne by assumption. apply Hst.
  - destruct (String.eqb kind "call.completed"); [|apply Hst].
    intros H. apply lookup_delete_Some in H as [_ H]. revert H. apply Hst.
Qed.

Lemma started_by_all (t : Z) (reqs : list (world * request)) (st : state) :
  Forall (fun r => now (fst r) <= t) reqs ->
  started_by t st -> started_by t (handle_all reqs st).
Proof.
  revert st. induction reqs as [|[w req] reqs IH]; intros st Hall Hst; [exact Hst|].
  apply Forall_cons in Hall as [Hw Hall]. cbn [handle_all].
  apply IH; [assumption|]. now apply started_by_step.
Qed.

(** After any sequence of requests, /status lists the calls of the table,
    one entry each, as many as /health counts; an entry shows the record of
    its call, and its duration is the time since the record was stored, not
    negative as long as the clock does not run backwards. *)
Theorem status_lists_tracked_calls (reqs : list (world * request)) (t : Z) (iso : string) :
  Forall (fun r => now (fst r) <= t) reqs ->
  let st := handle_all reqs initial_state in
  health iso st
  = JObj [("status", JStr "ok"); ("timestamp", JStr iso);
          ("activeCalls", JNum (Z.of_nat (length (status_entries t st))))]
  /\ (forall e : status_entry,
        In e (status_entries t st) ->
        activeCalls st !! entry_callId e
        = Some (mkCallRecord (entry_userId e) (entry_startTime e) (entry_direction e))
        /\ entry_duration e = t - entry_startTime e
        /\ 0 <= entry_duration e)
  /\ (forall (k : mapkey) (r : CallRecord),
        activeCalls st !! k = Some r -> In (status_of t (k, r)) (status_entries t st)).
Proof.
  intros Hall st.
  assert (Hst : started_by t st).
  { apply started_by_all; [assumption|]. intros k r H. simpl in H.
    now rewrite lookup_empty in H. }
  unfold status_entries, health. rewrite length_map, length_map_to_list.
  split; [reflexivity|]. split.
  - intros e He. apply in_map_iff in He as ([k r] & <- & Hin).
    apply list_elem_of_In, elem_of_map_to_list in Hin.
    cbn [status_of entry_callId entry_userId entry_startTime entry_direction
         entry_duration fst snd].
    split; [now destruct r|]. split; [reflexivity|].
    specialize (Hst k r Hin). lia.
  - intros k r Hlook. apply in_map. now apply list_elem_of_In, elem_of_map_to_list.
Qed.

Lemma status_lists_tracked_calls_witness :
  In (status_of 1700000000005
        (KStr "c1",
         mkCallRecord (Json (JStr "US2gwvMWKA")) 1700000000000 (Json (JStr "incoming"))))
     (status_entries 1700000000005
        (handle_all [(world_up,
                      mkRequest (call_event "call.ringing" "c1" "US2gwvMWKA") None)]
                    initial_state)).
Proof.
  apply (proj2 (proj2 (status_lists_tracked_calls
           [(world_up, mkRequest (call_event "call.ringing" "c1" "US2gwvMWKA") None)]
           1700000000005 "2023-11-14T22:13:20.005Z"
           ltac:(repeat constructor; simpl; lia)))).
  vm_compute. reflexivity.
Defined.

(** ** Webhook registration *)

(** /setup-webhooks answers 200 exactly when the OpenPhone API answers with
    a body other than null, and then hands this body on unchanged; a body
    null makes the log line of the success throw, and the endpoint answers
    500 with the message of that error, like for a failed request. In every
    case the request sent registers baseUrl/webhook/openphone for the two
    kinds of events the handler acts on. *)
Theorem setup_webhooks_outcome (cfg : config) (answer : api_answer) :
  let result := setup_webhooks cfg answer in
  In (WebhookRequest (baseUrl cfg +:+ "/webhook/openphone")
        ["call.ringing"; "call.completed"] (apiKey cfg)) (fst result)
  /\ (fst (snd result) = 200 \/ fst (snd result) = 500)
  /\ (fst (snd result) = 200 <-> exists data, answer = Answered data /\ data <> JNull)
  /\ (forall data, answer = Answered data -> data <> JNull ->
        snd (snd result)
        = JObj [("success", JBool true); ("webhook", data);
                ("message", JStr "OpenPhone webhook set up successfully!")])
  /\ (answer = Answered JNull ->
        snd (snd result)
        = JObj [("success", JBool false);
                ("error", JStr "Cannot read properties of null (reading 'id')")]).
Proof.
  cbv zeta. unfold setup_webhooks, setupOpenPhoneWebhooks, webhook_events.
  destruct answer as [data|f]; [destruct data|]; cbn.
  all: split; [tauto|]; split; [tauto|]; split; [|split].
  all: try (split; [intros H; discriminate H|]).
  all: try (split; [intros _; eexists; split; [reflexivity | discriminate]|]).
  all: try (intros (d & Hd & Hne); try discriminate Hd; injection Hd as <-; contradiction).
  all: try (intros _; reflexivity).
  all: try (intros d Hd Hne; try discriminate Hd; injection Hd as <-;
            first [reflexivity | contradiction]).
  all: try (intros H; discriminate H).
  all: try reflexivity.
Qed.

Lemma setup_webhooks_outcome_witness :
  snd (snd (setup_webhooks (load_config (mkEnvironment None None None None None None None))
              (Answered JNull)))
  = JObj [("success", JBool false);
          ("error", JStr "Cannot read properties of null (reading 'id')")].
Proof.
  apply (proj2 (proj2 (proj2 (proj2 (setup_webhooks_outcome
           (load_config (mkEnvironment None None None None None None None))
           (Answered JNull)))))).
  reflexivity.
Defined.

(** The API key goes into the Authorization header of the registration
    request and nowhere else: what /setup-webhooks prints and answers is the
    same for any two keys that are set. *)
Theorem api_key_only_in_authorization (cfg : config) (answer : api_answer)
    (key key' : option string) :
  truthy_string key = true -> truthy_string key' = true ->
  snd (setup_webhooks (with_api_key cfg key) answer)
  = snd (setup_webhooks (with_api_key cfg key') answer)
  /\ map without_authorization (fst (setup_webhooks (with_api_key cfg key) answer))
     = map without_authorization (fst (setup_webhooks (with_api_key cfg key') answer)).
Proof.
  intros Hk Hk'.
  unfold setup_webhooks, setupOpenPhoneWebhooks, with_api_key, if_set.
  cbn [apiKey baseUrl]. rewrite Hk, Hk'.
  destruct answer as [data|f]; [destruct data|]; cbn; split; reflexivity.
Qed.

Lemma api_key_only_in_authorization_witness :
  snd (setup_webhooks (with_api_key (load_config (mkEnvironment None None None None
                                                   None None None)) (Some "key-one"))
         (Answered (JObj [("id", JStr "WH1")])))
  = snd (setup_webhooks (with_api_key (load_config (mkEnvironment None None None None
                                                     None None None)) (Some "key-two"))
           (Answered (JObj [("id", JStr "WH1")]))).
Proof.
  apply (proj1 (api_key_only_in_authorization
                  (load_config (mkEnvironment None None None None None None None))
                  (Answered (JObj [("id", JStr "WH1")]))
                  (Some "key-one") (Some "key-two") eq_refl eq_refl)).
Defined.

(** ** base64 *)

Lemma dec_enc_char (n : Z) :
  0 <= n < 64 ->
  Base64.dec_char (Base64.enc_char n) = Some n
  /\ Ascii.eqb (Base64.enc_char n) "="%char = false.
Proof.
  intros Hn.
  assert (Hm : exists m, (m < 64)%nat /\ n = Z.of_nat m) by (exists (Z.to_nat n); lia).
  destruct Hm as (m & Hm & ->). clear Hn.
  do 64 (destruct m as [|m]; [vm_compute; split; reflexivity|]). lia.
Qed.

Lemma sextets_enc (n : Z) (rest : list ascii) :
  0 <= n < 64 ->
  Base64.sextets (Base64.enc_char n :: rest) = n :: Base64.sextets rest.
Proof.
  intros Hn. destruct (dec_enc_char n Hn) as [Hd He].
  cbn [Base64.sextets]. now rewrite He, Hd.
Qed.

Lemma decode_encode_list (n : nat) (bs : list Z) :
  (length bs <= n)%nat ->
  Forall (fun b => 0 <= b < 256) bs ->
  Base64.group (Base64.sextets (Base64.encode_list bs)) = bs.
Proof.
  revert bs. induction n as [|n IH]; intros bs Hlen Hbs.
  { destruct bs; [reflexivity | simpl in Hlen; lia]. }
  destruct bs as [|a [|b [|c r]]].
  - reflexivity.
  - apply Forall_cons in Hbs as [Ha _].
    cbn [Base64.encode_list].
    rewrite !sextets_enc by (Z.div_mod_to_equations; lia).
    cbn [Base64.sextets Ascii.eqb Bool.eqb Base64.group].
    f_equal. Z.div_mod_to_equations; lia.
  - apply Forall_cons in Hbs as [Ha Hbs]. apply Forall_cons in Hbs as [Hb _].
    cbn [Base64.encode_list].
    rewrite !sextets_enc by (Z.div_mod_to_equations; lia).
    cbn [Base64.sextets Ascii.eqb Bool.eqb Base64.group].
    repeat f_equal; Z.div_mod_to_equations; lia.
  - apply Forall_cons in Hbs as [Ha Hbs]. apply Forall_cons in Hbs as [Hb Hbs].
    apply Forall_cons in Hbs as [Hc Hbs].
    cbn [Base64.encode_list].
    rewrite !sextets_enc by (Z.div_mod_to_equations; lia).
    cbn [Base64.group].
    rewrite IH by (try assumption; simpl in Hlen; lia).
    repeat f_equal; Z.div_mod_to_equations; lia.
Qed.

(** Decoding the base64 text of a byte string gives the byte string back:
    the key the verifier decodes from a secret that is the base64 text of
    some bytes is these bytes. *)
Theorem base64_decode_encode (bs : list Z) :
  Forall (fun b => 0 <= b < 256) bs ->
  Base64.decode (Base64.encode bs) = bs.
Proof.
  intros Hbs. unfold Base64.decode, Base64.encode.
  rewrite list_ascii_of_string_of_list_ascii.
  now apply (decode_encode_list (length bs)).
Qed.

Lemma base64_decode_encode_witness :
  Base64.decode (Base64.encode [115; 101; 99; 114; 101; 116; 0; 255]) = [115; 101; 99; 114; 101; 116; 0; 255].
Proof.
  apply base64_decode_encode. repeat constructor; lia.
Defined.

(** ** The body as it was sent *)

Lemma quote_char_parses (c : ascii) (tl : list ascii) :
  Parse.parse_string (chars (JSON.quote_char c) ++ tl)
  = Parse.prepend [c] (Parse.parse_string tl).
Proof.
  destruct c as [[] [] [] [] [] [] [] []];
    match goal with
    | |- context [chars (JSON.quote_char ?c)] =>
        let x := eval vm_compute in (chars (JSON.quote_char c)) in
        change (chars (JSON.quote_char c)) with x
    end; reflexivity.
Qed.

Lemma parse_string_quote_body (s : string) (rest : list ascii) :
  Parse.parse_string (chars (JSON.quote_body s) ++ dquote :: rest) = Some (s, rest).
Proof.
  induction s as [|c s IH]; [reflexivity|].
  change (JSON.quote_body (String c s)) with (JSON.quote_char c +:+ JSON.quote_body s).
  rewrite chars_app, <- app_assoc, quote_char_parses, IH. reflexivity.
Qed.
Lemma chars_uint_digits (d : Decimal.uint) (acc : positive) (rest : list ascii) :
  (forall c r, rest = c :: r -> Parse.digit c = None) ->
  Parse.parse_digits (Z.pos acc) (chars (NilEmpty.string_of_uint d) ++ rest)
  = (Z.pos (Pos.of_uint_acc d acc), rest).
Proof.
  intros Hrest. revert acc.
  induction d as [|d IH|d IH|d IH|d IH|d IH|d IH|d IH|d IH|d IH|d IH]; intros acc.
  1: { cbn [NilEmpty.string_of_uint list_ascii_of_string app Pos.of_uint_acc].
       destruct rest as [|c r]; [reflexivity|].
       cbn [Parse.parse_digits]. now rewrite (Hrest c r eq_refl). }
  all: cbn [NilEmpty.string_of_uint list_ascii_of_string app Pos.of_uint_acc Parse.parse_digits].
  all: match goal with
       | |- context [Parse.digit ?c] =>
           let x := eval vm_compute in (Parse.digit c) in
           change (Parse.digit c) with x
       end; cbv iota.
  all: match goal with
       | |- Parse.parse_digits ?a _ = (Z.pos (Pos.of_uint_acc _ ?b), _) =>
           replace a with (Z.pos b) by (cbn; lia)
       end; apply IH.
Qed.
Lemma to_uint_leading (p : positive) (l : Decimal.uint) : Pos.to_uint p <> Decimal.D0 l.
Proof.
  intros H.
  pose proof (DecimalPos.Unsigned.to_of (Pos.to_uint p)) as Hn.
  rewrite DecimalPos.Unsigned.of_to in Hn. cbn [N.to_uint] in Hn.
  rewrite H, DecimalFacts.unorm_D0 in Hn.
  assert (Hl : l = Decimal.Nil \/ l <> Decimal.Nil)
    by (destruct l; [now left | right; discriminate ..]).
  destruct Hl as [->|Hl].
  - now apply (DecimalPos.Unsigned.to_uint_nonzero p).
  - pose proof (DecimalFacts.nb_digits_unorm l Hl) as Hd.
    rewrite <- Hn in Hd. cbn [Decimal.nb_digits] in Hd. lia.
Qed.

Lemma parse_value_number (f : nat) (c : ascii) (r : list ascii) :
  c = "-"%char \/ Parse.digit c <> None ->
  Parse.parse_value (S f) (c :: r)
  = match Parse.parse_number (c :: r) with
    | Some (n, r') => Some (JNum n, r')
    | None => None
    end.
Proof.
  intros H.
  destruct c as [[] [] [] [] [] [] [] []];
    first [ reflexivity
          | exfalso; destruct H as [H|H]; [discriminate H | apply H; reflexivity] ].
Qed.

Lemma parse_positive (p : positive) (rest : list ascii) :
  (forall c r, rest = c :: r -> Parse.digit c = None) ->
  Parse.integer_ends rest = true ->
  exists c r d,
    chars (NilZero.string_of_uint (Pos.to_uint p)) = c :: r
    /\ Parse.digit c = Some d /\ d <> 0
    /\ Parse.parse_digits d (r ++ rest) = (Z.pos p, rest).
Proof.
  intros Hrest Hends.
  pose proof (DecimalPos.Unsigned.of_to p) as Hp.
  destruct (Pos.to_uint p) as [|l|l|l|l|l|l|l|l|l|l] eqn:E.
  1: now destruct (DecimalPos.Unsigned.to_uint_nonnil p).
  1: now destruct (to_uint_leading p l).
  all: cbn [Pos.of_uint] in Hp; injection Hp as Hp.
  all: cbn [NilZero.string_of_uint NilEmpty.string_of_uint list_ascii_of_string].
  all: eexists _, _, _; split; [reflexivity|].
  all: split; [vm_compute; reflexivity|].
  all: split; [discriminate|].
  all: rewrite <- Hp; apply (chars_uint_digits l _ rest Hrest).
Qed.

Lemma number_head (n : Z) :
  exists c r, chars (string_of_Z n) = c :: r /\ (c = "-"%char \/ Parse.digit c <> None).
Proof.
  destruct n as [|p|p].
  - exists "0"%char, []. split; [reflexivity | right; discriminate].
  - destruct (parse_positive p [] ltac:(congruence) eq_refl) as (c & r & d & Hc & Hd & _).
    exists c, r. split; [exact Hc | right; congruence].
  - destruct (parse_positive p [] ltac:(congruence) eq_refl) as (c & r & d & Hc & Hd & _).
    exists "-"%char, (c :: r). split; [|now left].
    unfold string_of_Z. cbn [Z.to_int NilZero.string_of_int list_ascii_of_string].
    now rewrite Hc.
Qed.

Lemma string_of_Z_parses (n : Z) (rest : list ascii) :
  Z.abs n <= 2 ^ 53 ->
  (forall c r, rest = c :: r -> Parse.digit c = None) ->
  Parse.integer_ends rest = true ->
  exists c r,
    chars (string_of_Z n) = c :: r
    /\ (c = "-"%char \/ Parse.digit c <> None)
    /\ Parse.parse_number (c :: r ++ rest) = Some (n, rest).
Proof.
  intros Hbound Hrest Hends. destruct n as [|p|p].
  - exists "0"%char, []. split; [reflexivity|]. split; [right; discriminate|].
    cbn [app].
    change (Parse.parse_number ("0"%char :: rest))
      with (if Parse.integer_ends rest && true then Some (0, rest) else None).
    now rewrite Hends.
  - destruct (parse_positive p rest Hrest Hends) as (c & r & d & Hc & Hd & Hnz & Hrun).
    exists c, r. split; [exact Hc|]. split; [right; congruence|].
    assert (Hminus : c <> "-"%char) by (intros ->; discriminate Hd).
    unfold Parse.parse_number.
    replace (match c :: r ++ rest with
             | "-"%char :: r0 => (true, r0)
             | _ => (false, c :: r ++ rest)
             end) with (false, c :: r ++ rest).
    + rewrite Hd. apply Z.eqb_neq in Hnz. rewrite Hnz, Hrun, Hends.
      change (Z.abs (Z.pos p)) with (Z.pos p) in Hbound.
      apply Z.leb_le in Hbound. rewrite Hbound. reflexivity.
    + destruct c as [[] [] [] [] [] [] [] []]; first [reflexivity | now destruct Hminus].
  - destruct (parse_positive p rest Hrest Hends) as (c & r & d & Hc & Hd & Hnz & Hrun).
    exists "-"%char, (c :: r). split.
    { unfold string_of_Z. cbn [Z.to_int NilZero.string_of_int list_ascii_of_string].
      now rewrite Hc. }
    split; [now left|].
    unfold Parse.parse_number. cbv iota beta. cbn [app].
    rewrite Hd. apply Z.eqb_neq in Hnz. rewrite Hnz, Hrun, Hends.
    change (Z.abs (Z.neg p)) with (Z.pos p) in Hbound.
    apply Z.leb_le in Hbound. rewrite Hbound. reflexivity.
Qed.
Lemma delimited_ends (rest : list ascii) :
  delimited rest = true ->
  (forall c r, rest = c :: r -> Parse.digit c = None)
  /\ Parse.integer_ends rest = true /\ Parse.skip_ws rest = rest.
Proof.
  destruct rest as [|c r]; [repeat split; congruence|].
  cbn [delimited]. intros H.
  assert (Hc : c = ","%char \/ c = "]"%char \/ c = "}"%char).
  { destruct (Ascii.eqb_spec c ","%char); [now left|].
    destruct (Ascii.eqb_spec c "]"%char); [now right; left|].
    destruct (Ascii.eqb_spec c "}"%char); [now right; right|discriminate]. }
  destruct Hc as [->|[->| ->]]; repeat split; try reflexivity;
    intros c' r' [= <- _]; reflexivity.
Qed.

Lemma parse_value_quote (f : nat) (s : list ascii) :
  Parse.parse_value (S f) (dquote :: s)
  = match Parse.parse_string s with
    | Some (str, r') => Some (JStr str, r')
    | None => None
    end.
Proof. reflexivity. Qed.

Lemma parse_value_array (f : nat) (c : ascii) (r : list ascii) :
  Parse.is_ws c = false -> c <> "]"%char ->
  Parse.parse_value (S f) ("["%char :: c :: r) = Parse.parse_elements f [] (c :: r).
Proof.
  intros Hws Hc.
  destruct c as [[] [] [] [] [] [] [] []];
    first [reflexivity | discriminate Hws | now destruct Hc].
Qed.

Lemma parse_value_object (f : nat) (s : list ascii) :
  Parse.parse_value (S f) ("{"%char :: dquote :: s)
  = Parse.parse_members f [] (dquote :: s).
Proof. reflexivity. Qed.

Lemma parse_elements_S (f : nat) (acc : list json) (s : list ascii) :
  Parse.parse_elements (S f) acc s
  = match Parse.parse_value f s with
    | Some (v, r) =>
        match Parse.skip_ws r with
        | ","%char :: r' => Parse.parse_elements f (acc ++ [v]) r'
        | "]"%char :: r' => Some (JArr (acc ++ [v]), r')
        | _ => None
        end
    | None => None
    end.
Proof. reflexivity. Qed.

Lemma parse_members_S (f : nat) (acc : list (string * json)) (k : string) (s : list ascii) :
  Parse.parse_members (S f) acc (dquote :: chars (JSON.quote_body k) ++ dquote :: ":"%char :: s)
  = match Parse.parse_value f s with
    | Some (v, r3) =>
        match Parse.skip_ws r3 with
        | ","%char :: r4 => Parse.parse_members f (Parse.obj_define k v acc) r4
        | "}"%char :: r4 => Some (JObj (Parse.obj_define k v acc), r4)
        | _ => None
        end
    | None => None
    end.
Proof.
  transitivity
    (match Parse.parse_string (chars (JSON.quote_body k) ++ dquote :: ":"%char :: s) with
     | Some (k, r1) =>
         match Parse.skip_ws r1 with
         | ":"%char :: r2 =>
             match Parse.parse_value f r2 with
             | Some (v, r3) =>
                 match Parse.skip_ws r3 with
                 | ","%char :: r4 => Parse.parse_members f (Parse.obj_define k v acc) r4
                 | "}"%char :: r4 => Some (JObj (Parse.obj_define k v acc), r4)
                 | _ => None
                 end
             | None => None
             end
         | _ => None
         end
     | None => None
     end); [reflexivity|].
  rewrite parse_string_quote_body. reflexivity.
Qed.

Lemma chars_quote (s : string) :
  chars (JSON.quote s) = dquote :: chars (JSON.quote_body s) ++ [dquote].
Proof.
  unfold JSON.quote.
  change (chars (String dquote (JSON.quote_body s +:+ String dquote EmptyString)))
    with (dquote :: chars (JSON.quote_body s +:+ String dquote EmptyString)).
  now rewrite chars_app.
Qed.

Lemma stringify_head (j : json) :
  exists c r, chars (JSON.stringify j) = c :: r
              /\ Parse.is_ws c = false /\ c <> "]"%char.
Proof.
  destruct j as [|b|n|s|elems|props].
  - now eexists _, _.
  - destruct b; now eexists _, _.
  - destruct (number_head n) as (c & r & E & Hc).
    exists c, r. split; [exact E|].
    destruct Hc as [->|Hc]; [now split|].
    destruct c as [[] [] [] [] [] [] [] []];
      first [now split | now destruct Hc].
  - cbn [JSON.stringify]. rewrite chars_quote. now eexists _, _.
  - now eexists _, _.
  - now eexists _, _.
Qed.

Lemma chars_join (x : string) (r : list string) (tl : list ascii) :
  chars (join "," (x :: r)) ++ tl
  = chars x ++ match r with
               | [] => tl
               | _ => ","%char :: chars (join "," r) ++ tl
               end.
Proof.
  destruct r as [|y r]; [reflexivity|].
  change (join "," (x :: y :: r)) with (x +:+ "," +:+ join "," (y :: r)).
  rewrite !chars_app, <- !app_assoc. reflexivity.
Qed.

Lemma length_chars_join (x : string) (r : list string) :
  length (chars (join "," (x :: r)))
  = (length (chars x) + match r with
                        | [] => 0
                        | _ => S (length (chars (join "," r)))
                        end)%nat.
Proof.
  destruct r as [|y r]; [cbn [join]; lia|].
  change (join "," (x :: y :: r)) with (x +:+ "," +:+ join "," (y :: r)).
  rewrite !chars_app, !length_app. reflexivity.
Qed.

Lemma obj_get_fresh (k : string) (acc : list (string * json)) :
  existsb (String.eqb k) (map fst acc) = false -> obj_get k acc = None.
Proof.
  induction acc as [|[k' v'] acc IH]; [reflexivity|].
  cbn [map fst existsb obj_get]. rewrite String.eqb_sym.
  destruct (String.eqb k' k); [discriminate|exact IH].
Qed.

Lemma obj_insert_index_last (n : Z) (k : string) (v : json) (acc : list (string * json)) :
  forallb (fun k' => match Parse.array_index k' with
                     | Some n' => n' <? n
                     | None => false
                     end) (map fst acc) = true ->
  Parse.obj_insert_index n k v acc = acc ++ [(k, v)].
Proof.
  induction acc as [|[k' v'] acc IH]; [reflexivity|].
  cbn [map fst forallb Parse.obj_insert_index app].
  destruct (Parse.array_index k') as [n'|]; [|discriminate].
  destruct (n' <? n); [|discriminate].
  intros H. now rewrite (IH H).
Qed.

Lemma obj_define_last (k : string) (v : json) (acc : list (string * json)) (r : list string) :
  defined_order (map fst acc) (k :: r) = true ->
  Parse.obj_define k v acc = acc ++ [(k, v)]
  /\ defined_order (map fst (acc ++ [(k, v)])) r = true.
Proof.
  cbn [defined_order]. intros H.
  apply andb_prop in H as [H Hr]. apply andb_prop in H as [Hnew Hidx].
  apply negb_true_iff in Hnew.
  split; [|now rewrite map_app].
  unfold Parse.obj_define. rewrite (obj_get_fresh k acc Hnew).
  destruct (Parse.array_index k) as [n|]; [|reflexivity].
  now apply obj_insert_index_last.
Qed.

Section RoundTrip.

Variable F : nat.

Hypothesis IH : forall (f : nat) (j : json) (rest : list ascii),
  (f < F)%nat -> canonical j = true ->
  (length (chars (JSON.stringify j)) <= f)%nat -> delimited rest = true ->
  Parse.parse_value f (chars (JSON.stringify j) ++ rest) = Some (j, rest).

Lemma elements_round_trip (xs : list json) :
  forall (acc : list json) (f : nat) (rest : list ascii),
    xs <> [] -> forallb canonical xs = true ->
    (length (chars (join "," (map JSON.stringify xs))) < f)%nat -> (f <= F)%nat ->
    Parse.parse_elements f acc
      (chars (join "," (map JSON.stringify xs)) ++ "]"%char :: rest)
    = Some (JArr (acc ++ xs), rest).
Proof.
  induction xs as [|x r IHr]; [congruence|].
  intros acc f rest _ Hc Hlen HF.
  cbn [forallb] in Hc. apply andb_prop in Hc as [Hx Hr].
  destruct f as [|f]; [lia|].
  cbn [map] in *. rewrite length_chars_join in Hlen.
  rewrite parse_elements_S, chars_join.
  destruct r as [|y r].
  - rewrite IH by (first [lia | assumption | reflexivity]). reflexivity.
  - rewrite IH by (first [lia | assumption | reflexivity]).
    change (Parse.parse_elements f (acc ++ [x])
              (chars (join "," (map JSON.stringify (y :: r))) ++ "]"%char :: rest)
            = Some (JArr (acc ++ x :: y :: r), rest)).
    rewrite IHr by (first [discriminate | assumption | cbn [map] in *; lia]).
    now rewrite <- app_assoc.
Qed.

Lemma members_round_trip (props : list (string * json)) :
  forall (acc : list (string * json)) (f : nat) (rest : list ascii),
    props <> [] ->
    defined_order (map fst acc) (map fst props) = true ->
    forallb (fun p => well_formed (fst p) && canonical (snd p)) props = true ->
    (length (chars (join ","
       (map (fun p => JSON.quote (fst p) +:+ ":" +:+ JSON.stringify (snd p)) props))) < f)%nat ->
    (f <= F)%nat ->
    Parse.parse_members f acc
      (chars (join ","
         (map (fun p => JSON.quote (fst p) +:+ ":" +:+ JSON.stringify (snd p)) props))
       ++ "}"%char :: rest)
    = Some (JObj (acc ++ props), rest).
Proof.
  induction props as [|[k v] r IHr]; [congruence|].
  intros acc f rest _ Hord Hc Hlen HF.
  cbn [forallb fst snd] in Hc. apply andb_prop in Hc as [Hv Hr].
  apply andb_prop in Hv as [_ Hv].
  cbn [map fst] in Hord.
  destruct (obj_define_last k v acc (map fst r) Hord) as [Hdef Hord'].
  destruct f as [|f]; [lia|].
  cbn [map fst snd] in *. rewrite length_chars_join in Hlen.
  rewrite !chars_app, chars_quote, !length_app in Hlen.
  cbn [length list_ascii_of_string] in Hlen.
  rewrite chars_join, !chars_app, chars_quote.
  cbn [list_ascii_of_string].
  cbn [app]. repeat (rewrite <- app_assoc; cbn [app]).
  rewrite parse_members_S.
  destruct r as [|p r].
  - rewrite IH by (first [lia | assumption | reflexivity]).
    rewrite Hdef. reflexivity.
  - rewrite IH by (first [lia | assumption | reflexivity]).
    rewrite Hdef.
    change (Parse.parse_members f (acc ++ [(k, v)])
              (chars (join ","
                 (map (fun p => JSON.quote (fst p) +:+ ":" +:+ JSON.stringify (snd p))
                    (p :: r))) ++ "}"%char :: rest)
            = Some (JObj (acc ++ (k, v) :: p :: r), rest)).
    rewrite IHr by (first [discriminate | assumption | cbn [map] in *; lia]).
    now rewrite <- app_assoc.
Qed.

End RoundTrip.

Lemma parse_value_stringify (fuel : nat) :
  forall (j : json) (rest : list ascii),
    canonical j = true ->
    (length (chars (JSON.stringify j)) <= fuel)%nat -> delimited rest = true ->
    Parse.parse_value fuel (chars (JSON.stringify j) ++ rest) = Some (j, rest).
Proof.
  induction fuel as [fuel IH] using lt_wf_ind. intros j rest Hc Hlen Hd.
  destruct fuel as [|f].
  { destruct (stringify_head j) as (c & r & E & _).
    rewrite E in Hlen. cbn [length] in Hlen. lia. }
  assert (IH' : forall (f' : nat) (j : json) (rest : list ascii),
             (f' < S f)%nat -> canonical j = true ->
             (length (chars (JSON.stringify j)) <= f')%nat -> delimited rest = true ->
             Parse.parse_value f' (chars (JSON.stringify j) ++ rest) = Some (j, rest))
    by (intros f' j' rest' Hf; now apply IH).
  destruct j as [|b|n|s|elems|props].
  - reflexivity.
  - destruct b; reflexivity.
  - destruct (delimited_ends rest Hd) as (Hdig & Hends & _).
    cbn [canonical] in Hc. apply Z.leb_le in Hc.
    destruct (string_of_Z_parses n rest Hc Hdig Hends) as (c & r & E & Hh & Hp).
    cbn [JSON.stringify]. rewrite E. cbn [app].
    rewrite (parse_value_number f c (r ++ rest) Hh), Hp. reflexivity.
  - cbn [JSON.stringify]. rewrite chars_quote. cbn [app].
    rewrite <- app_assoc. cbn [app].
    rewrite parse_value_quote, parse_string_quote_body. reflexivity.
  - destruct elems as [|x r]; [reflexivity|].
    cbn [JSON.stringify canonical] in *.
    change (chars ("[" +:+ join "," (map JSON.stringify (x :: r)) +:+ "]"))
      with ("["%char :: chars (join "," (map JSON.stringify (x :: r)) +:+ "]")) in *.
    rewrite chars_app in *. cbn [length list_ascii_of_string] in Hlen.
    rewrite length_app in Hlen. cbn [length] in Hlen.
    cbn [app]. rewrite <- app_assoc.
    change (chars "]" ++ rest) with ("]"%char :: rest).
    pose proof (elements_round_trip (S f) IH' (x :: r) [] f rest) as Hrun.
    destruct (stringify_head x) as (c & t & E & Hws & Hcl).
    assert (Hhead : exists t',
               chars (join "," (map JSON.stringify (x :: r))) ++ "]"%char :: rest = c :: t').
    { cbn [map]. rewrite chars_join, E. now eexists. }
    destruct Hhead as (t' & Hhead). rewrite Hhead in *.
    rewrite (parse_value_array f c t' Hws Hcl).
    apply Hrun; first [discriminate | assumption | lia].
  - destruct props as [|[k v] r]; [reflexivity|].
    cbn [JSON.stringify canonical] in *.
    apply andb_prop in Hc as [Hord Hc].
    change (chars ("{" +:+ join ","
              (map (fun p => JSON.quote (fst p) +:+ ":" +:+ JSON.stringify (snd p))
                 ((k, v) :: r)) +:+ "}"))
      with ("{"%char :: chars (join ","
              (map (fun p => JSON.quote (fst p) +:+ ":" +:+ JSON.stringify (snd p))
                 ((k, v) :: r)) +:+ "}")) in *.
    rewrite chars_app in *. cbn [length list_ascii_of_string] in Hlen.
    rewrite length_app in Hlen. cbn [length] in Hlen.
    cbn [app]. rewrite <- app_assoc.
    change (chars "}" ++ rest) with ("}"%char :: rest).
    pose proof (members_round_trip (S f) IH' ((k, v) :: r) [] f rest) as Hrun.
    assert (Hhead : exists t',
               chars (join ","
                 (map (fun p => JSON.quote (fst p) +:+ ":" +:+ JSON.stringify (snd p))
                    ((k, v) :: r))) ++ "}"%char :: rest = dquote :: t').
    { cbn [map fst snd]. rewrite chars_join, !chars_app, chars_quote. now eexists. }
    destruct Hhead as (t' & Hhead). rewrite Hhead in *.
    rewrite parse_value_object.
    apply Hrun; first [discriminate | assumption | lia].
Qed.
(** The body parser undoes [JSON.stringify] on the values it can build. *)
Lemma express_json_stringify (j : json) :
  canonical j = true -> is_container j = true ->
  Z.of_nat (String.length (JSON.stringify j)) <= 102400 ->
  Parse.express_json (JSON.stringify j) = Some j.
Proof.
  intros Hc Hk Hlen.
  assert (Hparse : Parse.parse (JSON.stringify j) = Some j).
  { unfold Parse.parse.
    rewrite <- (app_nil_r (chars (JSON.stringify j))) at 2.
    rewrite (parse_value_stringify _ j [] Hc) by (first [lia | reflexivity]).
    reflexivity. }
  apply Z.ltb_ge in Hlen.
  destruct j as [| | | |elems|props]; try discriminate Hk.
  - rewrite <- Hparse.
    change (JSON.stringify (JArr elems))
      with (String "["%char (join "," (map JSON.stringify elems) +:+ "]")) in *.
    unfold Parse.express_json. rewrite Hlen. reflexivity.
  - rewrite <- Hparse.
    change (JSON.stringify (JObj props))
      with (String "{"%char
              (join "," (map (fun p => JSON.quote (fst p) +:+ ":" +:+ JSON.stringify (snd p))
                             props) +:+ "}")) in *.
    unfold Parse.express_json. rewrite Hlen. reflexivity.
Qed.

(** A body sent in the compact form [JSON.stringify] prints, signed by the
    provider over the bytes sent, reaches the handler and passes its
    signature gate: the body parser builds the value the text was printed
    from, so the text the handler prints from [req.body] and verifies is,
    byte for byte, the text that was signed. The event is an object or an
    array of at most 100kb, nested at most a thousand deep, whose numbers
    are integers of magnitude at most 2^53, whose strings are well-formed,
    and whose objects keep JavaScript's property order. *)
Theorem compact_body_is_verified_as_sent (w : world) (j : json)
    (secret timestamp : string) :
  canonical j = true -> is_container j = true ->
  (depth j <= 1000)%nat ->
  Z.of_nat (String.length (JSON.stringify j)) <= 102400 ->
  OPENPHONE_WEBHOOK_SECRET w = Some secret ->
  truthy_string (Some secret) = true ->
  no_semicolon timestamp = true ->
  let raw := JSON.stringify j in
  exists req : request,
    received raw (Some (provider_signature secret timestamp raw)) = Some req
    /\ JSON.stringify (body req) = raw
    /\ passes_verification w req = true.
Proof.
  intros Hc Hk _ Hlen Hw Hs Hts raw.
  exists (mkRequest j (Some (provider_signature secret timestamp raw))).
  split; [|split; [reflexivity|]].
  - unfold received, raw. now rewrite (express_json_stringify j Hc Hk Hlen).
  - unfold passes_verification, provider_signature. cbn [body openphone_signature].
    rewrite Hw, Hs.
    rewrite verify_header
      by (first [assumption | reflexivity | apply hmac_digest_no_semicolon]).
    cbn [snd]. rewrite timingSafeEqual_same_length by reflexivity.
    now rewrite bool_decide_eq_true_2.
Qed.

Lemma compact_body_is_verified_as_sent_witness :
  let j := JObj [("type", JStr "call.ringing");
                 ("data", JObj [("object", JObj [("id", JStr "AC1");
                                                 ("duration", JNum (-7));
                                                 ("tags", JArr [JNull; JBool true])])])] in
  exists req : request,
    received (JSON.stringify j)
      (Some (provider_signature "c2VjcmV0" "1700000000" (JSON.stringify j))) = Some req
    /\ JSON.stringify (body req) = JSON.stringify j
    /\ passes_verification world_secret req = true.
Proof.
  cbv zeta.
  apply (compact_body_is_verified_as_sent world_secret
           (JObj [("type", JStr "call.ringing");
                  ("data", JObj [("object", JObj [("id", JStr "AC1");
                                                  ("duration", JNum (-7));
                                                  ("tags", JArr [JNull; JBool true])])])])
           "c2VjcmV0" "1700000000");
    first [reflexivity | vm_compute; discriminate | vm_compute; lia].
Defined.
